(** * Broadcast campaigns of the messaging-bot backend

    A shallow embedding of the broadcast code of the repository:
    - [TelegramBroadcastService] (internal/services/cleanup_service.go),
    - [BroadcastService] (the service file with [SendBroadcast] and
      [UpdateBroadcast]),
    - [WhatsAppService.BroadcastMessage] with [processBroadcastBatch] and
      [SendMessage] (internal/services/cleanup_service.go).

    Go code that talks to a database, a clock, an id generator and two HTTP
    gateways becomes explicit state passing: a [World] holds the tables the
    services read and write, and the state of everything outside the process.
    Each Go function that returns an [error] becomes a computation in the
    monad [M], which returns either an [error] or a value, and the next
    world; a run-time panic is a third way to end, kept apart from the
    error values wherever the code looks at an [err]. *)

From Stdlib Require Import ZArith String List Lia.
From stdpp Require Import base gmap strings list pretty.

Local Open Scope string_scope.
Local Open Scope Z_scope.

(** ** Identifiers, instants and Go errors *)

(** [uuid.UUID] values are opaque 128-bit identifiers: only equality is used. *)
Abbreviation UUID := N (only parsing).

(** [time.Time] as nanoseconds since the epoch; [time.Duration] is an int64
    count of nanoseconds. *)
Abbreviation Time := Z (only parsing).

Definition wrap64 (z : Z) : Z := (z + 2 ^ 63) mod 2 ^ 64 - 2 ^ 63.

Definition Second : Z := 1000000000.

(** [time.Duration(n) * time.Second]: an int64 product. *)
Definition Duration_mul (n d : Z) : Z := wrap64 (n * d).

(** [t.Add(d)]. *)
Definition Time_Add (t : Z) (d : Z) : Z := t + d.

(** The ways a call ends without a result.  The first four are the
    [error] values the services see: [ErrRecordNotFound] is what [First]
    gives on an absent row, [ErrDuplicateKey] what an INSERT gives on an
    existing primary key, [ErrStorage] any other failure of the database,
    and [Errorf] an error built with [fmt.Errorf] or received from a
    gateway.  [Panic] is no error value: it is a run-time panic (an index
    out of range), which no [if err != nil] of the callers sees and which
    ends every function on the stack. *)
Inductive error : Type :=
| ErrRecordNotFound
| ErrDuplicateKey
| ErrStorage (detail : string)
| Errorf (msg : string)
| Panic (msg : string).

(** [err.Error()] *)
Definition Error (e : error) : string :=
  match e with
  | ErrRecordNotFound => "record not found"
  | ErrDuplicateKey => "duplicate key value violates unique constraint"
  | ErrStorage detail => detail
  | Errorf msg => msg
  | Panic msg => msg
  end.

(** ** Models *)

(** [models.TelegramBroadcast].  The counters are Go [int]s; they only ever
    hold numbers between [0] and the length of a slice, so no wrap-around
    occurs.  [Recipients] are int64 chat ids. *)
Module TelegramBroadcast.
Record t : Type := mk {
  ID : UUID;
  Name : string;
  Message : string;
  Recipients : list Z;
  Status : string;
  SuccessCount : Z;
  FailureCount : Z;
  UserID : UUID;
  CreatedAt : Time;
  UpdatedAt : Time;
  SentAt : option Time;
  CompletedAt : option Time
}.

Definition set_Name (v : string) (b : t) : t :=
  mk (ID b) v (Message b) (Recipients b) (Status b) (SuccessCount b)
     (FailureCount b) (UserID b) (CreatedAt b) (UpdatedAt b) (SentAt b)
     (CompletedAt b).
Definition set_Message (v : string) (b : t) : t :=
  mk (ID b) (Name b) v (Recipients b) (Status b) (SuccessCount b)
     (FailureCount b) (UserID b) (CreatedAt b) (UpdatedAt b) (SentAt b)
     (CompletedAt b).
Definition set_Recipients (v : list Z) (b : t) : t :=
  mk (ID b) (Name b) (Message b) v (Status b) (SuccessCount b)
     (FailureCount b) (UserID b) (CreatedAt b) (UpdatedAt b) (SentAt b)
     (CompletedAt b).
Definition set_Status (v : string) (b : t) : t :=
  mk (ID b) (Name b) (Message b) (Recipients b) v (SuccessCount b)
     (FailureCount b) (UserID b) (CreatedAt b) (UpdatedAt b) (SentAt b)
     (CompletedAt b).
Definition set_SuccessCount (v : Z) (b : t) : t :=
  mk (ID b) (Name b) (Message b) (Recipients b) (Status b) v
     (FailureCount b) (UserID b) (CreatedAt b) (UpdatedAt b) (SentAt b)
     (CompletedAt b).
Definition set_FailureCount (v : Z) (b : t) : t :=
  mk (ID b) (Name b) (Message b) (Recipients b) (Status b) (SuccessCount b)
     v (UserID b) (CreatedAt b) (UpdatedAt b) (SentAt b) (CompletedAt b).
Definition set_UpdatedAt (v : Time) (b : t) : t :=
  mk (ID b) (Name b) (Message b) (Recipients b) (Status b) (SuccessCount b)
     (FailureCount b) (UserID b) (CreatedAt b) v (SentAt b) (CompletedAt b).
Definition set_SentAt (v : option Time) (b : t) : t :=
  mk (ID b) (Name b) (Message b) (Recipients b) (Status b) (SuccessCount b)
     (FailureCount b) (UserID b) (CreatedAt b) (UpdatedAt b) v
     (CompletedAt b).
Definition set_CompletedAt (v : option Time) (b : t) : t :=
  mk (ID b) (Name b) (Message b) (Recipients b) (Status b) (SuccessCount b)
     (FailureCount b) (UserID b) (CreatedAt b) (UpdatedAt b) (SentAt b) v.
End TelegramBroadcast.

(** Modelled from the spec: the declaration of the [models.Broadcast] that
    [BroadcastService] works on is not among the sources.  The fields are
    those of the spec's Campaign (identity, content, recipients, status,
    timestamps, the two counters), under the names and with the types that
    the service and the model test use: [Recipients] are phone numbers,
    [ScheduleAt] is a [*time.Time]. *)
Module Broadcast.
Record t : Type := mk {
  ID : UUID;
  Name : string;
  Message : string;
  Recipients : list string;
  Status : string;
  SuccessCount : Z;
  FailureCount : Z;
  UserID : UUID;
  ScheduleAt : option Time;
  CreatedAt : Time;
  UpdatedAt : Time;
  SentAt : option Time;
  CompletedAt : option Time
}.

Definition set_Name (v : string) (b : t) : t :=
  mk (ID b) v (Message b) (Recipients b) (Status b) (SuccessCount b)
     (FailureCount b) (UserID b) (ScheduleAt b) (CreatedAt b) (UpdatedAt b)
     (SentAt b) (CompletedAt b).
Definition set_Message (v : string) (b : t) : t :=
  mk (ID b) (Name b) v (Recipients b) (Status b) (SuccessCount b)
     (FailureCount b) (UserID b) (ScheduleAt b) (CreatedAt b) (UpdatedAt b)
     (SentAt b) (CompletedAt b).
Definition set_Recipients (v : list string) (b : t) : t :=
  mk (ID b) (Name b) (Message b) v (Status b) (SuccessCount b)
     (FailureCount b) (UserID b) (ScheduleAt b) (CreatedAt b) (UpdatedAt b)
     (SentAt b) (CompletedAt b).
Definition set_Status (v : string) (b : t) : t :=
  mk (ID b) (Name b) (Message b) (Recipients b) v (SuccessCount b)
     (FailureCount b) (UserID b) (ScheduleAt b) (CreatedAt b) (UpdatedAt b)
     (SentAt b) (CompletedAt b).
Definition set_SuccessCount (v : Z) (b : t) : t :=
  mk (ID b) (Name b) (Message b) (Recipients b) (Status b) v
     (FailureCount b) (UserID b) (ScheduleAt b) (CreatedAt b) (UpdatedAt b)
     (SentAt b) (CompletedAt b).
Definition set_FailureCount (v : Z) (b : t) : t :=
  mk (ID b) (Name b) (Message b) (Recipients b) (Status b) (SuccessCount b)
     v (UserID b) (ScheduleAt b) (CreatedAt b) (UpdatedAt b) (SentAt b)
     (CompletedAt b).
Definition set_ScheduleAt (v : option Time) (b : t) : t :=
  mk (ID b) (Name b) (Message b) (Recipients b) (Status b) (SuccessCount b)
     (FailureCount b) (UserID b) v (CreatedAt b) (UpdatedAt b) (SentAt b)
     (CompletedAt b).
Definition set_UpdatedAt (v : Time) (b : t) : t :=
  mk (ID b) (Name b) (Message b) (Recipients b) (Status b) (SuccessCount b)
     (FailureCount b) (UserID b) (ScheduleAt b) (CreatedAt b) v (SentAt b)
     (CompletedAt b).
Definition set_SentAt (v : option Time) (b : t) : t :=
  mk (ID b) (Name b) (Message b) (Recipients b) (Status b) (SuccessCount b)
     (FailureCount b) (UserID b) (ScheduleAt b) (CreatedAt b) (UpdatedAt b)
     v (CompletedAt b).
Definition set_CompletedAt (v : option Time) (b : t) : t :=
  mk (ID b) (Name b) (Message b) (Recipients b) (Status b) (SuccessCount b)
     (FailureCount b) (UserID b) (ScheduleAt b) (CreatedAt b) (UpdatedAt b)
     (SentAt b) v.
End Broadcast.

(** The [models.Broadcast] of internal/models/models.go, which
    [WhatsAppService.BroadcastMessage] fills in.  Of the embedded
    [BaseModel] only the primary key is kept: the bookkeeping columns are
    maintained by the ORM and never read by the code below.  The recipient
    rows live in their own table. *)
Module WaBroadcast.
Record t : Type := mk {
  ID : UUID;
  UserID : UUID;
  Name : string;
  Content : string;
  MessageType : string;
  MediaURL : string;
  Status : string;
  ScheduledAt : option Time;
  SentAt : option Time;
  TotalSent : Z;
  TotalFailed : Z
}.

Definition set_ID (v : UUID) (b : t) : t :=
  mk v (UserID b) (Name b) (Content b) (MessageType b) (MediaURL b)
     (Status b) (ScheduledAt b) (SentAt b) (TotalSent b) (TotalFailed b).
Definition set_MessageType (v : string) (b : t) : t :=
  mk (ID b) (UserID b) (Name b) (Content b) v (MediaURL b)
     (Status b) (ScheduledAt b) (SentAt b) (TotalSent b) (TotalFailed b).
Definition set_Status (v : string) (b : t) : t :=
  mk (ID b) (UserID b) (Name b) (Content b) (MessageType b) (MediaURL b)
     v (ScheduledAt b) (SentAt b) (TotalSent b) (TotalFailed b).
Definition set_SentAt (v : option Time) (b : t) : t :=
  mk (ID b) (UserID b) (Name b) (Content b) (MessageType b) (MediaURL b)
     (Status b) (ScheduledAt b) v (TotalSent b) (TotalFailed b).
Definition set_TotalSent (v : Z) (b : t) : t :=
  mk (ID b) (UserID b) (Name b) (Content b) (MessageType b) (MediaURL b)
     (Status b) (ScheduledAt b) (SentAt b) v (TotalFailed b).
Definition set_TotalFailed (v : Z) (b : t) : t :=
  mk (ID b) (UserID b) (Name b) (Content b) (MessageType b) (MediaURL b)
     (Status b) (ScheduledAt b) (SentAt b) (TotalSent b) v.
End WaBroadcast.

(** [models.BroadcastRecipient], with the [MessageID] that
    [processBroadcastBatch] assigns. *)
Module BroadcastRecipient.
Record t : Type := mk {
  BroadcastID : UUID;
  ContactID : UUID;
  Status : string;
  SentAt : option Time;
  Error : string;
  MessageID : UUID
}.
End BroadcastRecipient.

(** [models.Message], as [WhatsAppService.SendMessage] builds it.  Of the
    embedded [BaseModel] only the primary key is kept; no code below reads
    or filters on the bookkeeping columns. *)
Module Message.
Record t : Type := mk {
  ID : UUID;
  UserID : UUID;
  MessageID : string;
  Content : string;
  MessageType : string;
  Direction : string;
  Status : string;
  Timestamp : Time
}.
End Message.

(** [whatsapp.MessageRequest]: [Text] and [Image] are pointers. *)
Module MessageRequest.
Record t : Type := mk {
  MessagingProduct : string;
  RecipientType : string;
  To : string;
  Type_ : string;
  Text : option string;
  Image : option string
}.
End MessageRequest.

(** ** The world outside the services *)

(** Everything the services call but do not implement: the clock, the random
    id generator, the health of the database connection, the two HTTP
    clients and the contact directory.  Each is a deterministic function of
    an abstract outside state [Ext]; the theorems below hold for every
    choice of [Ext] and of these functions.

    - [db_fault] is consulted once by every database statement; [Some d]
      makes that statement fail with [ErrStorage d].
    - [whatsapp_Client_Do] is the HTTP exchange of
      [whatsapp.Client.SendMessage] with the decoding of the reply
      (pkg/whatsapp/client.go, up to the check of [result.Error]): the text
      of the error that the client builds with [fmt.Errorf], or the ids of
      [result.Messages], of which there may be none.
    - [ContactService_FindOrCreateContact] and
      [ContactService_UpdateLastMessageTime] are called by [WhatsAppService]
      and are not among the sources; the first gives an error or the id of
      the contact. *)
Class Outside : Type := {
  Ext : Type;
  time_Now : Ext -> Time * Ext;
  uuid_New : Ext -> UUID * Ext;
  db_fault : Ext -> option string * Ext;
  time_Parse : string -> string -> error + Time;
  telegram_Client_SendMessage : Z -> string -> string -> Ext -> option error * Ext;
  whatsapp_Client_Do : MessageRequest.t -> Ext -> (string + list string) * Ext;
  ContactService_FindOrCreateContact : string -> Ext -> (error + UUID) * Ext;
  ContactService_UpdateLastMessageTime : string -> Time -> Ext -> Ext
}.

(** The tables. *)
Record Database : Type := mkDatabase {
  telegram_broadcasts : gmap N TelegramBroadcast.t;
  broadcasts : gmap N Broadcast.t;
  wa_broadcasts : gmap N WaBroadcast.t;
  broadcast_recipients : list BroadcastRecipient.t;
  messages : list Message.t
}.

Definition set_telegram_broadcasts (v : gmap N TelegramBroadcast.t) (d : Database) : Database :=
  mkDatabase v (broadcasts d) (wa_broadcasts d) (broadcast_recipients d) (messages d).
Definition set_broadcasts (v : gmap N Broadcast.t) (d : Database) : Database :=
  mkDatabase (telegram_broadcasts d) v (wa_broadcasts d) (broadcast_recipients d) (messages d).
Definition set_wa_broadcasts (v : gmap N WaBroadcast.t) (d : Database) : Database :=
  mkDatabase (telegram_broadcasts d) (broadcasts d) v (broadcast_recipients d) (messages d).
Definition set_broadcast_recipients (v : list BroadcastRecipient.t) (d : Database) : Database :=
  mkDatabase (telegram_broadcasts d) (broadcasts d) (wa_broadcasts d) v (messages d).
Definition set_messages (v : list Message.t) (d : Database) : Database :=
  mkDatabase (telegram_broadcasts d) (broadcasts d) (wa_broadcasts d) (broadcast_recipients d) v.

Record World `{Outside} : Type := mkWorld {
  DB : Database;
  ext : Ext
}.

(** ** The monad of fallible, stateful computations *)

Section Monad.
Context `{Outside}.

Definition M (A : Type) : Type := World -> (error + A) * World.

Definition ret {A} (a : A) : M A := fun w => (inr a, w).

Definition raise {A} (e : error) : M A := fun w => (inl e, w).

Definition bind {A B} (m : M A) (k : A -> M B) : M B :=
  fun w =>
    match m w with
    | (inl e, w') => (inl e, w')
    | (inr a, w') => k a w'
    end.

(** Calls an outside function. *)
Definition call {A} (f : Ext -> A * Ext) : M A :=
  fun w => let '(a, x) := f (ext w) in (inr a, mkWorld _ (DB w) x).

(** [v, err := m]: the error becomes a value and the statement itself
    does not fail; a panic of [m] is not an error value and goes on to the
    caller. *)
Definition attempt {A} (m : M A) : M (error + A) :=
  fun w =>
    match m w with
    | (inl (Panic msg), w') => (inl (Panic msg), w')
    | (r, w') => (inr r, w')
    end.

(** One database statement.  A fault of the connection fails it and
    leaves the tables alone; otherwise [f] decides. *)
Definition db_exec {A} (f : Database -> error + A * Database) : M A :=
  fun w =>
    let '(flt, x) := db_fault (ext w) in
    match flt with
    | Some d => (inl (ErrStorage d), mkWorld _ (DB w) x)
    | None =>
        match f (DB w) with
        | inl e => (inl e, mkWorld _ (DB w) x)
        | inr (a, d') => (inr a, mkWorld _ d' x)
        end
    end.
End Monad.

Declare Scope go_scope.
Delimit Scope go_scope with go.
Notation "x <- c1 ;; c2" := (bind c1 (fun x => c2))
  (at level 100, c1 at next level, right associativity) : go_scope.
Notation "c1 ;;; c2" := (bind c1 (fun _ => c2))
  (at level 100, right associativity) : go_scope.

(** ** TelegramBroadcastService *)

Section TelegramBroadcastService.
Context `{Outside}.
Local Open Scope go_scope.

(** [s.db.DB.Where("id = ?", id).First(&broadcast)] *)
Definition telegram_First (id : UUID) : M TelegramBroadcast.t :=
  db_exec (fun d =>
    match telegram_broadcasts d !! id with
    | Some b => inr (b, d)
    | None => inl ErrRecordNotFound
    end).

(** [s.db.DB.Save(&broadcast)]: writes the row under its primary key. *)
Definition telegram_Save (b : TelegramBroadcast.t) : M unit :=
  db_exec (fun d =>
    inr (tt, set_telegram_broadcasts
               (<[TelegramBroadcast.ID b := b]> (telegram_broadcasts d)) d)).

(** [s.db.DB.Create(broadcast)]: an INSERT, refused on an existing key. *)
Definition telegram_Create (b : TelegramBroadcast.t) : M unit :=
  db_exec (fun d =>
    match telegram_broadcasts d !! TelegramBroadcast.ID b with
    | Some _ => inl ErrDuplicateKey
    | None =>
        inr (tt, set_telegram_broadcasts
                   (<[TelegramBroadcast.ID b := b]> (telegram_broadcasts d)) d)
    end).

(** [TelegramService.SendMessage(chatID, text)] *)
Definition TelegramService_SendMessage (chatID : Z) (text : string) : M (option error) :=
  call (telegram_Client_SendMessage chatID text "").

Definition CreateTelegramBroadcast (name message : string) (recipients : list Z)
    (userID : UUID) : M TelegramBroadcast.t :=
  id <- call uuid_New ;;
  created <- call time_Now ;;
  updated <- call time_Now ;;
  let broadcast :=
    TelegramBroadcast.mk id name message recipients "pending" 0 0 userID
      created updated None None in
  telegram_Create broadcast ;;;
  ret broadcast.

Definition GetTelegramBroadcast (broadcastID : UUID) : M TelegramBroadcast.t :=
  telegram_First broadcastID.

(** [recipients] is a slice: [None] is Go's [nil]. *)
Definition UpdateTelegramBroadcast (broadcastID : UUID) (name message : string)
    (recipients : option (list Z)) : M TelegramBroadcast.t :=
  broadcast <- telegram_First broadcastID ;;
  let broadcast :=
    if bool_decide (name <> "") then TelegramBroadcast.set_Name name broadcast
    else broadcast in
  let broadcast :=
    if bool_decide (message <> "") then TelegramBroadcast.set_Message message broadcast
    else broadcast in
  let broadcast :=
    match recipients with
    | Some l => TelegramBroadcast.set_Recipients l broadcast
    | None => broadcast
    end in
  now <- call time_Now ;;
  let broadcast := TelegramBroadcast.set_UpdatedAt now broadcast in
  telegram_Save broadcast ;;;
  ret broadcast.

(** The loop of [SendTelegramBroadcast] over [broadcast.Recipients]; a
    failed send is logged and the loop goes on. *)
Fixpoint telegram_send_loop (message : string) (recipients : list Z)
    (successCount : Z) : M Z :=
  match recipients with
  | [] => ret successCount
  | recipient :: rest =>
      err <- TelegramService_SendMessage recipient message ;;
      match err with
      | Some _ => telegram_send_loop message rest successCount
      | None => telegram_send_loop message rest (successCount + 1)
      end
  end.

Definition SendTelegramBroadcast (broadcastID : UUID) : M unit :=
  broadcast <- telegram_First broadcastID ;;
  now <- call time_Now ;;
  let broadcast :=
    TelegramBroadcast.set_SentAt (Some now)
      (TelegramBroadcast.set_Status "sending" broadcast) in
  telegram_Save broadcast ;;;
  successCount <-
    telegram_send_loop (TelegramBroadcast.Message broadcast)
      (TelegramBroadcast.Recipients broadcast) 0 ;;
  let broadcast := TelegramBroadcast.set_Status "completed" broadcast in
  let broadcast := TelegramBroadcast.set_SuccessCount successCount broadcast in
  let broadcast :=
    TelegramBroadcast.set_FailureCount
      (Z.of_nat (length (TelegramBroadcast.Recipients broadcast)) - successCount)
      broadcast in
  now <- call time_Now ;;
  let broadcast := TelegramBroadcast.set_CompletedAt (Some now) broadcast in
  telegram_Save broadcast.

Definition CancelTelegramBroadcast (broadcastID : UUID) : M unit :=
  broadcast <- telegram_First broadcastID ;;
  if bool_decide (TelegramBroadcast.Status broadcast <> "pending") then
    raise (Errorf "can only cancel pending broadcasts")
  else
    let broadcast := TelegramBroadcast.set_Status "cancelled" broadcast in
    now <- call time_Now ;;
    let broadcast := TelegramBroadcast.set_UpdatedAt now broadcast in
    telegram_Save broadcast.

Definition DuplicateTelegramBroadcast (broadcastID userID : UUID) : M TelegramBroadcast.t :=
  original <- telegram_First broadcastID ;;
  id <- call uuid_New ;;
  created <- call time_Now ;;
  updated <- call time_Now ;;
  let newBroadcast :=
    TelegramBroadcast.mk id (TelegramBroadcast.Name original +:+ " (Copy)")
      (TelegramBroadcast.Message original) (TelegramBroadcast.Recipients original)
      "pending" 0 0 userID created updated None None in
  telegram_Create newBroadcast ;;;
  ret newBroadcast.

(** [fmt.Sprintf("Invalid recipient ID: %d", recipient)] *)
Definition invalid_recipient (recipient : Z) : string :=
  "Invalid recipient ID: " +:+ pretty recipient.

(** The loop of [ValidateRecipients], with its two accumulators. *)
Fixpoint ValidateRecipients_loop (recipients validRecipients : list Z)
    (errors : list string) : list Z * list string :=
  match recipients with
  | [] => (validRecipients, errors)
  | recipient :: rest =>
      if (recipient <=? 0)%Z then
        ValidateRecipients_loop rest validRecipients
          (errors ++ [invalid_recipient recipient])%list
      else
        ValidateRecipients_loop rest (validRecipients ++ [recipient])%list errors
  end.

Definition ValidateRecipients (recipients : list Z) : list Z * list string :=
  ValidateRecipients_loop recipients [] [].

(** The [map[string]interface{}] that [PreviewTelegramBroadcast] fills. *)
Record Preview : Type := mkPreview {
  preview_message : string;
  recipient_count : Z;
  estimated_delivery : Time;
  message_length : Z;
  has_media : bool;
  has_links : bool
}.

(** [len(message)] is the number of bytes of the string. *)
Definition PreviewTelegramBroadcast (message : string) (recipients : list Z) : M Preview :=
  now <- call time_Now ;;
  ret (mkPreview message
         (Z.of_nat (length recipients))
         (Time_Add now (Duration_mul (Z.of_nat (length recipients)) Second))
         (Z.of_nat (String.length message))
         false false).

Definition ExportTelegramBroadcastRecipients (broadcastID : UUID) : M (list Z) :=
  broadcast <- telegram_First broadcastID ;;
  ret (TelegramBroadcast.Recipients broadcast).

(** The warning logged when [errors] is not empty changes no state. *)
Definition ImportTelegramBroadcastRecipients (broadcastID : UUID)
    (recipients : list Z) : M unit :=
  broadcast <- telegram_First broadcastID ;;
  let '(validRecipients, errors) := ValidateRecipients recipients in
  let broadcast := TelegramBroadcast.set_Recipients validRecipients broadcast in
  now <- call time_Now ;;
  let broadcast := TelegramBroadcast.set_UpdatedAt now broadcast in
  telegram_Save broadcast.
End TelegramBroadcastService.

(** ** BroadcastService *)

Section BroadcastService.
Context `{Outside}.
Local Open Scope go_scope.

Definition broadcast_First (id : UUID) : M Broadcast.t :=
  db_exec (fun d =>
    match broadcasts d !! id with
    | Some b => inr (b, d)
    | None => inl ErrRecordNotFound
    end).

Definition broadcast_Save (b : Broadcast.t) : M unit :=
  db_exec (fun d =>
    inr (tt, set_broadcasts (<[Broadcast.ID b := b]> (broadcasts d)) d)).

Definition schedule_layout : string := "YYYY-MM-DD HH:mm:ss".

Definition UpdateBroadcast (broadcastID : UUID) (name message : string)
    (recipients : option (list string)) (scheduleAt : string) : M Broadcast.t :=
  broadcast <- broadcast_First broadcastID ;;
  let broadcast :=
    if bool_decide (name <> "") then Broadcast.set_Name name broadcast
    else broadcast in
  let broadcast :=
    if bool_decide (message <> "") then Broadcast.set_Message message broadcast
    else broadcast in
  let broadcast :=
    match recipients with
    | Some l => Broadcast.set_Recipients l broadcast
    | None => broadcast
    end in
  broadcast <-
    (if bool_decide (scheduleAt <> "") then
       match time_Parse schedule_layout scheduleAt with
       | inl err => raise err
       | inr scheduleTime => ret (Broadcast.set_ScheduleAt (Some scheduleTime) broadcast)
       end
     else ret broadcast) ;;
  now <- call time_Now ;;
  let broadcast := Broadcast.set_UpdatedAt now broadcast in
  broadcast_Save broadcast ;;;
  ret broadcast.

(** The loop of [SendBroadcast]: no gateway is called, every recipient
    counts as a success. *)
Fixpoint broadcast_send_loop (recipients : list string) (successCount : Z) : Z :=
  match recipients with
  | [] => successCount
  | _ :: rest => broadcast_send_loop rest (successCount + 1)
  end.

Definition SendBroadcast (broadcastID : UUID) : M unit :=
  broadcast <- broadcast_First broadcastID ;;
  now <- call time_Now ;;
  let broadcast :=
    Broadcast.set_SentAt (Some now) (Broadcast.set_Status "sending" broadcast) in
  broadcast_Save broadcast ;;;
  let successCount := broadcast_send_loop (Broadcast.Recipients broadcast) 0 in
  let broadcast := Broadcast.set_Status "completed" broadcast in
  let broadcast := Broadcast.set_SuccessCount successCount broadcast in
  let broadcast :=
    Broadcast.set_FailureCount
      (Z.of_nat (length (Broadcast.Recipients broadcast)) - successCount)
      broadcast in
  now <- call time_Now ;;
  let broadcast := Broadcast.set_CompletedAt (Some now) broadcast in
  broadcast_Save broadcast.
End BroadcastService.

(** ** WhatsAppService *)

Section WhatsAppService.
Context `{Outside}.
Local Open Scope go_scope.

(** [s.sm.DB.Create(message)]: the database generates the primary key. *)
Definition message_Create (m : Message.t) : M Message.t :=
  id <- call uuid_New ;;
  let m :=
    Message.mk id (Message.UserID m) (Message.MessageID m) (Message.Content m)
      (Message.MessageType m) (Message.Direction m) (Message.Status m)
      (Message.Timestamp m) in
  db_exec (fun d => inr (m, set_messages (messages d ++ [m])%list d)).

(** [s.sm.DB.Create(recipientModel)]: rows are kept in insertion order. *)
Definition recipient_Create (r : BroadcastRecipient.t) : M unit :=
  db_exec (fun d =>
    inr (tt, set_broadcast_recipients (broadcast_recipients d ++ [r])%list d)).

(** [s.sm.DB.Create(broadcast)].  The database generates the primary key,
    and a column that is blank in the struct and has a default in
    models.go takes that default: ['text'] for [MessageType], ['draft'] for
    [Status] (the default [0] of the two counters is their blank value).
    The ORM reads these columns back into [*broadcast]. *)
Definition wa_broadcast_Create (b : WaBroadcast.t) : M WaBroadcast.t :=
  id <- call uuid_New ;;
  let b := WaBroadcast.set_ID id b in
  let b :=
    if bool_decide (WaBroadcast.MessageType b = "") then
      WaBroadcast.set_MessageType "text" b
    else b in
  let b :=
    if bool_decide (WaBroadcast.Status b = "") then WaBroadcast.set_Status "draft" b
    else b in
  db_exec (fun d =>
    match wa_broadcasts d !! id with
    | Some _ => inl ErrDuplicateKey
    | None => inr (b, set_wa_broadcasts (<[id := b]> (wa_broadcasts d)) d)
    end).

Definition wa_broadcast_Save (b : WaBroadcast.t) : M unit :=
  db_exec (fun d =>
    inr (tt, set_wa_broadcasts (<[WaBroadcast.ID b := b]> (wa_broadcasts d)) d)).

(** [result.Messages[0]] on an empty slice. *)
Definition index_out_of_range : error :=
  Panic "runtime error: index out of range [0] with length 0".

(** [whatsapp.Client.SendMessage] (pkg/whatsapp/client.go).  An error of
    the exchange is returned; otherwise the client logs
    [result.Messages[0].ID] before it returns the reply, which panics on a
    reply without messages. *)
Definition whatsapp_Client_SendMessage (message : MessageRequest.t) : M (list string) :=
  result <- call (whatsapp_Client_Do message) ;;
  match result with
  | inl msg => raise (Errorf msg)
  | inr messages =>
      match messages with
      | [] => raise index_out_of_range
      | _ :: _ => ret messages
      end
  end.

Definition SendMessage (userID : UUID) (to content messageType : string) : M Message.t :=
  let waReq :=
    if bool_decide (messageType = "text") then
      MessageRequest.mk "whatsapp" "individual" to "text" (Some content) None
    else if bool_decide (messageType = "image") then
      MessageRequest.mk "whatsapp" "individual" to "image" None (Some content)
    else
      MessageRequest.mk "whatsapp" "individual" to "text" (Some content) None in
  resp <- whatsapp_Client_SendMessage waReq ;;
  match resp with
  | [] => raise index_out_of_range
  | messageID :: _ =>
      now <- call time_Now ;;
      let message :=
        Message.mk 0%N userID messageID content messageType "outgoing" "sent" now in
      message <- message_Create message ;;
      now <- call time_Now ;;
      call (fun x => (tt, ContactService_UpdateLastMessageTime to now x)) ;;;
      ret message
  end.

(** One turn of the loop of [processBroadcastBatch].  [broadcast] is a
    pointer in the source: the updated struct is threaded through. *)
Definition processBroadcastRecipient (broadcast : WaBroadcast.t) (recipient : string)
    : M WaBroadcast.t :=
  let recipientModel :=
    BroadcastRecipient.mk (WaBroadcast.ID broadcast) 0%N "pending" None "" 0%N in
  contact <- call (ContactService_FindOrCreateContact recipient) ;;
  match contact with
  | inl err =>
      let recipientModel :=
        BroadcastRecipient.mk (BroadcastRecipient.BroadcastID recipientModel)
          (BroadcastRecipient.ContactID recipientModel) "failed"
          (BroadcastRecipient.SentAt recipientModel) (Error err)
          (BroadcastRecipient.MessageID recipientModel) in
      attempt (recipient_Create recipientModel) ;;;
      ret broadcast
  | inr contactID =>
      sent <- attempt (SendMessage (WaBroadcast.UserID broadcast) recipient
                     (WaBroadcast.Content broadcast) (WaBroadcast.MessageType broadcast)) ;;
      match sent with
      | inl err =>
          let recipientModel :=
            BroadcastRecipient.mk (WaBroadcast.ID broadcast) contactID "failed"
              None (Error err) 0%N in
          let broadcast :=
            WaBroadcast.set_TotalFailed (WaBroadcast.TotalFailed broadcast + 1) broadcast in
          attempt (recipient_Create recipientModel) ;;;
          ret broadcast
      | inr message =>
          now <- call time_Now ;;
          let recipientModel :=
            BroadcastRecipient.mk (WaBroadcast.ID broadcast) contactID "sent"
              (Some now) "" (Message.ID message) in
          let broadcast :=
            WaBroadcast.set_TotalSent (WaBroadcast.TotalSent broadcast + 1) broadcast in
          attempt (recipient_Create recipientModel) ;;;
          ret broadcast
      end
  end.

(** [processBroadcastBatch]: the updated [*broadcast] and the returned
    error, which is always [nil]. *)
Fixpoint processBroadcastBatch (broadcast : WaBroadcast.t) (recipients : list string)
    : M (WaBroadcast.t * option error) :=
  match recipients with
  | [] => ret (broadcast, None)
  | recipient :: rest =>
      broadcast <- processBroadcastRecipient broadcast recipient ;;
      processBroadcastBatch broadcast rest
  end.

Definition batchSize : nat := 50.

(** [recipients[i:end]] with [end = min(i + batchSize, len(recipients))]. *)
Definition batch_at (recipients : list string) (i : nat) : list string :=
  let end_ := (i + batchSize)%nat in
  let end_ :=
    if (length recipients <? end_)%nat then length recipients else end_ in
  take (end_ - i) (drop i recipients).

(** The loop [for i := 0; i < len(recipients); i += batchSize].  The error
    of a batch is logged and the loop goes on with the same [*broadcast].
    [fuel] bounds the number of turns; [length recipients] turns are enough
    ([BroadcastMessage_loop_batches] and [batches_concat]). *)
Fixpoint BroadcastMessage_loop (fuel : nat) (recipients : list string) (i : nat)
    (broadcast : WaBroadcast.t) : M WaBroadcast.t :=
  match fuel with
  | O => ret broadcast
  | S fuel' =>
      if (i <? length recipients)%nat then
        r <- processBroadcastBatch broadcast (batch_at recipients i) ;;
        BroadcastMessage_loop fuel' recipients (i + batchSize) (fst r)
      else ret broadcast
  end.

(** The batches that loop hands to [processBroadcastBatch], in order. *)
Fixpoint batches (fuel : nat) (recipients : list string) (i : nat) : list (list string) :=
  match fuel with
  | O => []
  | S fuel' =>
      if (i <? length recipients)%nat then
        batch_at recipients i :: batches fuel' recipients (i + batchSize)
      else []
  end.

(** [&time.Time{}]: the zero instant, January 1 of year 1. *)
Definition Time_zero : Time := -62135596800 * Second.

Definition BroadcastMessage (userID : UUID) (recipients : list string)
    (content messageType : string) : M unit :=
  now <- call time_Now ;;
  let broadcast :=
    WaBroadcast.mk 0%N userID ("Broadcast_" +:+ pretty (now / Second)) content
      messageType "" "sending" None (Some Time_zero) 0 0 in
  broadcast <- wa_broadcast_Create broadcast ;;
  broadcast <- BroadcastMessage_loop (length recipients) recipients 0 broadcast ;;
  let broadcast := WaBroadcast.set_Status "sent" broadcast in
  now <- call time_Now ;;
  let broadcast := WaBroadcast.set_SentAt (Some now) broadcast in
  wa_broadcast_Save broadcast.

(** The whole recipient list handled as one batch, for comparison with
    the batched loop. *)
Definition BroadcastMessage_unbatched (userID : UUID) (recipients : list string)
    (content messageType : string) : M unit :=
  now <- call time_Now ;;
  let broadcast :=
    WaBroadcast.mk 0%N userID ("Broadcast_" +:+ pretty (now / Second)) content
      messageType "" "sending" None (Some Time_zero) 0 0 in
  broadcast <- wa_broadcast_Create broadcast ;;
  r <- processBroadcastBatch broadcast recipients ;;
  let broadcast := WaBroadcast.set_Status "sent" (fst r) in
  now <- call time_Now ;;
  let broadcast := WaBroadcast.set_SentAt (Some now) broadcast in
  wa_broadcast_Save broadcast.
End WhatsAppService.

(** ** A scripted outside world

    One concrete [Outside], on which the services run by computation: a
    clock that ticks at every reading, a counter for fresh ids, a script of
    database faults, the chats and addresses that the gateways and the
    directory refuse, and a log of what was sent. *)
Module Sim.
Record state : Type := mk {
  clock : Z;
  next_uuid : N;
  db_faults : list bool;
  telegram_unreachable : list Z;
  telegram_outbox : list (Z * string);
  unresolvable : list string;
  whatsapp_rejected : list string;
  whatsapp_outbox : list string;
  last_message_time : list (string * Z)
}.

Definition time_Now (x : state) : Z * state :=
  (clock x,
   mk (clock x + 1) (next_uuid x) (db_faults x) (telegram_unreachable x)
      (telegram_outbox x) (unresolvable x) (whatsapp_rejected x)
      (whatsapp_outbox x) (last_message_time x)).

Definition uuid_New (x : state) : N * state :=
  (next_uuid x,
   mk (clock x) (next_uuid x + 1) (db_faults x) (telegram_unreachable x)
      (telegram_outbox x) (unresolvable x) (whatsapp_rejected x)
      (whatsapp_outbox x) (last_message_time x)).

(** The head of the script decides the coming statement; an exhausted
    script means a healthy database. *)
Definition db_fault (x : state) : option string * state :=
  match db_faults x with
  | [] => (None, x)
  | f :: rest =>
      (if f : bool then Some "connection refused" else None,
       mk (clock x) (next_uuid x) rest (telegram_unreachable x)
          (telegram_outbox x) (unresolvable x) (whatsapp_rejected x)
          (whatsapp_outbox x) (last_message_time x))
  end.

(** Succeeds on the single value that the layout, which has no reference
    field in it, can match. *)
Definition time_Parse (layout value : string) : error + Z :=
  if bool_decide (value = layout) then inr 0
  else inl (Errorf "parsing time: cannot parse value with layout").

Definition telegram_Client_SendMessage (chatID : Z) (text parseMode : string)
    (x : state) : option error * state :=
  if bool_decide (chatID ∈ telegram_unreachable x) then
    (Some (Errorf "telegram API error: chat not found"), x)
  else
    (None,
     mk (clock x) (next_uuid x) (db_faults x) (telegram_unreachable x)
        (telegram_outbox x ++ [(chatID, text)])%list (unresolvable x)
        (whatsapp_rejected x) (whatsapp_outbox x) (last_message_time x)).

Definition whatsapp_Client_Do (req : MessageRequest.t) (x : state)
    : (string + list string) * state :=
  if bool_decide (MessageRequest.To req ∈ whatsapp_rejected x) then
    (inl "WhatsApp API error: rejected", x)
  else
    (inr ["wamid." +:+ pretty (length (whatsapp_outbox x))],
     mk (clock x) (next_uuid x) (db_faults x) (telegram_unreachable x)
        (telegram_outbox x) (unresolvable x) (whatsapp_rejected x)
        (whatsapp_outbox x ++ [MessageRequest.To req])%list
        (last_message_time x)).

Definition FindOrCreateContact (address : string) (x : state) : (error + N) * state :=
  if bool_decide (address ∈ unresolvable x) then
    (inl (Errorf "contact lookup failed"), x)
  else
    (inr (next_uuid x),
     mk (clock x) (next_uuid x + 1) (db_faults x) (telegram_unreachable x)
        (telegram_outbox x) (unresolvable x) (whatsapp_rejected x)
        (whatsapp_outbox x) (last_message_time x)).

Definition UpdateLastMessageTime (address : string) (t : Z) (x : state) : state :=
  mk (clock x) (next_uuid x) (db_faults x) (telegram_unreachable x)
     (telegram_outbox x) (unresolvable x) (whatsapp_rejected x)
     (whatsapp_outbox x) ((address, t) :: last_message_time x).

Definition outside : Outside :=
  Build_Outside state time_Now uuid_New db_fault time_Parse
    telegram_Client_SendMessage whatsapp_Client_Do
    FindOrCreateContact UpdateLastMessageTime.

(** A quiet start: healthy database, every gateway call accepted. *)
Definition calm : state := mk 1000 100 [] [] [] [] [] [] [].

Definition empty_db : Database := mkDatabase ∅ ∅ ∅ [] [].

Definition world (d : Database) (x : state) : @World outside :=
  @mkWorld outside d x.

(** A Telegram campaign as [CreateTelegramBroadcast] leaves it, the
    status apart. *)
Definition campaign (id : N) (status : string) (recipients : list Z)
    (success failure : Z) : TelegramBroadcast.t :=
  TelegramBroadcast.mk id "Launch" "Hello" recipients status success failure
    7%N 10 10 None None.

Definition with_campaign (b : TelegramBroadcast.t) : Database :=
  set_telegram_broadcasts {[ TelegramBroadcast.ID b := b ]} empty_db.

(** [n] distinct addresses. *)
Definition addresses (n : nat) : list string :=
  (λ k : nat, "+62" +:+ pretty k) <$> seq 0 n.
End Sim.

(** ** Compositions used in the statements *)

Section Compositions.
Context `{Outside}.
Local Open Scope go_scope.

(** The world [w] with the status of campaign [b], stored at [id],
    replaced. *)
Definition with_status (w : World) (id : UUID) (b : TelegramBroadcast.t)
    (status : string) : World :=
  mkWorld _
    (set_telegram_broadcasts
       (<[id := TelegramBroadcast.set_Status status b]> (telegram_broadcasts (DB w)))
       (DB w))
    (ext w).


(** A list of batches handed to [processBroadcastBatch] one after the
    other, as the loop of [BroadcastMessage] does. *)
Fixpoint process_batches (bs : list (list string)) (broadcast : WaBroadcast.t)
    : M WaBroadcast.t :=
  match bs with
  | [] => ret broadcast
  | batch :: rest =>
      r <- processBroadcastBatch broadcast batch ;;
      process_batches rest (fst r)
  end.
End Compositions.

(** ** Scenarios on the scripted world *)

Section Scenarios.
Local Existing Instance Sim.outside.
Local Open Scope go_scope.



(** The world with one Telegram campaign, id 1, in which chat 12 cannot
    be reached. *)
Definition one_campaign (status : string) (recipients : list Z)
    (success failure : Z) : World :=
  Sim.world (Sim.with_campaign (Sim.campaign 1 status recipients success failure))
    (Sim.mk 1000 100 [] [12] [] [] [] [] []).

(** The world with one [BroadcastService] campaign, id 1. *)
Definition one_broadcast (status : string) (recipients : list string) : World :=
  Sim.world
    (set_broadcasts
       {[ 1%N := Broadcast.mk 1 "Promo" "Hi" recipients status 0 0 7%N None 10 10
                   None None ]}
       Sim.empty_db)
    Sim.calm.

(** The world of a WhatsApp broadcast in which the directory fails on the
    given addresses. *)
Definition directory_failing (addresses : list string) : World :=
  Sim.world Sim.empty_db (Sim.mk 1000 100 [] [] [] addresses [] [] []).

(** The campaigns and worlds of the runs below. *)
Definition pending_campaign : TelegramBroadcast.t :=
  Sim.campaign 1 "pending" [11; 12; 13] 0 0.
Definition pending_world : World := one_campaign "pending" [11; 12; 13] 0 0.
Definition completed_campaign : TelegramBroadcast.t :=
  Sim.campaign 1 "completed" [11; 12] 2 0.
Definition completed_world : World := one_campaign "completed" [11; 12] 2 0.
Definition mixed_campaign : TelegramBroadcast.t :=
  Sim.campaign 1 "pending" [11; -3; 12] 0 0.
Definition mixed_world : World := one_campaign "pending" [11; -3; 12] 0 0.

(** The duplicate that [DuplicateTelegramBroadcast] makes of
    [completed_campaign] for user 8. *)
Definition completed_copy : TelegramBroadcast.t :=
  TelegramBroadcast.mk 100 "Launch (Copy)" "Hello" [11; 12] "pending" 0 0 8%N
    1000 1001 None None.

(** [completed_campaign] after an update of the message alone. *)
Definition completed_updated : TelegramBroadcast.t :=
  TelegramBroadcast.mk 1 "Launch" "Bye" [11; 12] "completed" 2 0 7%N 10 1000
    None None.

(** 120 recipients, of which the directory fails on one. *)
Definition many_recipients : list string := Sim.addresses 120.
Definition many_world : World := directory_failing ["+6260"].

(** The [*broadcast] at the start of the batch loop. *)
Definition fresh_broadcast : WaBroadcast.t :=
  WaBroadcast.mk 100 7 "Broadcast_0" "hi" "text" "" "sending" None
    (Some Time_zero) 0 0.
End Scenarios.

(** ** The rest of TelegramBroadcastService, and TelegramService.SendBroadcast *)

Section TelegramMore.
Context `{Outside}.
Local Open Scope go_scope.

(** [s.db.DB.Where("id = ?", id).Delete(&models.TelegramBroadcast{})]: a
    DELETE that matches no row is not an error. *)
Definition telegram_Delete (id : UUID) : M unit :=
  db_exec (fun d =>
    inr (tt, set_telegram_broadcasts (delete id (telegram_broadcasts d)) d)).

Definition DeleteTelegramBroadcast (broadcastID : UUID) : M unit :=
  telegram_Delete broadcastID.

(** The [map[string]interface{}] of [GetTelegramBroadcastStats]. *)
Record BroadcastStats : Type := mkBroadcastStats {
  stats_broadcast_id : UUID;
  stats_name : string;
  stats_status : string;
  total_recipients : Z;
  stats_success_count : Z;
  stats_failure_count : Z;
  stats_created_at : Time;
  stats_sent_at : option Time;
  stats_completed_at : option Time
}.

Definition GetTelegramBroadcastStats (broadcastID : UUID) : M BroadcastStats :=
  broadcast <- telegram_First broadcastID ;;
  ret (mkBroadcastStats (TelegramBroadcast.ID broadcast)
         (TelegramBroadcast.Name broadcast) (TelegramBroadcast.Status broadcast)
         (Z.of_nat (length (TelegramBroadcast.Recipients broadcast)))
         (TelegramBroadcast.SuccessCount broadcast)
         (TelegramBroadcast.FailureCount broadcast)
         (TelegramBroadcast.CreatedAt broadcast) (TelegramBroadcast.SentAt broadcast)
         (TelegramBroadcast.CompletedAt broadcast)).

(** The broadcast is loaded, the request is logged, nothing is stored. *)
Definition ScheduleTelegramBroadcast (broadcastID : UUID) (scheduleAt : Time) : M unit :=
  broadcast <- telegram_First broadcastID ;;
  ret tt.

(** The loop of [TelegramService.SendBroadcast] with its two counters. *)
Fixpoint TelegramService_SendBroadcast_loop (message : string) (recipients : list Z)
    (successCount failureCount : Z) : M (Z * Z) :=
  match recipients with
  | [] => ret (successCount, failureCount)
  | chatID :: rest =>
      err <- TelegramService_SendMessage chatID message ;;
      match err with
      | Some _ =>
          TelegramService_SendBroadcast_loop message rest successCount (failureCount + 1)
      | None =>
          TelegramService_SendBroadcast_loop message rest (successCount + 1) failureCount
      end
  end.

(** [TelegramService.SendBroadcast]: the counters are logged, the result is
    always [nil]. *)
Definition TelegramService_SendBroadcast (recipients : list Z) (message : string) : M unit :=
  totals <- TelegramService_SendBroadcast_loop message recipients 0 0 ;;
  ret tt.

(** Whether a send returned [nil]. *)
Definition accepted (err : option error) : bool :=
  match err with
  | None => true
  | Some _ => false
  end.

(** The outcome of an operation on an id that has no row: an error, which
    is [ErrRecordNotFound] unless the database failed, after one database
    statement and nothing else. *)
Definition refused {A} (m : M A) (w : World) : Prop :=
  ∃ e,
    m w = (inl e, mkWorld _ (DB w) (snd (db_fault (ext w))))
    ∧ (e = ErrRecordNotFound ∨ ∃ d, e = ErrStorage d).
End TelegramMore.

(** ** The rest of BroadcastService *)

Section BroadcastServiceMore.
Context `{Outside}.
Local Open Scope go_scope.

(** [s.db.DB.Create(broadcast)]: an INSERT, refused on an existing key. *)
Definition broadcast_Create (b : Broadcast.t) : M unit :=
  db_exec (fun d =>
    match broadcasts d !! Broadcast.ID b with
    | Some _ => inl ErrDuplicateKey
    | None => inr (tt, set_broadcasts (<[Broadcast.ID b := b]> (broadcasts d)) d)
    end).

(** [s.db.DB.Where("id = ?", id).Delete(&models.Broadcast{})]: the fields
    this service uses have no deletion mark among them, so the row goes. *)
Definition broadcast_Delete (id : UUID) : M unit :=
  db_exec (fun d => inr (tt, set_broadcasts (delete id (broadcasts d)) d)).

Definition CreateBroadcast (name message : string) (recipients : list string)
    (scheduleAt : string) (userID : UUID) : M Broadcast.t :=
  id <- call uuid_New ;;
  created <- call time_Now ;;
  updated <- call time_Now ;;
  let broadcast :=
    Broadcast.mk id name message recipients "pending" 0 0 userID None
      created updated None None in
  broadcast <-
    (if bool_decide (scheduleAt <> "") then
       match time_Parse schedule_layout scheduleAt with
       | inl err => raise err
       | inr scheduleTime => ret (Broadcast.set_ScheduleAt (Some scheduleTime) broadcast)
       end
     else ret broadcast) ;;
  broadcast_Create broadcast ;;;
  ret broadcast.

Definition GetBroadcast (broadcastID : UUID) : M Broadcast.t :=
  broadcast_First broadcastID.

Definition DeleteBroadcast (broadcastID : UUID) : M unit :=
  broadcast_Delete broadcastID.

Definition GetBroadcastStats (broadcastID : UUID) : M BroadcastStats :=
  broadcast <- broadcast_First broadcastID ;;
  ret (mkBroadcastStats (Broadcast.ID broadcast) (Broadcast.Name broadcast)
         (Broadcast.Status broadcast)
         (Z.of_nat (length (Broadcast.Recipients broadcast)))
         (Broadcast.SuccessCount broadcast) (Broadcast.FailureCount broadcast)
         (Broadcast.CreatedAt broadcast) (Broadcast.SentAt broadcast)
         (Broadcast.CompletedAt broadcast)).
End BroadcastServiceMore.

(** ** utils.Paginate *)

(** The [map[string]interface{}] of [Paginate]. *)
Record Pagination : Type := mkPagination {
  page : Z;
  limit : Z;
  offset : Z;
  total_items : Z;
  total_pages : Z;
  has_next : bool;
  has_prev : bool
}.

(** Go [int] arithmetic: sums and products wrap at 64 bits, [/] truncates
    toward zero and panics on a zero divisor, which is [None] here. *)
Definition Paginate (totalItems page limit : Z) : option Pagination :=
  if limit =? 0 then None
  else
    let totalPages :=
      wrap64 (Z.quot (wrap64 (wrap64 (totalItems + limit) - 1)) limit) in
    let page := if page <? 1 then 1 else page in
    let page := if totalPages <? page then totalPages else page in
    let offset := wrap64 (wrap64 (page - 1) * limit) in
    Some (mkPagination page limit offset totalItems totalPages
            (page <? totalPages) (1 <? page)).

(** ** Other outside worlds *)

(** The scripted world with a Telegram API that refuses every message. *)
Definition rejecting_gateway : Outside :=
  Build_Outside Sim.state Sim.time_Now Sim.uuid_New Sim.db_fault Sim.time_Parse
    (λ _ _ _ x, (Some (Errorf "telegram API error: bot was blocked"), x))
    Sim.whatsapp_Client_Do Sim.FindOrCreateContact
    Sim.UpdateLastMessageTime.

(** The scripted world with a directory that resolves every address. *)
Definition resolving_directory : Outside :=
  Build_Outside Sim.state Sim.time_Now Sim.uuid_New Sim.db_fault Sim.time_Parse
    Sim.telegram_Client_SendMessage Sim.whatsapp_Client_Do
    (λ _ x, (inr (Sim.next_uuid x), snd (Sim.uuid_New x)))
    Sim.UpdateLastMessageTime.

(** The worlds of the runs in these outside worlds. *)
Definition rejecting_world : @World rejecting_gateway :=
  @mkWorld rejecting_gateway (Sim.with_campaign pending_campaign) Sim.calm.

Definition resolving_world : @World resolving_directory :=
  @mkWorld resolving_directory Sim.empty_db
    (Sim.mk 1000 100 [] [] [] [] ["+621"] [] []).

(** The scripted world with a WhatsApp API that answers every request
    with a success status and a reply that lists no message. *)
Definition silent_api : Outside :=
  Build_Outside Sim.state Sim.time_Now Sim.uuid_New Sim.db_fault Sim.time_Parse
    Sim.telegram_Client_SendMessage (λ _ x, (inr [], x))
    Sim.FindOrCreateContact Sim.UpdateLastMessageTime.

Definition silent_world : @World silent_api :=
  @mkWorld silent_api Sim.empty_db Sim.calm.

(** The values that the runs below produce. *)
Section MoreScenarios.
Local Existing Instance Sim.outside.

Definition quiet_world : World := Sim.world Sim.empty_db Sim.calm.

(** What [CreateTelegramBroadcast "Launch" "Hello" [11; 12] 7] returns in
    [quiet_world]. *)
Definition created_campaign : TelegramBroadcast.t :=
  TelegramBroadcast.mk 100 "Launch" "Hello" [11; 12] "pending" 0 0 7%N 1000 1001
    None None.

(** The statistics of [pending_campaign] after it was sent in
    [pending_world], where chat 12 cannot be reached. *)
Definition sent_stats : BroadcastStats :=
  mkBroadcastStats 1 "Launch" "completed" 3 2 1 10 (Some 1000) (Some 1001).

(** What [CreateBroadcast "Promo" "Hi" ["+620"] "" 7] returns in
    [quiet_world]. *)
Definition created_broadcast : Broadcast.t :=
  Broadcast.mk 100 "Promo" "Hi" ["+620"] "pending" 0 0 7%N None 1000 1001 None None.

Definition promo_broadcast : Broadcast.t :=
  Broadcast.mk 1 "Promo" "Hi" ["+620"; "+621"] "pending" 0 0 7%N None 10 10 None None.

Definition promo_world : World := one_broadcast "pending" ["+620"; "+621"].
End MoreScenarios.

(** ** What the statements speak about

    The calls of the Telegram API during one dispatch, the two halves of
    [SendTelegramBroadcast] around its loop, the operations of
    [TelegramBroadcastService] as data, and the conditions on the stored
    campaigns that these operations keep. *)

Section Statements.
Context `{Outside}.
Local Open Scope go_scope.

(** The calls that the loop of [SendTelegramBroadcast] makes for
    [recipients], in list order: what [SendMessage] returned for each, and
    the outside state after the last. *)
Fixpoint deliveries (message : string) (recipients : list Z) (x : Ext)
    : list (option error) * Ext :=
  match recipients with
  | [] => ([], x)
  | recipient :: rest =>
      let '(err, x1) := telegram_Client_SendMessage recipient message "" x in
      let '(errs, x2) := deliveries message rest x1 in
      (err :: errs, x2)
  end.

(** How many of these calls returned [nil]. *)
Definition successes (outcomes : list (option error)) : Z :=
  Z.of_nat (length (filter (λ err, accepted err = true) outcomes)).

(** [SendTelegramBroadcast] up to its loop: the campaign is loaded, marked
    as sending and saved. *)
Definition SendTelegramBroadcast_begin (broadcastID : UUID) : M TelegramBroadcast.t :=
  broadcast <- telegram_First broadcastID ;;
  now <- call time_Now ;;
  let broadcast :=
    TelegramBroadcast.set_SentAt (Some now)
      (TelegramBroadcast.set_Status "sending" broadcast) in
  telegram_Save broadcast ;;;
  ret broadcast.

(** [SendTelegramBroadcast] after its loop: the counters are set from
    [successCount] and the campaign is saved as completed. *)
Definition SendTelegramBroadcast_end (broadcast : TelegramBroadcast.t)
    (successCount : Z) : M unit :=
  let broadcast := TelegramBroadcast.set_Status "completed" broadcast in
  let broadcast := TelegramBroadcast.set_SuccessCount successCount broadcast in
  let broadcast :=
    TelegramBroadcast.set_FailureCount
      (Z.of_nat (length (TelegramBroadcast.Recipients broadcast)) - successCount)
      broadcast in
  now <- call time_Now ;;
  let broadcast := TelegramBroadcast.set_CompletedAt (Some now) broadcast in
  telegram_Save broadcast.

(** The campaign that the first [Save] of a dispatch writes, and the one
    that the second writes. *)
Definition sending_campaign (sentAt : Time) (b : TelegramBroadcast.t) : TelegramBroadcast.t :=
  TelegramBroadcast.mk (TelegramBroadcast.ID b) (TelegramBroadcast.Name b)
    (TelegramBroadcast.Message b) (TelegramBroadcast.Recipients b) "sending"
    (TelegramBroadcast.SuccessCount b) (TelegramBroadcast.FailureCount b)
    (TelegramBroadcast.UserID b) (TelegramBroadcast.CreatedAt b)
    (TelegramBroadcast.UpdatedAt b) (Some sentAt) (TelegramBroadcast.CompletedAt b).

Definition sent_campaign (sentAt completedAt : Time) (successCount : Z)
    (b : TelegramBroadcast.t) : TelegramBroadcast.t :=
  TelegramBroadcast.mk (TelegramBroadcast.ID b) (TelegramBroadcast.Name b)
    (TelegramBroadcast.Message b) (TelegramBroadcast.Recipients b) "completed"
    successCount
    (Z.of_nat (length (TelegramBroadcast.Recipients b)) - successCount)
    (TelegramBroadcast.UserID b) (TelegramBroadcast.CreatedAt b)
    (TelegramBroadcast.UpdatedAt b) (Some sentAt) (Some completedAt).

(** The same for [SendBroadcast]. *)
Definition sending_broadcast (sentAt : Time) (b : Broadcast.t) : Broadcast.t :=
  Broadcast.mk (Broadcast.ID b) (Broadcast.Name b) (Broadcast.Message b)
    (Broadcast.Recipients b) "sending" (Broadcast.SuccessCount b)
    (Broadcast.FailureCount b) (Broadcast.UserID b) (Broadcast.ScheduleAt b)
    (Broadcast.CreatedAt b) (Broadcast.UpdatedAt b) (Some sentAt)
    (Broadcast.CompletedAt b).

Definition sent_broadcast (sentAt completedAt : Time) (b : Broadcast.t) : Broadcast.t :=
  Broadcast.mk (Broadcast.ID b) (Broadcast.Name b) (Broadcast.Message b)
    (Broadcast.Recipients b) "completed"
    (Z.of_nat (length (Broadcast.Recipients b))) 0
    (Broadcast.UserID b) (Broadcast.ScheduleAt b)
    (Broadcast.CreatedAt b) (Broadcast.UpdatedAt b) (Some sentAt) (Some completedAt).

(** The world [w] with the status of the [BroadcastService] campaign [b],
    stored at [id], replaced. *)
Definition with_broadcast_status (w : World) (id : UUID) (b : Broadcast.t)
    (status : string) : World :=
  mkWorld _
    (set_broadcasts (<[id := Broadcast.set_Status status b]> (broadcasts (DB w))) (DB w))
    (ext w).

(** The exported operations of [TelegramBroadcastService] that work on one
    campaign or on none.  Left out are [ValidateRecipients], which is a
    pure function, and the three listing queries ([GetTelegramBroadcasts],
    [GetTelegramBroadcastAnalytics], [GetTelegramBroadcastTemplates]),
    which only read. *)
Inductive Operation : Type :=
| OpCreate (name message : string) (recipients : list Z) (userID : UUID)
| OpGet (broadcastID : UUID)
| OpUpdate (broadcastID : UUID) (name message : string) (recipients : option (list Z))
| OpDelete (broadcastID : UUID)
| OpSend (broadcastID : UUID)
| OpStats (broadcastID : UUID)
| OpSchedule (broadcastID : UUID) (scheduleAt : Time)
| OpCancel (broadcastID : UUID)
| OpDuplicate (broadcastID userID : UUID)
| OpPreview (message : string) (recipients : list Z)
| OpExport (broadcastID : UUID)
| OpImport (broadcastID : UUID) (recipients : list Z).

(** The world after a call, whatever it returned. *)
Definition perform (op : Operation) (w : World) : World :=
  match op with
  | OpCreate name message recipients userID =>
      snd (CreateTelegramBroadcast name message recipients userID w)
  | OpGet broadcastID => snd (GetTelegramBroadcast broadcastID w)
  | OpUpdate broadcastID name message recipients =>
      snd (UpdateTelegramBroadcast broadcastID name message recipients w)
  | OpDelete broadcastID => snd (DeleteTelegramBroadcast broadcastID w)
  | OpSend broadcastID => snd (SendTelegramBroadcast broadcastID w)
  | OpStats broadcastID => snd (GetTelegramBroadcastStats broadcastID w)
  | OpSchedule broadcastID scheduleAt =>
      snd (ScheduleTelegramBroadcast broadcastID scheduleAt w)
  | OpCancel broadcastID => snd (CancelTelegramBroadcast broadcastID w)
  | OpDuplicate broadcastID userID =>
      snd (DuplicateTelegramBroadcast broadcastID userID w)
  | OpPreview message recipients => snd (PreviewTelegramBroadcast message recipients w)
  | OpExport broadcastID => snd (ExportTelegramBroadcastRecipients broadcastID w)
  | OpImport broadcastID recipients =>
      snd (ImportTelegramBroadcastRecipients broadcastID recipients w)
  end.




(** The statuses that the service writes into a campaign. *)
Definition written_status (status : string) : Prop :=
  status = "pending" ∨ status = "sending" ∨ status = "completed"
  ∨ status = "cancelled".

Definition statuses_written (d : Database) : Prop :=
  map_Forall (λ _ b, written_status (TelegramBroadcast.Status b)) (telegram_broadcasts d).

(** Following the specification, not the code: the statuses in which it
    lets a campaign be cancelled. *)
Definition spec_cancellable (status : string) : Prop :=
  status = "draft" ∨ status = "pending".
End Statements.

(** * Properties *)

(** ** ValidateRecipients *)

Section ValidateRecipientsFacts.
Context `{Outside}.

Lemma ValidateRecipients_loop_spec (recipients valid : list Z) (errors : list string) :
  ValidateRecipients_loop recipients valid errors =
    ((valid ++ filter (λ r, 0 < r) recipients)%list,
     (errors ++ (invalid_recipient <$> filter (λ r, r ≤ 0) recipients))%list).
Proof.
  revert valid errors.
  induction recipients as [|r rest IH]; intros valid errors; simpl.
  - by rewrite !app_nil_r.
  - destruct (Z.leb_spec r 0) as [Hle|Hgt].
    + rewrite IH, filter_cons_False by lia.
      rewrite filter_cons_True by lia.
      rewrite fmap_cons.
      by rewrite <- app_assoc.
    + rewrite IH, filter_cons_True by lia.
      rewrite (filter_cons_False (λ r, r ≤ 0)) by lia.
      by rewrite <- app_assoc.
Qed.

Lemma invalid_recipient_inj (r1 r2 : Z) :
  invalid_recipient r1 = invalid_recipient r2 -> r1 = r2.
Proof.
  unfold invalid_recipient. intros Heq.
  by apply (inj (String.app _)), (inj pretty) in Heq.
Qed.

Lemma filter_split_length (l : list Z) :
  Nat.add (length (filter (λ r, 0 < r) l)) (length (filter (λ r, r ≤ 0) l)) = length l.
Proof.
  induction l as [|r l IH]; [done|].
  destruct (Z.leb_spec r 0).
  - rewrite filter_cons_False, (filter_cons_True (λ r, r ≤ 0)) by lia. simpl. lia.
  - rewrite filter_cons_True, (filter_cons_False (λ r, r ≤ 0)) by lia. simpl. lia.
Qed.

(** C5. [ValidateRecipients] is a total function without an error result.
    Its first output is the positive identifiers of the input in input
    order, its second one message per non-positive identifier in input
    order; the two lengths add up to the length of the input, and every
    input identifier is in exactly one of the two outputs. *)
Theorem ValidateRecipients_partition (recipients : list Z) :
  ∃ validRecipients errors,
  ValidateRecipients recipients = (validRecipients, errors)
  ∧ validRecipients = filter (λ r, 0 < r) recipients
  ∧ errors = invalid_recipient <$> filter (λ r, r ≤ 0) recipients
  ∧ Nat.add (length validRecipients) (length errors) = length recipients
  ∧ ∀ r, r ∈ recipients ->
      ((0 < r) ∧ (r ∈ validRecipients) ∧ (invalid_recipient r ∉ errors))
      ∨ ((r ≤ 0) ∧ (r ∉ validRecipients) ∧ (invalid_recipient r ∈ errors)).
Proof.
  unfold ValidateRecipients. rewrite ValidateRecipients_loop_spec. simpl.
  eexists _, _. split; [done|]. split; [done|]. split; [done|]. split.
  - rewrite length_fmap. apply filter_split_length.
  - intros r Hin. destruct (Z.leb_spec r 0) as [Hle|Hgt].
    + right. split; [done|]. split.
      * rewrite list_elem_of_filter. lia.
      * apply list_elem_of_fmap. exists r. split; [done|].
        by apply list_elem_of_filter.
    + left. split; [done|]. split.
      * by apply list_elem_of_filter.
      * intros Hbad. apply list_elem_of_fmap in Hbad as (r' & Heq & Hr').
        apply invalid_recipient_inj in Heq. subst r'.
        apply list_elem_of_filter in Hr'. lia.
Qed.
End ValidateRecipientsFacts.

(** ** Running the monad *)

Ltac run :=
  unfold bind, ret, raise, call, attempt, db_exec in *; simpl in *;
  repeat (case_match; simplify_eq/=).

(** ** PreviewTelegramBroadcast *)

Section PreviewFacts.
Context `{Outside}.

Lemma wrap64_small (z : Z) : - 2 ^ 63 ≤ z < 2 ^ 63 -> wrap64 z = z.
Proof. intros Hz. unfold wrap64. rewrite Z.mod_small; lia. Qed.

(** Below 2^63 nanoseconds, about 9.2e9 recipients, the product does not
    wrap. *)
Lemma Duration_mul_Second (n : nat) :
  Z.of_nat n < 9223372036 -> Duration_mul (Z.of_nat n) Second = Z.of_nat n * Second.
Proof.
  intros Hn. unfold Duration_mul, Second. apply wrap64_small. lia.
Qed.

(** C9. [PreviewTelegramBroadcast] never fails and leaves every table as
    it was; it reads the clock once.  The preview carries the number of
    recipients, the length of the message, and as estimated delivery the
    clock reading plus the recipient count times one second (an int64
    [Duration] product). *)
Theorem PreviewTelegramBroadcast_pure (message : string) (recipients : list Z)
    (w : World) :
  ∃ preview w',
    PreviewTelegramBroadcast message recipients w = (inr preview, w')
    ∧ DB w' = DB w
    ∧ ext w' = snd (time_Now (ext w))
    ∧ preview_message preview = message
    ∧ recipient_count preview = Z.of_nat (length recipients)
    ∧ message_length preview = Z.of_nat (String.length message)
    ∧ estimated_delivery preview =
        fst (time_Now (ext w))
        + wrap64 (Z.of_nat (length recipients) * 1000000000)
    ∧ has_media preview = false
    ∧ has_links preview = false.
Proof.
  unfold PreviewTelegramBroadcast. run.
  eexists _, _. split; [done|]. simpl.
  unfold Time_Add, Duration_mul, Second. by repeat split.
Qed.
End PreviewFacts.

(** ** Dispatch: SendTelegramBroadcast and SendBroadcast *)

Section SendFacts.
Context `{Outside}.

(** The send loop never fails, never touches a table, and counts at most
    one success per recipient. *)
Lemma telegram_send_loop_spec (message : string) (recipients : list Z)
    (successCount : Z) (w : World) :
  ∃ n w',
    telegram_send_loop message recipients successCount w = (inr n, w')
    ∧ DB w' = DB w
    ∧ successCount ≤ n ≤ successCount + Z.of_nat (length recipients).
Proof.
  revert successCount w.
  induction recipients as [|r rest IH]; intros s w; simpl.
  - exists s, w. unfold ret. repeat split; lia.
  - unfold bind, TelegramService_SendMessage, call.
    destruct (telegram_Client_SendMessage r message "" (ext w)) as [[e|] x].
    + destruct (IH s (mkWorld _ (DB w) x)) as (n & w' & -> & Hdb & Hn).
      exists n, w'. repeat split; [done|lia..].
    + destruct (IH (s + 1) (mkWorld _ (DB w) x)) as (n & w' & -> & Hdb & Hn).
      exists n, w'. repeat split; [done|lia..].
Qed.

Lemma broadcast_send_loop_spec (recipients : list string) (successCount : Z) :
  broadcast_send_loop recipients successCount =
    successCount + Z.of_nat (length recipients).
Proof.
  revert successCount.
  induction recipients as [|r rest IH]; intros s; simpl; [lia|].
  rewrite IH. lia.
Qed.

(** What a run of [SendTelegramBroadcast] that returns [nil] leaves. *)
Lemma SendTelegramBroadcast_ok (w w' : World) (id : UUID) (b : TelegramBroadcast.t) :
  telegram_broadcasts (DB w) !! id = Some b ->
  TelegramBroadcast.ID b = id ->
  SendTelegramBroadcast id w = (inr tt, w') ->
  ∃ n sentAt completedAt,
    0 ≤ n ≤ Z.of_nat (length (TelegramBroadcast.Recipients b))
    ∧ DB w' =
        set_telegram_broadcasts
          (<[id := TelegramBroadcast.mk id (TelegramBroadcast.Name b)
                     (TelegramBroadcast.Message b) (TelegramBroadcast.Recipients b)
                     "completed" n
                     (Z.of_nat (length (TelegramBroadcast.Recipients b)) - n)
                     (TelegramBroadcast.UserID b) (TelegramBroadcast.CreatedAt b)
                     (TelegramBroadcast.UpdatedAt b) (Some sentAt) (Some completedAt)]>
             (telegram_broadcasts (DB w)))
          (DB w).
Proof.
  intros Hb Hid Hrun.
  unfold SendTelegramBroadcast, telegram_First, telegram_Save in Hrun.
  unfold bind, call, db_exec in Hrun. simpl in Hrun.
  destruct (db_fault (ext w)) as [[d|] x1]; [done|].
  rewrite Hb in Hrun. simpl in Hrun.
  destruct (time_Now x1) as [sentAt x2]. simpl in Hrun.
  destruct (db_fault x2) as [[d|] x3]; [done|]. simpl in Hrun.
  match type of Hrun with
  | context [telegram_send_loop ?m ?l ?s ?w0] =>
      destruct (telegram_send_loop_spec m l s w0) as (n & w1 & Hloop & Hdb & Hn);
      rewrite Hloop in Hrun
  end.
  simpl in Hrun.
  destruct (time_Now (ext w1)) as [completedAt x4]. simpl in Hrun.
  destruct (db_fault x4) as [[d|] x5]; [done|].
  simplify_eq/=.
  exists n, sentAt, completedAt. split; [lia|].
  rewrite Hdb. unfold set_telegram_broadcasts. simpl.
  by rewrite insert_insert_eq.
Qed.

(** The errors of [SendTelegramBroadcast] on an existing campaign are
    those of the database. *)
Lemma SendTelegramBroadcast_errors (w w' : World) (id : UUID)
    (b : TelegramBroadcast.t) (e : error) :
  telegram_broadcasts (DB w) !! id = Some b ->
  SendTelegramBroadcast id w = (inl e, w') ->
  ∃ d, e = ErrStorage d.
Proof.
  intros Hb Hrun.
  unfold SendTelegramBroadcast, telegram_First, telegram_Save in Hrun.
  unfold bind, call, db_exec in Hrun. simpl in Hrun.
  destruct (db_fault (ext w)) as [[d|] x1]; [simplify_eq; eauto|].
  rewrite Hb in Hrun. simpl in Hrun.
  destruct (time_Now x1) as [sentAt x2]. simpl in Hrun.
  destruct (db_fault x2) as [[d|] x3]; [simplify_eq; eauto|]. simpl in Hrun.
  match type of Hrun with
  | context [telegram_send_loop ?m ?l ?s ?w0] =>
      destruct (telegram_send_loop_spec m l s w0) as (n & w1 & Hloop & Hdb & Hn);
      rewrite Hloop in Hrun
  end.
  simpl in Hrun.
  destruct (time_Now (ext w1)) as [completedAt x4]. simpl in Hrun.
  destruct (db_fault x4) as [[d|] x5]; simplify_eq; eauto.
Qed.

(** [SendTelegramBroadcast] does not read the status: with any other
    status in the row, it returns the same value, and the same world once
    the first [Save] is through. *)
Lemma SendTelegramBroadcast_status_blind (w : World) (id : UUID)
    (b : TelegramBroadcast.t) (status : string) :
  telegram_broadcasts (DB w) !! id = Some b ->
  TelegramBroadcast.ID b = id ->
  fst (SendTelegramBroadcast id (with_status w id b status)) =
    fst (SendTelegramBroadcast id w)
  ∧ (fst (SendTelegramBroadcast id w) = inr tt ->
       snd (SendTelegramBroadcast id (with_status w id b status)) =
         snd (SendTelegramBroadcast id w)).
Proof.
  intros Hb Hid.
  unfold SendTelegramBroadcast, telegram_First, telegram_Save, with_status.
  unfold bind, call, db_exec. simpl.
  destruct (db_fault (ext w)) as [[d|] x1]; [done|].
  rewrite Hb, lookup_insert_eq. simpl.
  destruct (time_Now x1) as [sentAt x2]. simpl.
  destruct (db_fault x2) as [[d|] x3]; [done|]. simpl.
  unfold set_telegram_broadcasts. simpl.
  rewrite Hid, insert_insert_eq. done.
Qed.
End SendFacts.

Section SendBroadcastFacts.
Context `{Outside}.


(** What a run of [SendBroadcast] that returns [nil] leaves: every
    recipient is counted as a success. *)
Lemma SendBroadcast_ok (w w' : World) (id : UUID) (b : Broadcast.t) :
  broadcasts (DB w) !! id = Some b ->
  Broadcast.ID b = id ->
  SendBroadcast id w = (inr tt, w') ->
  ∃ sentAt completedAt,
    DB w' =
      set_broadcasts
        (<[id := Broadcast.mk id (Broadcast.Name b) (Broadcast.Message b)
                   (Broadcast.Recipients b) "completed"
                   (Z.of_nat (length (Broadcast.Recipients b))) 0
                   (Broadcast.UserID b) (Broadcast.ScheduleAt b)
                   (Broadcast.CreatedAt b) (Broadcast.UpdatedAt b)
                   (Some sentAt) (Some completedAt)]>
           (broadcasts (DB w)))
        (DB w).
Proof.
  intros Hb Hid Hrun.
  unfold SendBroadcast, broadcast_First, broadcast_Save in Hrun.
  unfold bind, call, db_exec in Hrun. simpl in Hrun.
  destruct (db_fault (ext w)) as [[d|] x1]; [done|].
  rewrite Hb in Hrun. simpl in Hrun.
  destruct (time_Now x1) as [sentAt x2]. simpl in Hrun.
  destruct (db_fault x2) as [[d|] x3]; [done|]. simpl in Hrun.
  destruct (time_Now x3) as [completedAt x4]. simpl in Hrun.
  destruct (db_fault x4) as [[d|] x5]; [done|].
  simplify_eq/=.
  exists sentAt, completedAt.
  unfold set_broadcasts. simpl.
  rewrite insert_insert_eq, broadcast_send_loop_spec.
  by replace (Z.of_nat (length (Broadcast.Recipients b))
              - (0 + Z.of_nat (length (Broadcast.Recipients b)))) with 0 by lia.
Qed.

Lemma SendBroadcast_errors (w w' : World) (id : UUID) (b : Broadcast.t) (e : error) :
  broadcasts (DB w) !! id = Some b ->
  SendBroadcast id w = (inl e, w') ->
  ∃ d, e = ErrStorage d.
Proof.
  intros Hb Hrun.
  unfold SendBroadcast, broadcast_First, broadcast_Save in Hrun.
  unfold bind, call, db_exec in Hrun. simpl in Hrun.
  destruct (db_fault (ext w)) as [[d|] x1]; [simplify_eq; eauto|].
  rewrite Hb in Hrun. simpl in Hrun.
  destruct (time_Now x1) as [sentAt x2]. simpl in Hrun.
  destruct (db_fault x2) as [[d|] x3]; [simplify_eq; eauto|]. simpl in Hrun.
  destruct (time_Now x3) as [completedAt x4]. simpl in Hrun.
  destruct (db_fault x4) as [[d|] x5]; simplify_eq; eauto.
Qed.
End SendBroadcastFacts.

(** ** The WhatsApp batch dispatcher *)

Section BatchFacts.
Context `{Outside}.

(** One recipient: the turn returns no error; it ends normally or, on a
    reply without messages, with the panic of the client.  It keeps every
    table but those of the recipients and the messages, and when it ends
    normally it has moved at most one of the two counters, by one. *)
Lemma processBroadcastRecipient_spec (broadcast : WaBroadcast.t)
    (recipient : string) (w : World) :
  ∃ r w',
    processBroadcastRecipient broadcast recipient w = (r, w')
    ∧ wa_broadcasts (DB w') = wa_broadcasts (DB w)
    ∧ telegram_broadcasts (DB w') = telegram_broadcasts (DB w)
    ∧ broadcasts (DB w') = broadcasts (DB w)
    ∧ match r with
      | inl e => e = index_out_of_range
      | inr broadcast' =>
          WaBroadcast.ID broadcast' = WaBroadcast.ID broadcast
          ∧ WaBroadcast.TotalSent broadcast ≤ WaBroadcast.TotalSent broadcast'
          ∧ WaBroadcast.TotalFailed broadcast ≤ WaBroadcast.TotalFailed broadcast'
          ∧ WaBroadcast.TotalSent broadcast' + WaBroadcast.TotalFailed broadcast'
              ≤ WaBroadcast.TotalSent broadcast + WaBroadcast.TotalFailed broadcast + 1
      end.
Proof.
  unfold processBroadcastRecipient, SendMessage, whatsapp_Client_SendMessage,
    message_Create, recipient_Create, index_out_of_range.
  unfold bind, ret, raise, call, attempt, db_exec. simpl.
  repeat (case_match; simplify_eq/=);
    eexists _, _; (split; [reflexivity|]); simpl; repeat split; lia.
Qed.

Lemma processBroadcastBatch_spec (broadcast : WaBroadcast.t)
    (recipients : list string) (w : World) :
  ∃ r w',
    processBroadcastBatch broadcast recipients w = (r, w')
    ∧ wa_broadcasts (DB w') = wa_broadcasts (DB w)
    ∧ match r with
      | inl e => e = index_out_of_range
      | inr (broadcast', err) =>
          err = None
          ∧ WaBroadcast.ID broadcast' = WaBroadcast.ID broadcast
          ∧ WaBroadcast.TotalSent broadcast ≤ WaBroadcast.TotalSent broadcast'
          ∧ WaBroadcast.TotalFailed broadcast ≤ WaBroadcast.TotalFailed broadcast'
          ∧ WaBroadcast.TotalSent broadcast' + WaBroadcast.TotalFailed broadcast'
              ≤ WaBroadcast.TotalSent broadcast + WaBroadcast.TotalFailed broadcast
                + Z.of_nat (length recipients)
      end.
Proof.
  revert broadcast w.
  induction recipients as [|r rest IH]; intros b w; simpl.
  - exists (inr (b, None)), w. unfold ret. repeat split; lia.
  - unfold bind.
    destruct (processBroadcastRecipient_spec b r w)
      as ([e|b1] & w1 & -> & Hwa1 & _ & _ & Hr1).
    + exists (inl e), w1. done.
    + destruct Hr1 as (Hid1 & Hs1 & Hf1 & Hsum1).
      destruct (IH b1 w1) as ([e|[b2 err]] & w2 & -> & Hwa2 & Hr2).
      * exists (inl e), w2. split; [done|]. split; [congruence|done].
      * destruct Hr2 as (-> & Hid2 & Hs2 & Hf2 & Hsum2).
        exists (inr (b2, None)), w2. split; [done|]. split; [congruence|].
        repeat split; [congruence|lia..].
Qed.

Lemma processBroadcastBatch_app (broadcast : WaBroadcast.t)
    (done todo : list string) (w : World) :
  processBroadcastBatch broadcast (done ++ todo) w =
    bind (processBroadcastBatch broadcast done)
      (λ r, processBroadcastBatch (fst r) todo) w.
Proof.
  revert broadcast w.
  induction done as [|r rest IH]; intros b w; simpl; [done|].
  unfold bind in *.
  destruct (processBroadcastRecipient b r w) as [[e|b1] w1]; [done|].
  apply IH.
Qed.
End BatchFacts.

Section BatchingFacts.
Context `{Outside}.

Lemma bind_ext {A B} (m : M A) (k1 k2 : A -> M B) (w : World) :
  (∀ a w', k1 a w' = k2 a w') -> bind m k1 w = bind m k2 w.
Proof. intros Hk. unfold bind. by destruct (m w) as [[e|a] w']. Qed.

Lemma batch_at_take (recipients : list string) (i : nat) :
  batch_at recipients i = take batchSize (drop i recipients).
Proof.
  unfold batch_at, batchSize.
  destruct (Nat.ltb_spec (length recipients) (i + 50)) as [Hlt|Hge].
  - rewrite !take_ge; [done|rewrite length_drop; lia..].
  - f_equal. lia.
Qed.

(** The batches, put end to end, are the recipient list from [i] on:
    [length recipients] turns leave no recipient behind. *)
Lemma batches_concat (fuel : nat) (recipients : list string) (i : nat) :
  (length recipients - i ≤ fuel)%nat ->
  concat (batches fuel recipients i) = drop i recipients.
Proof.
  revert i. induction fuel as [|fuel IH]; intros i Hfuel; simpl.
  - rewrite drop_ge; [done|lia].
  - destruct (Nat.ltb_spec i (length recipients)) as [Hlt|Hge]; simpl.
    + rewrite IH by (unfold batchSize; lia).
      rewrite batch_at_take, <- drop_drop. apply take_drop.
    + rewrite drop_ge; [done|lia].
Qed.

(** Every batch holds between 1 and 50 recipients. *)
Lemma batches_sizes (fuel : nat) (recipients : list string) (i : nat) :
  Forall (λ batch, (0 < length batch ≤ batchSize)%nat) (batches fuel recipients i).
Proof.
  revert i. induction fuel as [|fuel IH]; intros i; simpl; [constructor|].
  destruct (Nat.ltb_spec i (length recipients)) as [Hlt|Hge]; [|constructor].
  constructor; [|apply IH].
  rewrite batch_at_take, length_take, length_drop. unfold batchSize. lia.
Qed.

(** Batch number [j] is the 50 recipients from index [i + 50 * j] on, or
    those that are left. *)
Lemma batches_lookup (fuel : nat) (recipients : list string) (i j : nat) :
  (length recipients - i ≤ fuel)%nat ->
  (i + batchSize * j < length recipients)%nat ->
  batches fuel recipients i !! j =
    Some (take batchSize (drop (i + batchSize * j) recipients)).
Proof.
  revert i j. induction fuel as [|fuel IH]; intros i j Hfuel Hj; [lia|].
  simpl. destruct (Nat.ltb_spec i (length recipients)) as [Hlt|Hge]; [|lia].
  destruct j as [|j]; simpl.
  - rewrite batch_at_take. do 3 f_equal. lia.
  - rewrite IH by (unfold batchSize in *; lia).
    do 3 f_equal. unfold batchSize. lia.
Qed.

Lemma BroadcastMessage_loop_batches (fuel : nat) (recipients : list string)
    (i : nat) (broadcast : WaBroadcast.t) (w : World) :
  BroadcastMessage_loop fuel recipients i broadcast w =
    process_batches (batches fuel recipients i) broadcast w.
Proof.
  revert i broadcast w.
  induction fuel as [|fuel IH]; intros i b w; simpl; [done|].
  destruct (i <? length recipients)%nat; [|done].
  simpl. unfold bind.
  destruct (processBroadcastBatch b (batch_at recipients i) w) as [[e|r] w1];
    [done|apply IH].
Qed.

Lemma process_batches_concat (bs : list (list string)) (broadcast : WaBroadcast.t)
    (w : World) :
  process_batches bs broadcast w =
    bind (processBroadcastBatch broadcast (concat bs)) (λ r, ret (fst r)) w.
Proof.
  revert broadcast w.
  induction bs as [|batch rest IH]; intros b w; simpl; [done|].
  unfold bind in *. rewrite processBroadcastBatch_app. unfold bind.
  destruct (processBroadcastBatch b batch w) as [[e|r] w1]; [done|].
  apply IH.
Qed.

(** The batched loop of [BroadcastMessage] does what one call of
    [processBroadcastBatch] on the whole list does. *)
Lemma BroadcastMessage_loop_whole (recipients : list string)
    (broadcast : WaBroadcast.t) (w : World) :
  BroadcastMessage_loop (length recipients) recipients 0 broadcast w =
    bind (processBroadcastBatch broadcast recipients) (λ r, ret (fst r)) w.
Proof.
  rewrite BroadcastMessage_loop_batches, process_batches_concat.
  rewrite batches_concat by lia. by rewrite drop_0.
Qed.

Lemma BroadcastMessage_unbatched_eq (userID : UUID) (recipients : list string)
    (content messageType : string) (w : World) :
  BroadcastMessage userID recipients content messageType w =
    BroadcastMessage_unbatched userID recipients content messageType w.
Proof.
  unfold BroadcastMessage, BroadcastMessage_unbatched.
  apply bind_ext; intros now w1.
  apply bind_ext; intros b w2.
  unfold bind. rewrite BroadcastMessage_loop_whole. unfold bind, ret.
  by destruct (processBroadcastBatch b recipients w2) as [[e|r] w3].
Qed.

(** When the directory resolves every address, each recipient of a batch
    that returns has moved exactly one counter. *)
Lemma processBroadcastBatch_all_resolved (broadcast broadcast' : WaBroadcast.t)
    (recipients : list string) (err : option error) (w w' : World) :
  (∀ address x, ∃ contact x',
      ContactService_FindOrCreateContact address x = (inr contact, x')) ->
  processBroadcastBatch broadcast recipients w = (inr (broadcast', err), w') ->
  WaBroadcast.TotalSent broadcast' + WaBroadcast.TotalFailed broadcast'
    = WaBroadcast.TotalSent broadcast + WaBroadcast.TotalFailed broadcast
      + Z.of_nat (length recipients).
Proof.
  intros Hres. revert broadcast w.
  induction recipients as [|r rest IH]; intros b w Hrun; simpl in Hrun.
  - unfold ret in Hrun. simplify_eq/=. lia.
  - unfold bind in Hrun.
    destruct (processBroadcastRecipient b r w) as [[e|b1] w1] eqn:Hturn; [done|].
    assert (Hsum : WaBroadcast.TotalSent b1 + WaBroadcast.TotalFailed b1
                   = WaBroadcast.TotalSent b + WaBroadcast.TotalFailed b + 1).
    { revert Hturn.
      unfold processBroadcastRecipient, SendMessage, whatsapp_Client_SendMessage,
        message_Create, recipient_Create, index_out_of_range.
      unfold bind, ret, raise, call, attempt, db_exec. simpl.
      destruct (Hres r (ext w)) as (c & x' & ->).
      intros Hturn.
      repeat (case_match; simplify_eq/=); lia. }
    specialize (IH b1 w1 Hrun). simpl. lia.
Qed.

(** A recipient whose resolution fails: a row marked failed with the
    error text is inserted (unless the INSERT itself fails), the
    [*broadcast] is left as it was, both counters included, and the turn
    ends normally, so the loop goes on with the next recipient. *)
Lemma processBroadcastRecipient_unresolved (broadcast : WaBroadcast.t)
    (recipient : string) (w : World) (err : error) (x : Ext) :
  ContactService_FindOrCreateContact recipient (ext w) = (inl err, x) ->
  ∃ w',
    processBroadcastRecipient broadcast recipient w = (inr broadcast, w')
    ∧ (broadcast_recipients (DB w') = broadcast_recipients (DB w)
       ∨ broadcast_recipients (DB w') =
           (broadcast_recipients (DB w) ++
            [BroadcastRecipient.mk (WaBroadcast.ID broadcast) 0%N "failed" None
               (Error err) 0%N])%list).
Proof.
  intros Hres.
  unfold processBroadcastRecipient, recipient_Create.
  unfold bind, ret, raise, call, attempt, db_exec. simpl. rewrite Hres. simpl.
  destruct (db_fault x) as [[d|] x']; simpl; eexists; split; eauto.
Qed.
End BatchingFacts.

(** ** Update, Duplicate, Export and Import *)

Section LifecycleFacts.
Context `{Outside}.

Lemma UpdateTelegramBroadcast_frame (w w' : World) (id : UUID)
    (b b' : TelegramBroadcast.t) (name message : string)
    (recipients : option (list Z)) :
  telegram_broadcasts (DB w) !! id = Some b ->
  TelegramBroadcast.ID b = id ->
  UpdateTelegramBroadcast id name message recipients w = (inr b', w') ->
  b' = TelegramBroadcast.mk id
         (if decide (name = "") then TelegramBroadcast.Name b else name)
         (if decide (message = "") then TelegramBroadcast.Message b else message)
         (match recipients with
          | Some l => l
          | None => TelegramBroadcast.Recipients b
          end)
         (TelegramBroadcast.Status b) (TelegramBroadcast.SuccessCount b)
         (TelegramBroadcast.FailureCount b) (TelegramBroadcast.UserID b)
         (TelegramBroadcast.CreatedAt b) (TelegramBroadcast.UpdatedAt b')
         (TelegramBroadcast.SentAt b) (TelegramBroadcast.CompletedAt b)
  ∧ DB w' = set_telegram_broadcasts (<[id := b']> (telegram_broadcasts (DB w))) (DB w)
  ∧ (TelegramBroadcast.Name b' = "" -> TelegramBroadcast.Name b = "")
  ∧ (TelegramBroadcast.Message b' = "" -> TelegramBroadcast.Message b = "").
Proof.
  intros Hb Hid Hrun.
  unfold UpdateTelegramBroadcast, telegram_First, telegram_Save in Hrun.
  unfold bind, ret, call, db_exec in Hrun. simpl in Hrun.
  destruct (db_fault (ext w)) as [[d|] x1]; [done|].
  rewrite Hb in Hrun. simpl in Hrun.
  destruct (time_Now x1) as [now x2]. simpl in Hrun.
  destruct (db_fault x2) as [[d|] x3]; [done|].
  destruct b as [bid bname bmsg brec bst bsc bfc buid bca bua bsa bcoa].
  simpl in *. subst bid.
  destruct (decide (name = "")) as [Hn|Hn], (decide (message = "")) as [Hm|Hm],
    recipients as [l|];
    rewrite ?(bool_decide_eq_false_2 _ (λ Hne, Hne Hn)),
            ?(bool_decide_eq_false_2 _ (λ Hne, Hne Hm)),
            ?(bool_decide_eq_true_2 _ Hn), ?(bool_decide_eq_true_2 _ Hm) in Hrun;
    simplify_eq/=; done.
Qed.

Lemma UpdateBroadcast_frame (w w' : World) (id : UUID) (b b' : Broadcast.t)
    (name message : string) (recipients : option (list string))
    (scheduleAt : string) :
  broadcasts (DB w) !! id = Some b ->
  Broadcast.ID b = id ->
  UpdateBroadcast id name message recipients scheduleAt w = (inr b', w') ->
  b' = Broadcast.mk id
         (if decide (name = "") then Broadcast.Name b else name)
         (if decide (message = "") then Broadcast.Message b else message)
         (match recipients with
          | Some l => l
          | None => Broadcast.Recipients b
          end)
         (Broadcast.Status b) (Broadcast.SuccessCount b)
         (Broadcast.FailureCount b) (Broadcast.UserID b)
         (if decide (scheduleAt = "") then Broadcast.ScheduleAt b
          else Broadcast.ScheduleAt b')
         (Broadcast.CreatedAt b) (Broadcast.UpdatedAt b')
         (Broadcast.SentAt b) (Broadcast.CompletedAt b)
  ∧ DB w' = set_broadcasts (<[id := b']> (broadcasts (DB w))) (DB w)
  ∧ (scheduleAt <> "" ->
       inr (A:=error) <$> Broadcast.ScheduleAt b' =
         Some (time_Parse schedule_layout scheduleAt))
  ∧ (Broadcast.Name b' = "" -> Broadcast.Name b = "")
  ∧ (Broadcast.Message b' = "" -> Broadcast.Message b = "").
Proof.
  intros Hb Hid Hrun.
  unfold UpdateBroadcast, broadcast_First, broadcast_Save in Hrun.
  unfold bind, ret, raise, call, db_exec in Hrun. simpl in Hrun.
  destruct (db_fault (ext w)) as [[d|] x1]; [done|].
  rewrite Hb in Hrun. simpl in Hrun.
  destruct b as [bid bname bmsg brec bst bsc bfc buid bsch bca bua bsa bcoa].
  simpl in *. subst bid.
  destruct (decide (scheduleAt = "")) as [Hs|Hs].
  - rewrite (bool_decide_eq_false_2 _ (λ Hne, Hne Hs)) in Hrun. simpl in Hrun.
    destruct (time_Now x1) as [now x2]. simpl in Hrun.
    destruct (db_fault x2) as [[d|] x3]; [done|].
    destruct (decide (name = "")) as [Hn|Hn], (decide (message = "")) as [Hm|Hm],
      recipients as [l|];
      rewrite ?(bool_decide_eq_false_2 _ (λ Hne, Hne Hn)),
              ?(bool_decide_eq_false_2 _ (λ Hne, Hne Hm)),
              ?(bool_decide_eq_true_2 _ Hn), ?(bool_decide_eq_true_2 _ Hm) in Hrun;
      simplify_eq/=; done.
  - rewrite (bool_decide_eq_true_2 _ Hs) in Hrun.
    destruct (time_Parse schedule_layout scheduleAt) as [err|t]; [done|].
    simpl in Hrun.
    destruct (time_Now x1) as [now x2]. simpl in Hrun.
    destruct (db_fault x2) as [[d|] x3]; [done|].
    destruct (decide (name = "")) as [Hn|Hn], (decide (message = "")) as [Hm|Hm],
      recipients as [l|];
      rewrite ?(bool_decide_eq_false_2 _ (λ Hne, Hne Hn)),
              ?(bool_decide_eq_false_2 _ (λ Hne, Hne Hm)),
              ?(bool_decide_eq_true_2 _ Hn), ?(bool_decide_eq_true_2 _ Hm) in Hrun;
      simplify_eq/=; done.
Qed.

Lemma filter_id_iff (l : list Z) :
  filter (λ r, 0 < r) l = l ↔ Forall (λ r, 0 < r) l.
Proof.
  split.
  - intros Heq. apply Forall_forall. intros r Hr.
    rewrite <- Heq in Hr. by apply list_elem_of_filter in Hr as [? _].
  - induction 1 as [|r l Hr _ IH]; [done|].
    rewrite filter_cons_True by done. by rewrite IH.
Qed.
End LifecycleFacts.

(** ** The gateway calls of a dispatch, and the campaigns the operations keep *)

Section DispatchTraceFacts.
Context `{Outside}.

Lemma deliveries_length (message : string) (recipients : list Z) (x : Ext) :
  length (fst (deliveries message recipients x)) = length recipients.
Proof.
  revert x. induction recipients as [|r rest IH]; intros x; simpl; [done|].
  destruct (telegram_Client_SendMessage r message "" x) as [err x1].
  specialize (IH x1).
  destruct (deliveries message rest x1) as [errs x2]. simpl in *. by rewrite IH.
Qed.

Lemma successes_cons (err : option error) (outcomes : list (option error)) :
  successes (err :: outcomes) = (if accepted err then 1 else 0) + successes outcomes.
Proof.
  unfold successes. destruct err as [e|].
  - rewrite filter_cons_False by (simpl; discriminate). simpl. lia.
  - rewrite filter_cons_True by done. cbn [length accepted]. lia.
Qed.

Lemma successes_bounds (outcomes : list (option error)) :
  0 ≤ successes outcomes ≤ Z.of_nat (length outcomes).
Proof.
  induction outcomes as [|err outcomes IH]; [done|].
  rewrite successes_cons. destruct err; simpl; lia.
Qed.

(** The loop calls the gateway once for each recipient, in list order,
    with the message of the campaign, and counts the calls that returned
    [nil]; it does nothing else. *)
Lemma telegram_send_loop_deliveries (message : string) (recipients : list Z)
    (successCount : Z) (w : World) :
  telegram_send_loop message recipients successCount w =
    (inr (successCount + successes (fst (deliveries message recipients (ext w)))),
     mkWorld _ (DB w) (snd (deliveries message recipients (ext w)))).
Proof.
  revert successCount w.
  induction recipients as [|r rest IH]; intros s w; simpl.
  - unfold ret, successes. simpl. destruct w. simpl. do 2 f_equal. lia.
  - unfold bind, TelegramService_SendMessage, call.
    destruct (telegram_Client_SendMessage r message "" (ext w)) as [err x1].
    destruct err as [e|]; rewrite IH; simpl;
      destruct (deliveries message rest x1) as [errs x2]; simpl;
      rewrite successes_cons; simpl; do 2 f_equal; lia.
Qed.

Lemma SendTelegramBroadcast_halves (id : UUID) (w : World) :
  SendTelegramBroadcast id w =
    bind (SendTelegramBroadcast_begin id)
      (λ b, bind (telegram_send_loop (TelegramBroadcast.Message b)
                    (TelegramBroadcast.Recipients b) 0)
              (SendTelegramBroadcast_end b)) w.
Proof.
  unfold SendTelegramBroadcast, SendTelegramBroadcast_begin, SendTelegramBroadcast_end.
  unfold bind, ret. simpl.
  destruct (telegram_First id w) as [[e|b] w1]; [done|].
  destruct (call time_Now w1) as [[e|now] w2]; [done|].
  by destruct (telegram_Save _ w2) as [[e|[]] w3].
Qed.

(** The outcome of [SendTelegramBroadcast] on an existing campaign, case
    by case: which statements ran, what each call outside returned, and
    what is stored. *)
Lemma SendTelegramBroadcast_trace (w : World) (id : UUID) (b : TelegramBroadcast.t) :
  telegram_broadcasts (DB w) !! id = Some b ->
  TelegramBroadcast.ID b = id ->
  (∃ d x1,
      db_fault (ext w) = (Some d, x1)
      ∧ SendTelegramBroadcast id w = (inl (ErrStorage d), mkWorld _ (DB w) x1))
  ∨ (∃ d x1 sentAt x2 x3,
        db_fault (ext w) = (None, x1) ∧ time_Now x1 = (sentAt, x2)
        ∧ db_fault x2 = (Some d, x3)
        ∧ SendTelegramBroadcast id w = (inl (ErrStorage d), mkWorld _ (DB w) x3))
  ∨ (∃ d x1 sentAt x2 x3 outcomes x4 completedAt x5 x6,
        db_fault (ext w) = (None, x1) ∧ time_Now x1 = (sentAt, x2)
        ∧ db_fault x2 = (None, x3)
        ∧ deliveries (TelegramBroadcast.Message b) (TelegramBroadcast.Recipients b) x3
            = (outcomes, x4)
        ∧ time_Now x4 = (completedAt, x5)
        ∧ db_fault x5 = (Some d, x6)
        ∧ SendTelegramBroadcast id w =
            (inl (ErrStorage d),
             mkWorld _
               (set_telegram_broadcasts
                  (<[id := sending_campaign sentAt b]> (telegram_broadcasts (DB w)))
                  (DB w)) x6))
  ∨ (∃ x1 sentAt x2 x3 outcomes x4 completedAt x5 x6,
        db_fault (ext w) = (None, x1) ∧ time_Now x1 = (sentAt, x2)
        ∧ db_fault x2 = (None, x3)
        ∧ deliveries (TelegramBroadcast.Message b) (TelegramBroadcast.Recipients b) x3
            = (outcomes, x4)
        ∧ time_Now x4 = (completedAt, x5)
        ∧ db_fault x5 = (None, x6)
        ∧ SendTelegramBroadcast id w =
            (inr tt,
             mkWorld _
               (set_telegram_broadcasts
                  (<[id := sent_campaign sentAt completedAt (successes outcomes) b]>
                     (telegram_broadcasts (DB w)))
                  (DB w)) x6)).
Proof.
  intros Hb Hid. subst id.
  unfold SendTelegramBroadcast, telegram_First, telegram_Save.
  unfold bind, call, db_exec. simpl.
  destruct (db_fault (ext w)) as [[d|] x1] eqn:Hf1; simpl.
  { left. by exists d, x1. }
  right. rewrite Hb. simpl.
  destruct (time_Now x1) as [sentAt x2] eqn:Ht1. simpl.
  destruct (db_fault x2) as [[d|] x3] eqn:Hf2; simpl.
  { left. by exists d, x1, sentAt, x2, x3. }
  right. rewrite telegram_send_loop_deliveries. simpl.
  destruct (deliveries (TelegramBroadcast.Message b) (TelegramBroadcast.Recipients b) x3)
    as [outcomes x4] eqn:Hdel. simpl.
  destruct (time_Now x4) as [completedAt x5] eqn:Ht2. simpl.
  destruct (db_fault x5) as [[d|] x6] eqn:Hf3; simpl.
  - left. exists d, x1, sentAt, x2, x3, outcomes, x4, completedAt, x5, x6.
    do 6 (split; [done|]). done.
  - right. exists x1, sentAt, x2, x3, outcomes, x4, completedAt, x5, x6.
    do 6 (split; [done|]).
    unfold set_telegram_broadcasts, sent_campaign. simpl.
    rewrite insert_insert_eq, Z.add_0_l. done.
Qed.

(** The same for [SendBroadcast], which calls nothing between its two
    [Save]s. *)
Lemma SendBroadcast_trace (w : World) (id : UUID) (b : Broadcast.t) :
  broadcasts (DB w) !! id = Some b ->
  Broadcast.ID b = id ->
  (∃ d x1,
      db_fault (ext w) = (Some d, x1)
      ∧ SendBroadcast id w = (inl (ErrStorage d), mkWorld _ (DB w) x1))
  ∨ (∃ d x1 sentAt x2 x3,
        db_fault (ext w) = (None, x1) ∧ time_Now x1 = (sentAt, x2)
        ∧ db_fault x2 = (Some d, x3)
        ∧ SendBroadcast id w = (inl (ErrStorage d), mkWorld _ (DB w) x3))
  ∨ (∃ d x1 sentAt x2 x3 completedAt x4 x5,
        db_fault (ext w) = (None, x1) ∧ time_Now x1 = (sentAt, x2)
        ∧ db_fault x2 = (None, x3)
        ∧ time_Now x3 = (completedAt, x4)
        ∧ db_fault x4 = (Some d, x5)
        ∧ SendBroadcast id w =
            (inl (ErrStorage d),
             mkWorld _
               (set_broadcasts (<[id := sending_broadcast sentAt b]> (broadcasts (DB w)))
                  (DB w)) x5))
  ∨ (∃ x1 sentAt x2 x3 completedAt x4 x5,
        db_fault (ext w) = (None, x1) ∧ time_Now x1 = (sentAt, x2)
        ∧ db_fault x2 = (None, x3)
        ∧ time_Now x3 = (completedAt, x4)
        ∧ db_fault x4 = (None, x5)
        ∧ SendBroadcast id w =
            (inr tt,
             mkWorld _
               (set_broadcasts
                  (<[id := sent_broadcast sentAt completedAt b]> (broadcasts (DB w)))
                  (DB w)) x5)).
Proof.
  intros Hb Hid. subst id.
  unfold SendBroadcast, broadcast_First, broadcast_Save.
  unfold bind, call, db_exec. simpl.
  destruct (db_fault (ext w)) as [[d|] x1] eqn:Hf1; simpl.
  { left. by exists d, x1. }
  right. rewrite Hb. simpl.
  destruct (time_Now x1) as [sentAt x2] eqn:Ht1. simpl.
  destruct (db_fault x2) as [[d|] x3] eqn:Hf2; simpl.
  { left. by exists d, x1, sentAt, x2, x3. }
  right.
  destruct (time_Now x3) as [completedAt x4] eqn:Ht2. simpl.
  destruct (db_fault x4) as [[d|] x5] eqn:Hf3; simpl.
  - left. exists d, x1, sentAt, x2, x3, completedAt, x4, x5.
    do 5 (split; [done|]). done.
  - right. exists x1, sentAt, x2, x3, completedAt, x4, x5.
    do 5 (split; [done|]).
    unfold set_broadcasts, sent_broadcast. simpl.
    rewrite insert_insert_eq, broadcast_send_loop_spec.
    by replace (Z.of_nat (length (Broadcast.Recipients b))
                - (0 + Z.of_nat (length (Broadcast.Recipients b)))) with 0 by lia.
Qed.

Lemma SendBroadcast_status_blind (w : World) (id : UUID) (b : Broadcast.t)
    (status : string) :
  broadcasts (DB w) !! id = Some b ->
  Broadcast.ID b = id ->
  fst (SendBroadcast id (with_broadcast_status w id b status)) = fst (SendBroadcast id w)
  ∧ (fst (SendBroadcast id w) = inr tt ->
       snd (SendBroadcast id (with_broadcast_status w id b status))
         = snd (SendBroadcast id w)).
Proof.
  intros Hb Hid.
  unfold SendBroadcast, broadcast_First, broadcast_Save, with_broadcast_status.
  unfold bind, call, db_exec. simpl.
  destruct (db_fault (ext w)) as [[d|] x1]; [done|].
  rewrite Hb, lookup_insert_eq. simpl.
  destruct (time_Now x1) as [sentAt x2]. simpl.
  destruct (db_fault x2) as [[d|] x3]; [done|]. simpl.
  unfold set_broadcasts. simpl.
  rewrite Hid, insert_insert_eq. done.
Qed.
End DispatchTraceFacts.

Section InvariantFacts.
Context `{Outside}.

Lemma telegram_broadcasts_set (m : gmap N TelegramBroadcast.t) (d : Database) :
  telegram_broadcasts (set_telegram_broadcasts m d) = m.
Proof. done. Qed.

(** What a call does to the table of campaigns: nothing, or it deletes a
    row, or it writes one or two rows, each of them a new campaign, or a
    stored campaign with its name, message, recipients, status or times
    changed as the operation says. *)
Ltac oracles :=
  repeat match goal with
    | |- context [db_fault ?x] => destruct (db_fault x) as [[?|] ?]; simpl
    | |- context [time_Now ?x] => destruct (time_Now x) as [? ?]; simpl
    | |- context [uuid_New ?x] => destruct (uuid_New x) as [? ?]; simpl
    | |- context [telegram_broadcasts ?d !! ?k] =>
        let Hrow := fresh "Hrow" in
        destruct (telegram_broadcasts d !! k) as [?|] eqn:Hrow; simpl
    | |- context [bool_decide ?P] => destruct (bool_decide P) eqn:?; simpl
    end.


Lemma perform_statuses_written (op : Operation) (w : World) :
  statuses_written (DB w) ->
  statuses_written (DB (perform op w)).
Proof.
  intros Hinv. unfold statuses_written, written_status in *.
  destruct op as [name message recipients userID|id|id name message recipients|id|id|id
                 |id scheduleAt|id|id userID|message recipients|id|id recipients];
    simpl.
  - unfold CreateTelegramBroadcast, telegram_Create, bind, ret, call, db_exec. simpl.
    oracles; try done.
    apply map_Forall_insert_2; [|done]. simpl. auto.
  - unfold GetTelegramBroadcast, telegram_First, db_exec. oracles; done.
  - unfold UpdateTelegramBroadcast, telegram_First, telegram_Save.
    unfold bind, ret, call, db_exec. simpl.
    destruct (db_fault (ext w)) as [[d|] x1]; simpl; [done|].
    destruct (telegram_broadcasts (DB w) !! id) as [b|] eqn:Hrow; simpl; [|done].
    destruct (time_Now x1) as [now x2]. simpl.
    destruct (db_fault x2) as [[d|] x3]; simpl; [done|].
    apply map_Forall_insert_2; [|done].
    pose proof (map_Forall_lookup_1 _ _ _ _ Hinv Hrow) as Hst.
    destruct b, recipients; simpl in *; do 2 case_bool_decide; simpl; done.
  - unfold DeleteTelegramBroadcast, telegram_Delete, db_exec. oracles; [done|].
    by apply map_Forall_delete.
  - destruct (telegram_broadcasts (DB w) !! id) as [b|] eqn:Hrow.
    + unfold SendTelegramBroadcast, telegram_First, telegram_Save.
      unfold bind, call, db_exec. simpl.
      destruct (db_fault (ext w)) as [[d|] x1]; simpl; [done|].
      rewrite Hrow. simpl.
      destruct (time_Now x1) as [sentAt x2]. simpl.
      destruct (db_fault x2) as [[d|] x3]; simpl; [done|].
      rewrite telegram_send_loop_deliveries. simpl.
      assert (Hsending : map_Forall
                (λ _ b0, TelegramBroadcast.Status b0 = "pending"
                         ∨ TelegramBroadcast.Status b0 = "sending"
                         ∨ TelegramBroadcast.Status b0 = "completed"
                         ∨ TelegramBroadcast.Status b0 = "cancelled")
                (<[TelegramBroadcast.ID b :=
                     TelegramBroadcast.set_SentAt (Some sentAt)
                       (TelegramBroadcast.set_Status "sending" b)]>
                   (telegram_broadcasts (DB w)))).
      { apply map_Forall_insert_2; [|done]. simpl. auto. }
      destruct (time_Now _) as [completedAt x5]. simpl.
      destruct (db_fault x5) as [[d|] x6]; simpl; [done|].
      apply map_Forall_insert_2; [|done]. simpl. auto.
    + unfold SendTelegramBroadcast, telegram_First, bind, db_exec. simpl.
      destruct (db_fault (ext w)) as [[d|] x1]; simpl; [done|].
      rewrite Hrow. done.
  - unfold GetTelegramBroadcastStats, telegram_First, bind, ret, db_exec.
    oracles; done.
  - unfold ScheduleTelegramBroadcast, telegram_First, bind, ret, db_exec.
    oracles; done.
  - unfold CancelTelegramBroadcast, telegram_First, telegram_Save.
    unfold bind, ret, raise, call, db_exec. simpl.
    destruct (db_fault (ext w)) as [[d|] x1]; simpl; [done|].
    destruct (telegram_broadcasts (DB w) !! id) as [b|] eqn:Hrow; simpl; [|done].
    case_bool_decide; simpl; [done|].
    unfold bind, call. simpl.
    destruct (time_Now x1) as [now x2]. simpl.
    destruct (db_fault x2) as [[d|] x3]; simpl; [done|].
    apply map_Forall_insert_2; [|done]. simpl. auto.
  - unfold DuplicateTelegramBroadcast, telegram_First, telegram_Create.
    unfold bind, ret, call, db_exec. simpl.
    destruct (db_fault (ext w)) as [[d|] x1]; simpl; [done|].
    destruct (telegram_broadcasts (DB w) !! id) as [b|] eqn:Hrow; simpl; [|done].
    destruct (uuid_New x1) as [nid x2]. simpl.
    destruct (time_Now x2) as [created x3]. simpl.
    destruct (time_Now x3) as [updated x4]. simpl.
    destruct (db_fault x4) as [[d|] x5]; simpl; [done|].
    destruct (telegram_broadcasts (DB w) !! nid) as [other|]; simpl; [done|].
    apply map_Forall_insert_2; [|done]. simpl. auto.
  - unfold PreviewTelegramBroadcast, bind, ret, call. simpl. by oracles.
  - unfold ExportTelegramBroadcastRecipients, telegram_First, bind, ret, db_exec.
    oracles; done.
  - unfold ImportTelegramBroadcastRecipients, telegram_First, telegram_Save.
    unfold bind, ret, call, db_exec. simpl.
    destruct (db_fault (ext w)) as [[d|] x1]; simpl; [done|].
    destruct (telegram_broadcasts (DB w) !! id) as [b|] eqn:Hrow; simpl; [|done].
    destruct (ValidateRecipients recipients) as [valid errors]. 
    unfold bind, call. simpl.
    destruct (time_Now x1) as [now x2]. simpl.
    destruct (db_fault x2) as [[d|] x3]; simpl; [done|].
    apply map_Forall_insert_2; [|done].
    pose proof (map_Forall_lookup_1 _ _ _ _ Hinv Hrow) as Hst.
    by destruct b.
Qed.
End InvariantFacts.

(** ** The claims about the campaign lifecycle *)

Section Claims.
Context `{Outside}.

(** With the first two database statements through, a dispatch returns
    the same value and leaves the same world whatever status was stored. *)
Lemma SendTelegramBroadcast_status_erased (w : World) (id : UUID)
    (b : TelegramBroadcast.t) (status : string) :
  telegram_broadcasts (DB w) !! id = Some b ->
  TelegramBroadcast.ID b = id ->
  fst (db_fault (ext w)) = None ->
  fst (db_fault (snd (time_Now (snd (db_fault (ext w)))))) = None ->
  SendTelegramBroadcast id (with_status w id b status) = SendTelegramBroadcast id w.
Proof.
  intros Hb Hid Hf1 Hf2.
  unfold SendTelegramBroadcast, telegram_First, telegram_Save, with_status.
  unfold bind, call, db_exec. simpl.
  destruct (db_fault (ext w)) as [[d|] x1]; [done|].
  rewrite Hb, lookup_insert_eq. simpl in *.
  destruct (time_Now x1) as [sentAt x2]. simpl in *.
  destruct (db_fault x2) as [[d|] x3]; [done|]. simpl.
  unfold set_telegram_broadcasts. simpl.
  rewrite Hid, insert_insert_eq. done.
Qed.

Lemma SendBroadcast_status_erased (w : World) (id : UUID) (b : Broadcast.t)
    (status : string) :
  broadcasts (DB w) !! id = Some b ->
  Broadcast.ID b = id ->
  fst (db_fault (ext w)) = None ->
  fst (db_fault (snd (time_Now (snd (db_fault (ext w)))))) = None ->
  SendBroadcast id (with_broadcast_status w id b status) = SendBroadcast id w.
Proof.
  intros Hb Hid Hf1 Hf2.
  unfold SendBroadcast, broadcast_First, broadcast_Save, with_broadcast_status.
  unfold bind, call, db_exec. simpl.
  destruct (db_fault (ext w)) as [[d|] x1]; [done|].
  rewrite Hb, lookup_insert_eq. simpl in *.
  destruct (time_Now x1) as [sentAt x2]. simpl in *.
  destruct (db_fault x2) as [[d|] x3]; [done|]. simpl.
  unfold set_broadcasts. simpl.
  rewrite Hid, insert_insert_eq. done.
Qed.

(** What the first half of a dispatch leaves. *)
Lemma SendTelegramBroadcast_begin_ok (w w0 : World) (id : UUID)
    (b0 : TelegramBroadcast.t) :
  SendTelegramBroadcast_begin id w = (inr b0, w0) ->
  ∃ b sentAt,
    telegram_broadcasts (DB w) !! id = Some b
    ∧ b0 = sending_campaign sentAt b
    ∧ DB w0 = set_telegram_broadcasts
                (<[TelegramBroadcast.ID b := b0]> (telegram_broadcasts (DB w))) (DB w).
Proof.
  unfold SendTelegramBroadcast_begin, telegram_First, telegram_Save.
  unfold bind, ret, call, db_exec. simpl. intros Hrun.
  destruct (db_fault (ext w)) as [[d|] x1]; [done|].
  destruct (telegram_broadcasts (DB w) !! id) as [b|] eqn:Hb; [|done].
  simpl in Hrun.
  destruct (time_Now x1) as [sentAt x2]. simpl in Hrun.
  destruct (db_fault x2) as [[d|] x3]; [done|].
  simplify_eq/=. by exists b, sentAt.
Qed.

Lemma UpdateTelegramBroadcast_error (w w' : World) (id : UUID) (name message : string)
    (recipients : option (list Z)) (e : error) :
  UpdateTelegramBroadcast id name message recipients w = (inl e, w') ->
  DB w' = DB w ∧ (e = ErrRecordNotFound ∨ ∃ d, e = ErrStorage d).
Proof.
  unfold UpdateTelegramBroadcast, telegram_First, telegram_Save.
  unfold bind, ret, call, db_exec. simpl. intros Hrun.
  destruct (db_fault (ext w)) as [[d|] x1]; [simplify_eq/=; eauto|].
  destruct (telegram_broadcasts (DB w) !! id) as [b|]; [|simplify_eq/=; eauto].
  simpl in Hrun.
  destruct (time_Now x1) as [now x2]. simpl in Hrun.
  destruct (db_fault x2) as [[d|] x3]; simplify_eq/=; eauto.
Qed.

Lemma UpdateBroadcast_error (w w' : World) (id : UUID) (name message : string)
    (recipients : option (list string)) (scheduleAt : string) (e : error) :
  UpdateBroadcast id name message recipients scheduleAt w = (inl e, w') ->
  DB w' = DB w
  ∧ (e = ErrRecordNotFound ∨ (∃ d, e = ErrStorage d)
     ∨ scheduleAt <> "" ∧ time_Parse schedule_layout scheduleAt = inl e).
Proof.
  unfold UpdateBroadcast, broadcast_First, broadcast_Save.
  unfold bind, ret, raise, call, db_exec. simpl. intros Hrun.
  destruct (db_fault (ext w)) as [[d|] x1]; [simplify_eq/=; eauto|].
  destruct (broadcasts (DB w) !! id) as [b|]; [|simplify_eq/=; eauto].
  simpl in Hrun.
  case_bool_decide as Hs.
  - destruct (time_Parse schedule_layout scheduleAt) as [err|t] eqn:Hparse.
    + simplify_eq/=. split; [done|]. right. right. done.
    + simpl in Hrun.
      destruct (time_Now x1) as [now x2]. simpl in Hrun.
      destruct (db_fault x2) as [[d|] x3]; simplify_eq/=; eauto.
  - simpl in Hrun.
    destruct (time_Now x1) as [now x2]. simpl in Hrun.
    destruct (db_fault x2) as [[d|] x3]; simplify_eq/=; eauto.
Qed.


(** C2 (as the code has it).  The dispatch entry points make no status
    check.  On an existing campaign in any status, [SendTelegramBroadcast]
    ends in one of four ways.  If the load fails, or the first [Save]
    fails, it returns that error of the database, nothing is stored and no
    message is sent.  Otherwise the campaign has been saved with status
    ["sending"] and the sending time read from the clock, and the gateway
    has been called once for every recipient, in list order, with the
    message of the campaign (of the stored campaign [UpdatedAt] is left
    open throughout); if the last [Save] fails, that error is
    returned and the campaign is left as sending; if it succeeds, [nil] is
    returned and the campaign is stored as completed, with the completion
    time, as success count the number of calls of this run that returned
    [nil], and as failure count the other recipients.  No other error is
    ever returned.  None of this depends on the status the campaign had:
    with another status stored, the value returned is the same, and once
    the first [Save] is through so is the world left.  [SendBroadcast]
    goes the same way, except that between its two [Save]s it reads only
    the clock: it calls no gateway and stores every recipient as a
    success. *)
Theorem dispatch_ignores_status (w : World) (id : UUID) (b : TelegramBroadcast.t) :
  telegram_broadcasts (DB w) !! id = Some b ->
  TelegramBroadcast.ID b = id ->
  ((∃ d x1,
       db_fault (ext w) = (Some d, x1)
       ∧ SendTelegramBroadcast id w = (inl (ErrStorage d), mkWorld _ (DB w) x1))
   ∨ (∃ d x1 sentAt x2 x3,
         db_fault (ext w) = (None, x1) ∧ time_Now x1 = (sentAt, x2)
         ∧ db_fault x2 = (Some d, x3)
         ∧ SendTelegramBroadcast id w = (inl (ErrStorage d), mkWorld _ (DB w) x3))
   ∨ (∃ d x1 sentAt x2 x3 outcomes x4 completedAt x5 x6 updatedAt,
         db_fault (ext w) = (None, x1) ∧ time_Now x1 = (sentAt, x2)
         ∧ db_fault x2 = (None, x3)
         ∧ deliveries (TelegramBroadcast.Message b) (TelegramBroadcast.Recipients b) x3
             = (outcomes, x4)
         ∧ time_Now x4 = (completedAt, x5)
         ∧ db_fault x5 = (Some d, x6)
         ∧ SendTelegramBroadcast id w =
             (inl (ErrStorage d),
              mkWorld _
                (set_telegram_broadcasts
                   (<[id := TelegramBroadcast.set_UpdatedAt updatedAt
                              (sending_campaign sentAt b)]>
                      (telegram_broadcasts (DB w)))
                   (DB w)) x6))
   ∨ (∃ x1 sentAt x2 x3 outcomes x4 completedAt x5 x6 updatedAt,
         db_fault (ext w) = (None, x1) ∧ time_Now x1 = (sentAt, x2)
         ∧ db_fault x2 = (None, x3)
         ∧ deliveries (TelegramBroadcast.Message b) (TelegramBroadcast.Recipients b) x3
             = (outcomes, x4)
         ∧ length outcomes = length (TelegramBroadcast.Recipients b)
         ∧ 0 ≤ successes outcomes ≤ Z.of_nat (length (TelegramBroadcast.Recipients b))
         ∧ time_Now x4 = (completedAt, x5)
         ∧ db_fault x5 = (None, x6)
         ∧ SendTelegramBroadcast id w =
             (inr tt,
              mkWorld _
                (set_telegram_broadcasts
                   (<[id := TelegramBroadcast.set_UpdatedAt updatedAt
                              (sent_campaign sentAt completedAt (successes outcomes) b)]>
                      (telegram_broadcasts (DB w)))
                   (DB w)) x6)))
  ∧ (∀ b0 w0,
        SendTelegramBroadcast_begin id w = (inr b0, w0) ->
        (∃ sentAt updatedAt,
            b0 = TelegramBroadcast.set_UpdatedAt updatedAt (sending_campaign sentAt b))
        ∧ telegram_broadcasts (DB w0) !! id = Some b0
        ∧ SendTelegramBroadcast id w
            = bind (telegram_send_loop (TelegramBroadcast.Message b)
                      (TelegramBroadcast.Recipients b) 0)
                (SendTelegramBroadcast_end b0) w0)
  ∧ (∀ status,
        fst (SendTelegramBroadcast id (with_status w id b status))
          = fst (SendTelegramBroadcast id w)
        ∧ (fst (db_fault (ext w)) = None ->
           fst (db_fault (snd (time_Now (snd (db_fault (ext w)))))) = None ->
           SendTelegramBroadcast id (with_status w id b status)
             = SendTelegramBroadcast id w))
  ∧ (∀ (wb : World) (bid : UUID) (bb : Broadcast.t),
        broadcasts (DB wb) !! bid = Some bb ->
        Broadcast.ID bb = bid ->
        ((∃ d x1,
             db_fault (ext wb) = (Some d, x1)
             ∧ SendBroadcast bid wb = (inl (ErrStorage d), mkWorld _ (DB wb) x1))
         ∨ (∃ d x1 sentAt x2 x3,
               db_fault (ext wb) = (None, x1) ∧ time_Now x1 = (sentAt, x2)
               ∧ db_fault x2 = (Some d, x3)
               ∧ SendBroadcast bid wb = (inl (ErrStorage d), mkWorld _ (DB wb) x3))
         ∨ (∃ d x1 sentAt x2 x3 completedAt x4 x5 updatedAt,
               db_fault (ext wb) = (None, x1) ∧ time_Now x1 = (sentAt, x2)
               ∧ db_fault x2 = (None, x3)
               ∧ time_Now x3 = (completedAt, x4)
               ∧ db_fault x4 = (Some d, x5)
               ∧ SendBroadcast bid wb =
                   (inl (ErrStorage d),
                    mkWorld _
                      (set_broadcasts
                         (<[bid := Broadcast.set_UpdatedAt updatedAt
                                     (sending_broadcast sentAt bb)]>
                            (broadcasts (DB wb)))
                         (DB wb)) x5))
         ∨ (∃ x1 sentAt x2 x3 completedAt x4 x5 updatedAt,
               db_fault (ext wb) = (None, x1) ∧ time_Now x1 = (sentAt, x2)
               ∧ db_fault x2 = (None, x3)
               ∧ time_Now x3 = (completedAt, x4)
               ∧ db_fault x4 = (None, x5)
               ∧ SendBroadcast bid wb =
                   (inr tt,
                    mkWorld _
                      (set_broadcasts
                         (<[bid := Broadcast.set_UpdatedAt updatedAt
                                     (sent_broadcast sentAt completedAt bb)]>
                            (broadcasts (DB wb)))
                         (DB wb)) x5)))
        ∧ ∀ status,
            fst (SendBroadcast bid (with_broadcast_status wb bid bb status))
              = fst (SendBroadcast bid wb)
            ∧ (fst (db_fault (ext wb)) = None ->
               fst (db_fault (snd (time_Now (snd (db_fault (ext wb)))))) = None ->
               SendBroadcast bid (with_broadcast_status wb bid bb status)
                 = SendBroadcast bid wb)).
Proof.
  intros Hb Hid. split; [|split; [|split]].
  - destruct (SendTelegramBroadcast_trace w id b Hb Hid) as [Hcase|[Hcase|[Hcase|Hcase]]];
      [by left|by right; left|right; right; left|right; right; right].
    + destruct Hcase as (d & x1 & sentAt & x2 & x3 & outcomes & x4 & completedAt & x5
                         & x6 & Hf1 & Ht1 & Hf2 & Hdel & Ht2 & Hf3 & Hrun).
      exists d, x1, sentAt, x2, x3, outcomes, x4, completedAt, x5, x6,
        (TelegramBroadcast.UpdatedAt b).
      by do 6 (split; [done|]).
    + destruct Hcase as (x1 & sentAt & x2 & x3 & outcomes & x4 & completedAt & x5 & x6
                         & Hf1 & Ht1 & Hf2 & Hdel & Ht2 & Hf3 & Hrun).
      exists x1, sentAt, x2, x3, outcomes, x4, completedAt, x5, x6,
        (TelegramBroadcast.UpdatedAt b).
      do 4 (split; [done|]).
      pose proof (deliveries_length (TelegramBroadcast.Message b)
                    (TelegramBroadcast.Recipients b) x3) as Hlen.
      pose proof (successes_bounds outcomes) as Hn.
      rewrite Hdel in Hlen. simpl in Hlen. rewrite Hlen in Hn.
      split; [done|]. split; [done|]. done.
  - intros b0 w0 Hbegin.
    destruct (SendTelegramBroadcast_begin_ok w w0 id b0 Hbegin)
      as (b1 & sentAt & Hb1 & Hb0 & Hw0).
    rewrite Hb in Hb1. injection Hb1 as <-.
    split; [by exists sentAt, (TelegramBroadcast.UpdatedAt b)|]. split.
    + rewrite Hw0. simpl. rewrite Hid. apply lookup_insert_eq.
    + rewrite SendTelegramBroadcast_halves. unfold bind at 1. rewrite Hbegin.
      by rewrite Hb0.
  - intros status. split.
    + by destruct (SendTelegramBroadcast_status_blind w id b status Hb Hid).
    + by apply SendTelegramBroadcast_status_erased.
  - intros wb bid bb Hbb Hbid. split.
    + destruct (SendBroadcast_trace wb bid bb Hbb Hbid) as [Hcase|[Hcase|[Hcase|Hcase]]];
        [by left|by right; left|right; right; left|right; right; right].
      * destruct Hcase as (d & x1 & sentAt & x2 & x3 & completedAt & x4 & x5
                           & Hf1 & Ht1 & Hf2 & Ht2 & Hf3 & Hrun).
        exists d, x1, sentAt, x2, x3, completedAt, x4, x5, (Broadcast.UpdatedAt bb).
        by do 5 (split; [done|]).
      * destruct Hcase as (x1 & sentAt & x2 & x3 & completedAt & x4 & x5
                           & Hf1 & Ht1 & Hf2 & Ht2 & Hf3 & Hrun).
        exists x1, sentAt, x2, x3, completedAt, x4, x5, (Broadcast.UpdatedAt bb).
        by do 5 (split; [done|]).
    + intros status. split.
      * by destruct (SendBroadcast_status_blind wb bid bb status Hbb Hbid).
      * by apply SendBroadcast_status_erased.
Qed.

(** C3.  Every operation of [TelegramBroadcastService] writes one of the
    statuses ["pending"], ["sending"], ["completed"] and ["cancelled"]: a
    table that holds only these statuses, as the empty one does, holds only
    these after any call.  On a stored campaign with such a status,
    [CancelTelegramBroadcast] returns [nil] only if the status is one of
    those in which the specification lets a campaign be cancelled, draft
    and pending; the stored campaign is then the old one with status
    ["cancelled"], [UpdatedAt] apart, and every other row is as before.
    In one of these statuses the call returns [nil] unless a database
    statement fails; in any other status it returns the error
    ["can only cancel pending broadcasts"], or that of a failed load.
    Whenever it returns an error no table has changed.  With a database
    that does not fail, the call returns [nil] if and only if the status is
    one of those two. *)
Theorem CancelTelegramBroadcast_iff_cancellable :
  (∀ d : Database, telegram_broadcasts d = ∅ -> statuses_written d)
  ∧ (∀ (op : Operation) (w : World),
        statuses_written (DB w) -> statuses_written (DB (perform op w)))
  ∧ ∀ (w : World) (id : UUID) (b : TelegramBroadcast.t),
      telegram_broadcasts (DB w) !! id = Some b ->
      TelegramBroadcast.ID b = id ->
      written_status (TelegramBroadcast.Status b) ->
      ∃ r w',
        CancelTelegramBroadcast id w = (r, w')
        ∧ (r = inr tt ->
             spec_cancellable (TelegramBroadcast.Status b)
             ∧ ∃ updatedAt,
                 DB w' =
                   set_telegram_broadcasts
                     (<[id := TelegramBroadcast.set_UpdatedAt updatedAt
                                (TelegramBroadcast.set_Status "cancelled" b)]>
                        (telegram_broadcasts (DB w)))
                     (DB w))
        ∧ (spec_cancellable (TelegramBroadcast.Status b) ->
             r = inr tt ∨ ∃ d, r = inl (ErrStorage d))
        ∧ (¬ spec_cancellable (TelegramBroadcast.Status b) ->
             r = inl (Errorf "can only cancel pending broadcasts")
             ∨ ∃ d, r = inl (ErrStorage d))
        ∧ (∀ e, r = inl e -> DB w' = DB w)
        ∧ (fst (db_fault (ext w)) = None ->
           fst (db_fault (snd (time_Now (snd (db_fault (ext w)))))) = None ->
           (r = inr tt ↔ spec_cancellable (TelegramBroadcast.Status b))).
Proof.
  split; [|split].
  - intros d Hd. unfold statuses_written. rewrite Hd. apply map_Forall_empty.
  - apply perform_statuses_written.
  - intros w id b Hb Hid Hst.
    assert (Hcan : spec_cancellable (TelegramBroadcast.Status b)
                   ↔ TelegramBroadcast.Status b = "pending").
    { unfold spec_cancellable. split; [|by right].
      intros [Hd|Hp]; [|done].
      destruct Hst as [Hs|[Hs|[Hs|Hs]]]; rewrite Hs in Hd; discriminate. }
    unfold CancelTelegramBroadcast, telegram_First, telegram_Save.
    unfold bind, ret, raise, call, db_exec. simpl.
    destruct (db_fault (ext w)) as [[d|] x1]; simpl.
    { eexists _, _. split; [done|].
      split; [done|]. split; [eauto|]. split; [eauto|]. split; [done|]. done. }
    rewrite Hb. simpl.
    case_bool_decide as Hpending; simpl.
    { eexists _, _. split; [done|].
      split; [done|]. split; [intros Hc; apply Hcan in Hc; done|].
      split; [eauto|]. split; [done|]. intros _ _. split; [done|].
      intros Hc. apply Hcan in Hc. done. }
    unfold bind, call. simpl.
    destruct (time_Now x1) as [now x2]. simpl.
    destruct (db_fault x2) as [[d|] x3]; simpl.
    { eexists _, _. split; [done|].
      split; [done|]. split; [eauto|].
      split; [intros Hn; exfalso; apply Hn, Hcan, Hpending|].
      split; [done|]. done. }
    eexists _, _. split; [done|].
    split.
    { intros _. split; [by apply Hcan|]. exists now. by rewrite Hid. }
    split; [eauto|].
    split; [intros Hn; exfalso; apply Hn, Hcan, Hpending|].
    split; [done|]. intros _ _. split; [intros _; by apply Hcan|done].
Qed.


(** C7 (as the code has it).  On an existing campaign in any status, a
    [DuplicateTelegramBroadcast] that returns [nil] has inserted a new
    campaign under an id that was not in the table; its status is
    ["pending"], both counters are 0, message and recipients are those of
    the source, the name is the source's followed by [" (Copy)"], the
    owner is the caller's [userID], and the source row is untouched. *)
Theorem DuplicateTelegramBroadcast_copy (w w' : World) (id userID : UUID)
    (b nb : TelegramBroadcast.t) :
  telegram_broadcasts (DB w) !! id = Some b ->
  DuplicateTelegramBroadcast id userID w = (inr nb, w') ->
  telegram_broadcasts (DB w) !! TelegramBroadcast.ID nb = None
  ∧ telegram_broadcasts (DB w') =
      <[TelegramBroadcast.ID nb := nb]> (telegram_broadcasts (DB w))
  ∧ telegram_broadcasts (DB w') !! id = Some b
  ∧ TelegramBroadcast.Status nb = "pending"
  ∧ TelegramBroadcast.SuccessCount nb = 0
  ∧ TelegramBroadcast.FailureCount nb = 0
  ∧ TelegramBroadcast.Message nb = TelegramBroadcast.Message b
  ∧ TelegramBroadcast.Recipients nb = TelegramBroadcast.Recipients b
  ∧ TelegramBroadcast.Name nb = TelegramBroadcast.Name b +:+ " (Copy)"
  ∧ TelegramBroadcast.UserID nb = userID
  ∧ TelegramBroadcast.SentAt nb = None
  ∧ TelegramBroadcast.CompletedAt nb = None.
Proof.
  intros Hb Hrun.
  unfold DuplicateTelegramBroadcast, telegram_First, telegram_Create in Hrun.
  unfold bind, ret, call, db_exec in Hrun. simpl in Hrun.
  destruct (db_fault (ext w)) as [[d|] x1]; [done|].
  rewrite Hb in Hrun. simpl in Hrun.
  destruct (uuid_New x1) as [nid x2]. simpl in Hrun.
  destruct (time_Now x2) as [created x3]. simpl in Hrun.
  destruct (time_Now x3) as [updated x4]. simpl in Hrun.
  destruct (db_fault x4) as [[d|] x5]; [done|].
  destruct (telegram_broadcasts (DB w) !! nid) as [other|] eqn:Hfresh; [done|].
  simplify_eq/=. split; [done|]. split; [done|]. split; [|done].
  rewrite lookup_insert_ne; [done|]. intros ->. congruence.
Qed.

(** C10.  An update that returns an error, for a missing row, a schedule
    that does not parse or a failed database statement, has changed no
    table.  An update that returns [nil] keeps a field whose argument is
    the empty string, or the nil slice, as it was; it keeps the id, the
    status, the counters, the owner and the creation, sending and
    completion times; only [UpdatedAt] changes besides the fields given.
    No other row and no other table changes.  So whatever an update
    returns, every campaign stored after it was stored before it, and a
    name or message that is empty afterwards was empty before.  This holds
    for [UpdateTelegramBroadcast] and for [UpdateBroadcast], where the
    schedule is kept when [scheduleAt] is empty. *)
Theorem update_keeps_omitted_fields :
  (∀ (w w' : World) (id : UUID) (name message : string)
      (recipients : option (list Z)) (e : error),
      UpdateTelegramBroadcast id name message recipients w = (inl e, w') ->
      DB w' = DB w)
  ∧ (∀ (w w' : World) (id : UUID) (b b' : TelegramBroadcast.t)
        (name message : string) (recipients : option (list Z)),
        telegram_broadcasts (DB w) !! id = Some b ->
        TelegramBroadcast.ID b = id ->
        UpdateTelegramBroadcast id name message recipients w = (inr b', w') ->
        DB w' = set_telegram_broadcasts (<[id := b']> (telegram_broadcasts (DB w))) (DB w)
        ∧ (name = "" -> TelegramBroadcast.Name b' = TelegramBroadcast.Name b)
        ∧ (name <> "" -> TelegramBroadcast.Name b' = name)
        ∧ (message = "" -> TelegramBroadcast.Message b' = TelegramBroadcast.Message b)
        ∧ (message <> "" -> TelegramBroadcast.Message b' = message)
        ∧ (recipients = None ->
             TelegramBroadcast.Recipients b' = TelegramBroadcast.Recipients b)
        ∧ (∀ l, recipients = Some l -> TelegramBroadcast.Recipients b' = l)
        ∧ b' = TelegramBroadcast.set_UpdatedAt (TelegramBroadcast.UpdatedAt b')
                 (TelegramBroadcast.set_Recipients (TelegramBroadcast.Recipients b')
                    (TelegramBroadcast.set_Message (TelegramBroadcast.Message b')
                       (TelegramBroadcast.set_Name (TelegramBroadcast.Name b') b)))
        ∧ (TelegramBroadcast.Name b' = "" -> TelegramBroadcast.Name b = "")
        ∧ (TelegramBroadcast.Message b' = "" -> TelegramBroadcast.Message b = ""))
  ∧ (∀ (w : World) (id : UUID) (name message : string)
        (recipients : option (list Z)) (k : UUID) (b1 : TelegramBroadcast.t),
        (∀ b, telegram_broadcasts (DB w) !! id = Some b -> TelegramBroadcast.ID b = id) ->
        telegram_broadcasts
          (DB (snd (UpdateTelegramBroadcast id name message recipients w))) !! k
          = Some b1 ->
        ∃ b0,
          telegram_broadcasts (DB w) !! k = Some b0
          ∧ (TelegramBroadcast.Name b1 = "" -> TelegramBroadcast.Name b0 = "")
          ∧ (TelegramBroadcast.Message b1 = "" -> TelegramBroadcast.Message b0 = ""))
  ∧ (∀ (w w' : World) (id : UUID) (name message : string)
        (recipients : option (list string)) (scheduleAt : string) (e : error),
        UpdateBroadcast id name message recipients scheduleAt w = (inl e, w') ->
        DB w' = DB w)
  ∧ (∀ (w w' : World) (id : UUID) (b b' : Broadcast.t)
        (name message : string) (recipients : option (list string))
        (scheduleAt : string),
        broadcasts (DB w) !! id = Some b ->
        Broadcast.ID b = id ->
        UpdateBroadcast id name message recipients scheduleAt w = (inr b', w') ->
        DB w' = set_broadcasts (<[id := b']> (broadcasts (DB w))) (DB w)
        ∧ (name = "" -> Broadcast.Name b' = Broadcast.Name b)
        ∧ (name <> "" -> Broadcast.Name b' = name)
        ∧ (message = "" -> Broadcast.Message b' = Broadcast.Message b)
        ∧ (message <> "" -> Broadcast.Message b' = message)
        ∧ (recipients = None -> Broadcast.Recipients b' = Broadcast.Recipients b)
        ∧ (∀ l, recipients = Some l -> Broadcast.Recipients b' = l)
        ∧ (scheduleAt = "" -> Broadcast.ScheduleAt b' = Broadcast.ScheduleAt b)
        ∧ b' = Broadcast.set_UpdatedAt (Broadcast.UpdatedAt b')
                 (Broadcast.set_ScheduleAt (Broadcast.ScheduleAt b')
                    (Broadcast.set_Recipients (Broadcast.Recipients b')
                       (Broadcast.set_Message (Broadcast.Message b')
                          (Broadcast.set_Name (Broadcast.Name b') b))))
        ∧ (Broadcast.Name b' = "" -> Broadcast.Name b = "")
        ∧ (Broadcast.Message b' = "" -> Broadcast.Message b = ""))
  ∧ (∀ (w : World) (id : UUID) (name message : string)
        (recipients : option (list string)) (scheduleAt : string) (k : UUID)
        (b1 : Broadcast.t),
        (∀ b, broadcasts (DB w) !! id = Some b -> Broadcast.ID b = id) ->
        broadcasts
          (DB (snd (UpdateBroadcast id name message recipients scheduleAt w))) !! k
          = Some b1 ->
        ∃ b0,
          broadcasts (DB w) !! k = Some b0
          ∧ (Broadcast.Name b1 = "" -> Broadcast.Name b0 = "")
          ∧ (Broadcast.Message b1 = "" -> Broadcast.Message b0 = "")).
Proof.
  assert (Htg : ∀ (w w' : World) (id : UUID) (b b' : TelegramBroadcast.t)
        (name message : string) (recipients : option (list Z)),
        telegram_broadcasts (DB w) !! id = Some b ->
        TelegramBroadcast.ID b = id ->
        UpdateTelegramBroadcast id name message recipients w = (inr b', w') ->
        DB w' = set_telegram_broadcasts (<[id := b']> (telegram_broadcasts (DB w))) (DB w)
        ∧ (name = "" -> TelegramBroadcast.Name b' = TelegramBroadcast.Name b)
        ∧ (name <> "" -> TelegramBroadcast.Name b' = name)
        ∧ (message = "" -> TelegramBroadcast.Message b' = TelegramBroadcast.Message b)
        ∧ (message <> "" -> TelegramBroadcast.Message b' = message)
        ∧ (recipients = None ->
             TelegramBroadcast.Recipients b' = TelegramBroadcast.Recipients b)
        ∧ (∀ l, recipients = Some l -> TelegramBroadcast.Recipients b' = l)
        ∧ b' = TelegramBroadcast.set_UpdatedAt (TelegramBroadcast.UpdatedAt b')
                 (TelegramBroadcast.set_Recipients (TelegramBroadcast.Recipients b')
                    (TelegramBroadcast.set_Message (TelegramBroadcast.Message b')
                       (TelegramBroadcast.set_Name (TelegramBroadcast.Name b') b)))
        ∧ (TelegramBroadcast.Name b' = "" -> TelegramBroadcast.Name b = "")
        ∧ (TelegramBroadcast.Message b' = "" -> TelegramBroadcast.Message b = "")).
  { intros w w' id b b' name message recipients Hb Hid Hrun.
    destruct (UpdateTelegramBroadcast_frame _ _ _ _ _ _ _ _ Hb Hid Hrun)
      as (Hb' & -> & Hname & Hmsg).
    split; [done|].
    destruct (decide (name = "")), (decide (message = "")), recipients;
      rewrite Hb' in *; simpl in *; subst; repeat split; intros;
      simplify_eq/=; try done; eauto. }
  assert (Hbs : ∀ (w w' : World) (id : UUID) (b b' : Broadcast.t)
        (name message : string) (recipients : option (list string))
        (scheduleAt : string),
        broadcasts (DB w) !! id = Some b ->
        Broadcast.ID b = id ->
        UpdateBroadcast id name message recipients scheduleAt w = (inr b', w') ->
        DB w' = set_broadcasts (<[id := b']> (broadcasts (DB w))) (DB w)
        ∧ (name = "" -> Broadcast.Name b' = Broadcast.Name b)
        ∧ (name <> "" -> Broadcast.Name b' = name)
        ∧ (message = "" -> Broadcast.Message b' = Broadcast.Message b)
        ∧ (message <> "" -> Broadcast.Message b' = message)
        ∧ (recipients = None -> Broadcast.Recipients b' = Broadcast.Recipients b)
        ∧ (∀ l, recipients = Some l -> Broadcast.Recipients b' = l)
        ∧ (scheduleAt = "" -> Broadcast.ScheduleAt b' = Broadcast.ScheduleAt b)
        ∧ b' = Broadcast.set_UpdatedAt (Broadcast.UpdatedAt b')
                 (Broadcast.set_ScheduleAt (Broadcast.ScheduleAt b')
                    (Broadcast.set_Recipients (Broadcast.Recipients b')
                       (Broadcast.set_Message (Broadcast.Message b')
                          (Broadcast.set_Name (Broadcast.Name b') b))))
        ∧ (Broadcast.Name b' = "" -> Broadcast.Name b = "")
        ∧ (Broadcast.Message b' = "" -> Broadcast.Message b = "")).
  { intros w w' id b b' name message recipients scheduleAt Hb Hid Hrun.
    destruct (UpdateBroadcast_frame _ _ _ _ _ _ _ _ _ Hb Hid Hrun)
      as (Hb' & -> & _ & Hname & Hmsg).
    split; [done|].
    destruct b' as [bid' bname' bmsg' brec' bst' bsc' bfc' buid' bsch' bca' bua' bsa' bcoa'].
    simpl in *.
    destruct (decide (name = "")), (decide (message = "")), recipients,
      (decide (scheduleAt = ""));
      simpl in Hb'; inversion Hb'; subst;
      repeat split; intros; simplify_eq/=; try done; eauto. }
  split; [|split; [exact Htg|split; [|split; [|split; [exact Hbs|]]]]].
  - intros w w' id name message recipients e Hrun.
    by destruct (UpdateTelegramBroadcast_error _ _ _ _ _ _ _ Hrun).
  - intros w id name message recipients k b1 Hkey Hk.
    destruct (UpdateTelegramBroadcast id name message recipients w) as [[e|b'] w'] eqn:Hrun.
    + destruct (UpdateTelegramBroadcast_error _ _ _ _ _ _ _ Hrun) as [Hdb _].
      simpl in Hk. rewrite Hdb in Hk. by exists b1.
    + destruct (telegram_broadcasts (DB w) !! id) as [b|] eqn:Hb.
      * destruct (Htg _ _ _ _ _ _ _ _ Hb (Hkey b eq_refl) Hrun)
          as (Hdb & _ & _ & _ & _ & _ & _ & _ & Hname & Hmsg).
        simpl in Hk. rewrite Hdb in Hk. simpl in Hk.
        destruct (decide (k = id)) as [->|Hne].
        -- rewrite lookup_insert_eq in Hk. injection Hk as <-. by exists b.
        -- rewrite lookup_insert_ne in Hk by done. by exists b1.
      * exfalso. revert Hrun.
        unfold UpdateTelegramBroadcast, telegram_First, bind, db_exec. simpl.
        destruct (db_fault (ext w)) as [[d|] x1]; [done|]. by rewrite Hb.
  - intros w w' id name message recipients scheduleAt e Hrun.
    by destruct (UpdateBroadcast_error _ _ _ _ _ _ _ _ Hrun).
  - intros w id name message recipients scheduleAt k b1 Hkey Hk.
    destruct (UpdateBroadcast id name message recipients scheduleAt w)
      as [[e|b'] w'] eqn:Hrun.
    + destruct (UpdateBroadcast_error _ _ _ _ _ _ _ _ Hrun) as [Hdb _].
      simpl in Hk. rewrite Hdb in Hk. by exists b1.
    + destruct (broadcasts (DB w) !! id) as [b|] eqn:Hb.
      * destruct (Hbs _ _ _ _ _ _ _ _ _ Hb (Hkey b eq_refl) Hrun)
          as (Hdb & _ & _ & _ & _ & _ & _ & _ & _ & Hname & Hmsg).
        simpl in Hk. rewrite Hdb in Hk. simpl in Hk.
        destruct (decide (k = id)) as [->|Hne].
        -- rewrite lookup_insert_eq in Hk. injection Hk as <-. by exists b.
        -- rewrite lookup_insert_ne in Hk by done. by exists b1.
      * exfalso. revert Hrun.
        unfold UpdateBroadcast, broadcast_First, bind, db_exec. simpl.
        destruct (db_fault (ext w)) as [[d|] x1]; [done|]. by rewrite Hb.
Qed.
End Claims.

(** ** The claims on concrete runs *)

Section Runs.
Local Existing Instance Sim.outside.



(** C2, counterexample to the claim as stated: sending a completed
    campaign returns [nil], delivers the message again to chat 11, and
    overwrites the counters 2 and 0 by 1 and 1. *)
Lemma dispatch_completed_counterexample :
  telegram_broadcasts (DB completed_world) !! 1%N = Some completed_campaign
  ∧ TelegramBroadcast.Status completed_campaign = "completed"
  ∧ fst (SendTelegramBroadcast 1%N completed_world) = inr tt
  ∧ Sim.telegram_outbox (ext (snd (SendTelegramBroadcast 1%N completed_world)))
      = [(11, "Hello")]
  ∧ (TelegramBroadcast.SuccessCount
       <$> telegram_broadcasts (DB (snd (SendTelegramBroadcast 1%N completed_world)))
             !! 1%N) = Some 1
  ∧ (TelegramBroadcast.FailureCount
       <$> telegram_broadcasts (DB (snd (SendTelegramBroadcast 1%N completed_world)))
             !! 1%N) = Some 1
  ∧ DB (snd (SendTelegramBroadcast 1%N completed_world)) ≠ DB completed_world.
Proof.
  repeat split; try (vm_compute; reflexivity).
  intros Heq.
  assert (Hc : (TelegramBroadcast.SuccessCount
                  <$> telegram_broadcasts
                        (DB (snd (SendTelegramBroadcast 1%N completed_world))) !! 1%N)
               = Some 2) by (rewrite Heq; reflexivity).
  vm_compute in Hc. discriminate.
Qed.

Lemma dispatch_ignores_status_witness :
  telegram_broadcasts (DB completed_world) !! 1%N = Some completed_campaign
  ∧ TelegramBroadcast.ID completed_campaign = 1%N
  ∧ fst (db_fault (ext completed_world)) = None
  ∧ fst (db_fault (snd (time_Now (snd (db_fault (ext completed_world)))))) = None
  ∧ SendTelegramBroadcast 1%N
      (with_status completed_world 1%N completed_campaign "pending")
    = SendTelegramBroadcast 1%N completed_world.
Proof.
  pose (w := completed_world). pose (b := completed_campaign).
  assert (Hb : telegram_broadcasts (DB w) !! 1%N = Some b) by reflexivity.
  assert (Hid : TelegramBroadcast.ID b = 1%N) by reflexivity.
  assert (Hf1 : fst (db_fault (ext w)) = None) by reflexivity.
  assert (Hf2 : fst (db_fault (snd (time_Now (snd (db_fault (ext w)))))) = None)
    by reflexivity.
  split; [exact Hb|]. split; [exact Hid|]. split; [exact Hf1|]. split; [exact Hf2|].
  destruct (dispatch_ignores_status w 1%N b Hb Hid) as (_ & _ & Hblind & _).
  destruct (Hblind "pending") as [_ Hsame].
  exact (Hsame Hf1 Hf2).
Defined.

Lemma CancelTelegramBroadcast_iff_cancellable_witness :
  telegram_broadcasts (DB pending_world) !! 1%N = Some pending_campaign
  ∧ TelegramBroadcast.ID pending_campaign = 1%N
  ∧ written_status (TelegramBroadcast.Status pending_campaign)
  ∧ fst (db_fault (ext pending_world)) = None
  ∧ fst (db_fault (snd (time_Now (snd (db_fault (ext pending_world)))))) = None
  ∧ ∃ r w',
      CancelTelegramBroadcast 1%N pending_world = (r, w')
      ∧ (r = inr tt ↔ spec_cancellable (TelegramBroadcast.Status pending_campaign)).
Proof.
  pose (w := pending_world). pose (b := pending_campaign).
  assert (Hb : telegram_broadcasts (DB w) !! 1%N = Some b) by reflexivity.
  assert (Hid : TelegramBroadcast.ID b = 1%N) by reflexivity.
  assert (Hst : written_status (TelegramBroadcast.Status b)) by (by left).
  assert (Hf1 : fst (db_fault (ext w)) = None) by reflexivity.
  assert (Hf2 : fst (db_fault (snd (time_Now (snd (db_fault (ext w)))))) = None)
    by reflexivity.
  split; [exact Hb|]. split; [exact Hid|]. split; [exact Hst|].
  split; [exact Hf1|]. split; [exact Hf2|].
  destruct CancelTelegramBroadcast_iff_cancellable as (_ & _ & Hcancel).
  destruct (Hcancel w 1%N b Hb Hid Hst) as (r & w' & Hrun & _ & _ & _ & _ & Hiff).
  exists r, w'. split; [exact Hrun|]. exact (Hiff Hf1 Hf2).
Defined.

(** C4, the code at a failing input: of three recipients the second
    fails resolution.  A row marked failed with the error text is stored
    for it and the third recipient is still sent to, but [TotalFailed]
    stays 0. *)
Lemma resolution_failure_not_counted :
  ∃ b' w',
    processBroadcastBatch fresh_broadcast (Sim.addresses 3)
      (directory_failing ["+621"]) = (inr (b', None), w')
    ∧ (λ r, (BroadcastRecipient.Status r, BroadcastRecipient.Error r))
        <$> broadcast_recipients (DB w')
      = [("sent", ""); ("failed", "contact lookup failed"); ("sent", "")]
    ∧ Sim.whatsapp_outbox (ext w') = ["+620"; "+622"]
    ∧ WaBroadcast.TotalSent b' = 2
    ∧ WaBroadcast.TotalFailed b' = 0.
Proof. eexists _, _. split; [vm_compute; reflexivity|]. by vm_compute. Qed.



(** C7, counterexample to the claim as stated: the duplicate of a
    completed campaign has status ["pending"], not ["draft"]. *)
Lemma duplicate_status_counterexample :
  ∃ nb,
    fst (DuplicateTelegramBroadcast 1%N 8%N completed_world) = inr nb
    ∧ TelegramBroadcast.Status nb = "pending"
    ∧ TelegramBroadcast.Status nb ≠ "draft".
Proof. eexists. split; [vm_compute; reflexivity|]. split; [done|discriminate]. Qed.

Lemma DuplicateTelegramBroadcast_copy_witness :
  telegram_broadcasts (DB completed_world) !! 1%N = Some completed_campaign
  ∧ DuplicateTelegramBroadcast 1%N 8%N completed_world
      = (inr completed_copy, snd (DuplicateTelegramBroadcast 1%N 8%N completed_world))
  ∧ telegram_broadcasts (DB completed_world) !! TelegramBroadcast.ID completed_copy
      = None
  ∧ TelegramBroadcast.Recipients completed_copy
      = TelegramBroadcast.Recipients completed_campaign.
Proof.
  pose (w := completed_world). pose (b := completed_campaign).
  pose (nb := completed_copy).
  assert (Hb : telegram_broadcasts (DB w) !! 1%N = Some b) by reflexivity.
  assert (Hrun : DuplicateTelegramBroadcast 1%N 8%N w
                 = (inr nb, snd (DuplicateTelegramBroadcast 1%N 8%N w)))
    by (vm_compute; reflexivity).
  split; [exact Hb|]. split; [exact Hrun|].
  destruct (DuplicateTelegramBroadcast_copy w _ 1%N 8%N b nb Hb Hrun)
    as (Hfresh & _ & _ & _ & _ & _ & _ & Hrec & _).
  auto.
Defined.

(** C8, the code at a failing input: 120 recipients are handed over in
    batches of 50, 50 and 20, and the run does what the unbatched run
    does; the directory fails on one address, a failed row is stored for
    it among the 120 rows, and the counters of the saved broadcast sum to
    119. *)
Lemma batched_broadcast_undercounts :
  length <$> batches (length many_recipients) many_recipients 0 = [50; 50; 20]%nat
  ∧ BroadcastMessage 7%N many_recipients "hi" "text" many_world
      = BroadcastMessage_unbatched 7%N many_recipients "hi" "text" many_world
  ∧ fst (BroadcastMessage 7%N many_recipients "hi" "text" many_world) = inr tt
  ∧ length (broadcast_recipients
              (DB (snd (BroadcastMessage 7%N many_recipients "hi" "text" many_world))))
      = 120%nat
  ∧ length (filter (λ r, BroadcastRecipient.Status r = "failed")
              (broadcast_recipients
                 (DB (snd (BroadcastMessage 7%N many_recipients "hi" "text" many_world)))))
      = 1%nat
  ∧ ((λ b, (WaBroadcast.Status b, WaBroadcast.TotalSent b, WaBroadcast.TotalFailed b))
       <$> wa_broadcasts
             (DB (snd (BroadcastMessage 7%N many_recipients "hi" "text" many_world)))
             !! 100%N) = Some ("sent", 119, 0).
Proof.
  split; [vm_compute; reflexivity|].
  split; [apply BroadcastMessage_unbatched_eq|].
  repeat split; vm_compute; reflexivity.
Qed.

Lemma update_keeps_omitted_fields_witness :
  telegram_broadcasts (DB completed_world) !! 1%N = Some completed_campaign
  ∧ TelegramBroadcast.ID completed_campaign = 1%N
  ∧ UpdateTelegramBroadcast 1%N "" "Bye" None completed_world
      = (inr completed_updated,
         snd (UpdateTelegramBroadcast 1%N "" "Bye" None completed_world))
  ∧ TelegramBroadcast.Name completed_updated = TelegramBroadcast.Name completed_campaign
  ∧ TelegramBroadcast.Recipients completed_updated
      = TelegramBroadcast.Recipients completed_campaign
  ∧ UpdateBroadcast 1%N "" "" None "tomorrow" promo_world
      = (inl (Errorf "parsing time: cannot parse value with layout"),
         snd (UpdateBroadcast 1%N "" "" None "tomorrow" promo_world))
  ∧ DB (snd (UpdateBroadcast 1%N "" "" None "tomorrow" promo_world)) = DB promo_world.
Proof.
  pose (w := completed_world). pose (b := completed_campaign).
  pose (b' := completed_updated).
  assert (Hb : telegram_broadcasts (DB w) !! 1%N = Some b) by reflexivity.
  assert (Hid : TelegramBroadcast.ID b = 1%N) by reflexivity.
  assert (Hrun : UpdateTelegramBroadcast 1%N "" "Bye" None w
                 = (inr b', snd (UpdateTelegramBroadcast 1%N "" "Bye" None w)))
    by (vm_compute; reflexivity).
  assert (Hbad : UpdateBroadcast 1%N "" "" None "tomorrow" promo_world
                 = (inl (Errorf "parsing time: cannot parse value with layout"),
                    snd (UpdateBroadcast 1%N "" "" None "tomorrow" promo_world)))
    by (vm_compute; reflexivity).
  split; [exact Hb|]. split; [exact Hid|]. split; [exact Hrun|].
  destruct update_keeps_omitted_fields as (_ & Htg & _ & Herr & _).
  destruct (Htg w _ 1%N b b' "" "Bye" None Hb Hid Hrun)
    as (_ & Hname & _ & _ & _ & Hrec & _).
  split; [by apply Hname|]. split; [by apply Hrec|]. split; [exact Hbad|].
  exact (Herr _ _ _ _ _ _ _ _ Hbad).
Defined.
End Runs.

(** * Further properties of the services *)

(** ** The campaign store of TelegramBroadcastService *)

Section StoreFacts.
Context `{Outside}.

Lemma set_telegram_broadcasts_id (d : Database) :
  set_telegram_broadcasts (telegram_broadcasts d) d = d.
Proof. by destruct d. Qed.

(** X1.  A [CreateTelegramBroadcast] that returns [nil] has inserted the
    campaign it returns under an id that was free; the campaign carries the
    name, message, recipients and owner given, status ["pending"], both
    counters 0 and no sending or completion time; no other row or table
    changes, and a [GetTelegramBroadcast] of that id right after returns
    the same campaign unless the database fails. *)
Theorem CreateTelegramBroadcast_then_Get (w w' : World) (name message : string)
    (recipients : list Z) (userID : UUID) (b : TelegramBroadcast.t) :
  CreateTelegramBroadcast name message recipients userID w = (inr b, w') ->
  telegram_broadcasts (DB w) !! TelegramBroadcast.ID b = None
  ∧ DB w' = set_telegram_broadcasts
              (<[TelegramBroadcast.ID b := b]> (telegram_broadcasts (DB w))) (DB w)
  ∧ TelegramBroadcast.Name b = name
  ∧ TelegramBroadcast.Message b = message
  ∧ TelegramBroadcast.Recipients b = recipients
  ∧ TelegramBroadcast.UserID b = userID
  ∧ TelegramBroadcast.Status b = "pending"
  ∧ TelegramBroadcast.SuccessCount b = 0
  ∧ TelegramBroadcast.FailureCount b = 0
  ∧ TelegramBroadcast.SentAt b = None
  ∧ TelegramBroadcast.CompletedAt b = None
  ∧ ∃ r w'',
      GetTelegramBroadcast (TelegramBroadcast.ID b) w' = (r, w'')
      ∧ (r = inr b ∨ ∃ d, r = inl (ErrStorage d))
      ∧ DB w'' = DB w'.
Proof.
  intros Hrun.
  unfold CreateTelegramBroadcast, telegram_Create in Hrun.
  unfold bind, ret, call, db_exec in Hrun. simpl in Hrun.
  destruct (uuid_New (ext w)) as [nid x1]. simpl in Hrun.
  destruct (time_Now x1) as [created x2]. simpl in Hrun.
  destruct (time_Now x2) as [updated x3]. simpl in Hrun.
  destruct (db_fault x3) as [[d|] x4]; [done|].
  destruct (telegram_broadcasts (DB w) !! nid) as [other|] eqn:Hfresh; [done|].
  simplify_eq/=. repeat (split; [done|]).
  unfold GetTelegramBroadcast, telegram_First, db_exec. simpl.
  destruct (db_fault x4) as [[d|] x5]; simpl.
  - eexists _, _. split; [done|]. split; [eauto|done].
  - rewrite lookup_insert_eq. eexists _, _. split; [done|]. split; [eauto|done].
Qed.

(** X2.  On an id that has no row, every operation of the service that
    loads the campaign first (get, update, send, stats, schedule, cancel,
    duplicate, export, import) returns an error, which is
    [ErrRecordNotFound] unless the database failed; it leaves every table as
    it was and calls nothing but that one database statement: no message is
    sent, no id is drawn and the clock is not read. *)
Theorem missing_campaign_is_refused (w : World) (id userID : UUID)
    (name message : string) (recipients : option (list Z)) (imported : list Z)
    (scheduleAt : Z) :
  telegram_broadcasts (DB w) !! id = None ->
  refused (GetTelegramBroadcast id) w
  ∧ refused (UpdateTelegramBroadcast id name message recipients) w
  ∧ refused (SendTelegramBroadcast id) w
  ∧ refused (GetTelegramBroadcastStats id) w
  ∧ refused (ScheduleTelegramBroadcast id scheduleAt) w
  ∧ refused (CancelTelegramBroadcast id) w
  ∧ refused (DuplicateTelegramBroadcast id userID) w
  ∧ refused (ExportTelegramBroadcastRecipients id) w
  ∧ refused (ImportTelegramBroadcastRecipients id imported) w.
Proof.
  intros Hnone.
  assert (Hfirst : ∀ A (k : TelegramBroadcast.t -> M A),
             refused (bind (telegram_First id) k) w).
  { intros A k. unfold refused, bind, telegram_First, db_exec.
    destruct (db_fault (ext w)) as [[d|] x1]; simpl.
    - eexists. split; [done|]. eauto.
    - rewrite Hnone. eexists. split; [done|]. eauto. }
  repeat split; try apply Hfirst.
  unfold refused, GetTelegramBroadcast, telegram_First, db_exec.
  destruct (db_fault (ext w)) as [[d|] x1]; simpl.
  - eexists. split; [done|]. eauto.
  - rewrite Hnone. eexists. split; [done|]. eauto.
Qed.

(** X3.  [DeleteTelegramBroadcast] returns [nil] or an error of the
    database, never a not-found error.  When it returns [nil] the row of
    that id is gone and every other row and table is as before; on an id
    without a row nothing changes at all; a [GetTelegramBroadcast] of the id
    right after fails. *)
Theorem DeleteTelegramBroadcast_removes (w : World) (id : UUID) :
  ∃ r w',
    DeleteTelegramBroadcast id w = (r, w')
    ∧ (r = inr tt ∨ (∃ d, r = inl (ErrStorage d)) ∧ DB w' = DB w)
    ∧ (r = inr tt ->
         DB w' = set_telegram_broadcasts (delete id (telegram_broadcasts (DB w))) (DB w)
         ∧ telegram_broadcasts (DB w') !! id = None
         ∧ (∀ other, other <> id ->
              telegram_broadcasts (DB w') !! other = telegram_broadcasts (DB w) !! other)
         ∧ (telegram_broadcasts (DB w) !! id = None -> DB w' = DB w)
         ∧ refused (GetTelegramBroadcast id) w').
Proof.
  unfold DeleteTelegramBroadcast, telegram_Delete, db_exec.
  destruct (db_fault (ext w)) as [[d|] x1]; simpl.
  - eexists _, _. split; [done|]. split; [right; eauto|done].
  - eexists _, _. split; [done|]. split; [by left|]. intros _. simpl.
    split; [done|]. split; [apply lookup_delete_eq|].
    split; [intros other Hne; by apply lookup_delete_ne|].
    split.
    + intros Hnone. rewrite delete_id by done. apply set_telegram_broadcasts_id.
    + unfold refused, GetTelegramBroadcast, telegram_First, db_exec. simpl.
      destruct (db_fault x1) as [[d|] x2]; simpl.
      * eexists. split; [done|]. eauto.
      * rewrite lookup_delete_eq. eexists. split; [done|]. eauto.
Qed.

(** X4.  After a [SendTelegramBroadcast] that returned [nil], the
    statistics of the campaign show status ["completed"], as total the
    number of recipients, success and failure counts that are not negative
    and add up to the total, and both the sending and the completion time. *)
Theorem stats_after_send (w w1 w2 : World) (id : UUID) (b : TelegramBroadcast.t)
    (s : BroadcastStats) :
  telegram_broadcasts (DB w) !! id = Some b ->
  TelegramBroadcast.ID b = id ->
  SendTelegramBroadcast id w = (inr tt, w1) ->
  GetTelegramBroadcastStats id w1 = (inr s, w2) ->
  stats_broadcast_id s = id
  ∧ stats_name s = TelegramBroadcast.Name b
  ∧ stats_status s = "completed"
  ∧ total_recipients s = Z.of_nat (length (TelegramBroadcast.Recipients b))
  ∧ 0 ≤ stats_success_count s
  ∧ 0 ≤ stats_failure_count s
  ∧ stats_success_count s + stats_failure_count s = total_recipients s
  ∧ is_Some (stats_sent_at s)
  ∧ is_Some (stats_completed_at s)
  ∧ DB w2 = DB w1.
Proof.
  intros Hb Hid Hsend Hstats.
  destruct (SendTelegramBroadcast_ok w w1 id b Hb Hid Hsend)
    as (n & sentAt & completedAt & Hn & Hdb).
  unfold GetTelegramBroadcastStats, telegram_First, bind, ret, db_exec in Hstats.
  destruct (db_fault (ext w1)) as [[d|] x1]; [done|].
  rewrite Hdb in Hstats. simpl in Hstats. rewrite lookup_insert_eq in Hstats.
  simplify_eq/=. rewrite Hdb. repeat split; eauto; lia.
Qed.

(** X6.  A [SendTelegramBroadcast] that returns [nil] leaves the
    campaign completed, with a sending and a completion time, and with the
    id, name, message, recipients, owner and creation time it had; every
    other campaign and every other table is untouched. *)
Theorem SendTelegramBroadcast_frame (w w' : World) (id : UUID) (b : TelegramBroadcast.t) :
  telegram_broadcasts (DB w) !! id = Some b ->
  TelegramBroadcast.ID b = id ->
  SendTelegramBroadcast id w = (inr tt, w') ->
  ∃ b',
    telegram_broadcasts (DB w') !! id = Some b'
    ∧ TelegramBroadcast.Status b' = "completed"
    ∧ TelegramBroadcast.ID b' = id
    ∧ TelegramBroadcast.Name b' = TelegramBroadcast.Name b
    ∧ TelegramBroadcast.Message b' = TelegramBroadcast.Message b
    ∧ TelegramBroadcast.Recipients b' = TelegramBroadcast.Recipients b
    ∧ TelegramBroadcast.UserID b' = TelegramBroadcast.UserID b
    ∧ TelegramBroadcast.CreatedAt b' = TelegramBroadcast.CreatedAt b
    ∧ is_Some (TelegramBroadcast.SentAt b')
    ∧ is_Some (TelegramBroadcast.CompletedAt b')
    ∧ (∀ other, other <> id ->
         telegram_broadcasts (DB w') !! other = telegram_broadcasts (DB w) !! other)
    ∧ broadcasts (DB w') = broadcasts (DB w)
    ∧ wa_broadcasts (DB w') = wa_broadcasts (DB w)
    ∧ broadcast_recipients (DB w') = broadcast_recipients (DB w)
    ∧ messages (DB w') = messages (DB w).
Proof.
  intros Hb Hid Hsend.
  destruct (SendTelegramBroadcast_ok w w' id b Hb Hid Hsend)
    as (n & sentAt & completedAt & Hn & ->).
  simpl. rewrite lookup_insert_eq. eexists. split; [done|]. simpl.
  do 7 (split; [done|]). do 2 (split; [eauto|]).
  split; [|done]. intros other Hne. by apply lookup_insert_ne.
Qed.

(** X7.  Cancelling is final: after a [CancelTelegramBroadcast] that
    returned [nil], a second one on the same campaign returns an error, the
    pending-only error unless the database failed, and the campaign stays
    cancelled. *)
Theorem cancel_twice (w w1 : World) (id : UUID) (b : TelegramBroadcast.t) :
  telegram_broadcasts (DB w) !! id = Some b ->
  TelegramBroadcast.ID b = id ->
  CancelTelegramBroadcast id w = (inr tt, w1) ->
  ∃ r w2,
    CancelTelegramBroadcast id w1 = (r, w2)
    ∧ (r = inl (Errorf "can only cancel pending broadcasts")
       ∨ ∃ d, r = inl (ErrStorage d))
    ∧ DB w2 = DB w1
    ∧ (TelegramBroadcast.Status <$> telegram_broadcasts (DB w2) !! id) = Some "cancelled".
Proof.
  intros Hb Hid Hrun.
  unfold CancelTelegramBroadcast, telegram_First, telegram_Save in Hrun.
  unfold bind, ret, raise, call, db_exec in Hrun. simpl in Hrun.
  destruct (db_fault (ext w)) as [[d|] x1]; [done|].
  rewrite Hb in Hrun. simpl in Hrun.
  destruct (bool_decide (TelegramBroadcast.Status b ≠ "pending")); [done|].
  unfold bind, call in Hrun. simpl in Hrun.
  destruct (time_Now x1) as [now x2]. simpl in Hrun.
  destruct (db_fault x2) as [[d|] x3]; [done|].
  simplify_eq/=.
  unfold CancelTelegramBroadcast, telegram_First, telegram_Save.
  unfold bind, ret, raise, call, db_exec. simpl.
  destruct (db_fault x3) as [[d|] x4]; simpl.
  - eexists _, _. split; [done|]. split; [eauto|]. split; [done|].
    simpl. by rewrite lookup_insert_eq.
  - rewrite lookup_insert_eq. simpl.
    eexists _, _. split; [done|]. split; [eauto|]. split; [done|].
    simpl. by rewrite lookup_insert_eq.
Qed.
End StoreFacts.

(** ** Gateways that answer uniformly, validation and import *)

Section DispatchMoreFacts.
Context `{Outside}.

Lemma telegram_send_loop_uniform (accepts : bool) (message : string)
    (recipients : list Z) (successCount : Z) (w : World) :
  (∀ chatID text mode x,
      accepted (fst (telegram_Client_SendMessage chatID text mode x)) = accepts) ->
  ∃ w',
    telegram_send_loop message recipients successCount w
      = (inr (successCount + if accepts then Z.of_nat (length recipients) else 0), w').
Proof.
  intros Huni. revert successCount w.
  induction recipients as [|r rest IH]; intros s w; simpl.
  - exists w. unfold ret. do 2 f_equal. destruct accepts; lia.
  - unfold bind, TelegramService_SendMessage, call.
    specialize (Huni r message "" (ext w)).
    destruct (telegram_Client_SendMessage r message "" (ext w)) as [[e|] x];
      simpl in Huni; subst accepts.
    + destruct (IH s (mkWorld _ (DB w) x)) as [w' ->].
      exists w'. do 2 f_equal; lia.
    + destruct (IH (s + 1) (mkWorld _ (DB w) x)) as [w' ->].
      exists w'. do 2 f_equal; lia.
Qed.

(** X5.  Failed sends do not fail the dispatch.  With a gateway that
    refuses every message, a [SendTelegramBroadcast] that gets through the
    database still returns [nil] and saves the campaign as completed with 0
    successes and as many failures as recipients; with a gateway that
    accepts every message it saves as many successes as recipients and 0
    failures. *)
Theorem send_with_uniform_gateway (accepts : bool) (w w' : World) (id : UUID)
    (b : TelegramBroadcast.t) :
  (∀ chatID text mode x,
      accepted (fst (telegram_Client_SendMessage chatID text mode x)) = accepts) ->
  telegram_broadcasts (DB w) !! id = Some b ->
  TelegramBroadcast.ID b = id ->
  SendTelegramBroadcast id w = (inr tt, w') ->
  ∃ b',
    telegram_broadcasts (DB w') !! id = Some b'
    ∧ TelegramBroadcast.Status b' = "completed"
    ∧ TelegramBroadcast.SuccessCount b'
        = (if accepts then Z.of_nat (length (TelegramBroadcast.Recipients b)) else 0)
    ∧ TelegramBroadcast.FailureCount b'
        = (if accepts then 0 else Z.of_nat (length (TelegramBroadcast.Recipients b))).
Proof.
  intros Huni Hb Hid Hrun.
  unfold SendTelegramBroadcast, telegram_First, telegram_Save in Hrun.
  unfold bind, call, db_exec in Hrun. simpl in Hrun.
  destruct (db_fault (ext w)) as [[d|] x1]; [done|].
  rewrite Hb in Hrun. simpl in Hrun.
  destruct (time_Now x1) as [sentAt x2]. simpl in Hrun.
  destruct (db_fault x2) as [[d|] x3]; [done|]. simpl in Hrun.
  match type of Hrun with
  | context [telegram_send_loop ?m ?l ?s ?w0] =>
      destruct (telegram_send_loop_uniform accepts m l s w0 Huni) as [w1 Hloop];
      destruct (telegram_send_loop_spec m l s w0) as (n & w1' & Hloop' & Hdb & _);
      rewrite Hloop in Hloop'; rewrite Hloop in Hrun
  end.
  simplify_eq/=.
  destruct (time_Now (ext w1')) as [completedAt x4]. simpl in Hrun.
  destruct (db_fault x4) as [[d|] x5]; [done|].
  simplify_eq/=. rewrite lookup_insert_eq. eexists. split; [done|]. simpl.
  destruct accepts; repeat split; lia.
Qed.

(** X8.  [ValidateRecipients] composes: the outputs for a concatenation
    are the concatenations of the outputs; validating the valid output again
    returns it unchanged with no error; a list of positive identifiers comes
    back unchanged with no error, and a list without any positive identifier
    gives no valid identifier and one error each. *)
Theorem ValidateRecipients_algebra (l1 l2 : list Z) :
  ValidateRecipients (l1 ++ l2)
    = ((fst (ValidateRecipients l1) ++ fst (ValidateRecipients l2))%list,
       (snd (ValidateRecipients l1) ++ snd (ValidateRecipients l2))%list)
  ∧ ValidateRecipients (fst (ValidateRecipients l1)) = (fst (ValidateRecipients l1), [])
  ∧ (Forall (λ r, 0 < r) l1 ↔ ValidateRecipients l1 = (l1, []))
  ∧ (Forall (λ r, r ≤ 0) l1 ↔ ValidateRecipients l1 = ([], invalid_recipient <$> l1)).
Proof.
  unfold ValidateRecipients. rewrite !ValidateRecipients_loop_spec. simpl.
  split; [by rewrite !filter_app, fmap_app|].
  assert (Hpos : ∀ l : list Z, Forall (λ r, 0 < r) l ->
            filter (λ r, 0 < r) l = l ∧ filter (λ r, r ≤ 0) l = []).
  { induction 1 as [|r l Hr _ [IH1 IH2]]; [done|].
    rewrite filter_cons_True, filter_cons_False by lia. by rewrite IH1, IH2. }
  assert (Hneg : ∀ l : list Z, Forall (λ r, r ≤ 0) l ->
            filter (λ r, 0 < r) l = [] ∧ filter (λ r, r ≤ 0) l = l).
  { induction 1 as [|r l Hr _ [IH1 IH2]]; [done|].
    rewrite filter_cons_False, filter_cons_True by lia. by rewrite IH1, IH2. }
  split; [|split].
  - destruct (Hpos (filter (λ r, 0 < r) l1)) as [-> ->]; [|done].
    apply Forall_forall. intros r Hr. by apply list_elem_of_filter in Hr as [? _].
  - split.
    + intros Hall. by destruct (Hpos l1 Hall) as [-> ->].
    + intros Heq. apply filter_id_iff. congruence.
  - split.
    + intros Hall. by destruct (Hneg l1 Hall) as [-> ->].
    + intros Heq. apply Forall_forall. intros r Hr.
      destruct (Z.leb_spec r 0) as [Hle|Hgt]; [done|].
      assert (Hin : r ∈ filter (λ r, 0 < r) l1) by (by apply list_elem_of_filter).
      assert (Hnil : filter (λ r, 0 < r) l1 = []) by congruence.
      rewrite Hnil in Hin. by apply not_elem_of_nil in Hin.
Qed.

(** X9.  [ImportTelegramBroadcastRecipients] on an existing campaign
    returns [nil] or an error of the database: invalid entries never fail
    it.  When it returns [nil], the campaign holds the positive identifiers
    of the imported list in their order, whatever recipients it had before;
    [UpdatedAt] apart, nothing else changes, and an export right after
    returns that list unless the database fails. *)
Theorem import_then_export (w : World) (id : UUID) (b : TelegramBroadcast.t)
    (imported : list Z) :
  telegram_broadcasts (DB w) !! id = Some b ->
  TelegramBroadcast.ID b = id ->
  ∃ r w1,
    ImportTelegramBroadcastRecipients id imported w = (r, w1)
    ∧ (r = inr tt ∨ (∃ d, r = inl (ErrStorage d)) ∧ DB w1 = DB w)
    ∧ (r = inr tt ->
         (∃ now,
             DB w1 = set_telegram_broadcasts
                       (<[id := TelegramBroadcast.set_UpdatedAt now
                                 (TelegramBroadcast.set_Recipients
                                    (filter (λ r, 0 < r) imported) b)]>
                          (telegram_broadcasts (DB w)))
                       (DB w))
         ∧ ∃ r2 w2,
             ExportTelegramBroadcastRecipients id w1 = (r2, w2)
             ∧ (r2 = inr (filter (λ r, 0 < r) imported) ∨ ∃ d, r2 = inl (ErrStorage d))).
Proof.
  intros Hb Hid.
  unfold ImportTelegramBroadcastRecipients, ExportTelegramBroadcastRecipients.
  unfold telegram_First, telegram_Save, bind, ret, call, db_exec. simpl.
  destruct (db_fault (ext w)) as [[d|] x1]; simpl.
  { eexists _, _. split; [done|]. split; [right; eauto|done]. }
  rewrite Hb. simpl.
  unfold ValidateRecipients. rewrite ValidateRecipients_loop_spec. simpl.
  destruct (time_Now x1) as [now x2]. simpl.
  destruct (db_fault x2) as [[d|] x3]; simpl.
  { eexists _, _. split; [done|]. split; [right; eauto|done]. }
  eexists _, _. split; [done|]. split; [by left|]. intros _. simpl.
  rewrite Hid. split; [by exists now|].
  destruct (db_fault x3) as [[d|] x4]; simpl.
  - eexists _, _. split; [done|]. eauto.
  - rewrite lookup_insert_eq. simpl. eexists _, _. split; [done|]. by left.
Qed.

(** X10.  [TelegramService.SendBroadcast] always returns [nil] and touches
    no table.  The totals it logs are not negative and add up to the number
    of recipients; its success total, and the world it leaves, are those of
    the loop of [SendTelegramBroadcast] on the same recipients. *)
Theorem TelegramService_SendBroadcast_totals (recipients : list Z) (message : string)
    (w : World) :
  ∃ successCount failureCount w',
    TelegramService_SendBroadcast_loop message recipients 0 0 w
      = (inr (successCount, failureCount), w')
    ∧ TelegramService_SendBroadcast recipients message w = (inr tt, w')
    ∧ DB w' = DB w
    ∧ 0 ≤ successCount
    ∧ 0 ≤ failureCount
    ∧ successCount + failureCount = Z.of_nat (length recipients)
    ∧ telegram_send_loop message recipients 0 w = (inr successCount, w').
Proof.
  assert (Hgen : ∀ l s f w0,
            ∃ s' f' w',
              TelegramService_SendBroadcast_loop message l s f w0 = (inr (s', f'), w')
              ∧ DB w' = DB w0 ∧ s ≤ s' ∧ f ≤ f'
              ∧ s' + f' = s + f + Z.of_nat (length l)
              ∧ telegram_send_loop message l s w0 = (inr s', w')).
  { induction l as [|r rest IH]; intros s f w0; simpl.
    - exists s, f, w0. unfold ret. repeat split; lia.
    - unfold bind, TelegramService_SendMessage, call.
      destruct (telegram_Client_SendMessage r message "" (ext w0)) as [[e|] x].
      + destruct (IH s (f + 1) (mkWorld _ (DB w0) x))
          as (s' & f' & w' & -> & Hdb & Hs & Hf & Hsum & ->).
        exists s', f', w'. repeat split; [done|lia..].
      + destruct (IH (s + 1) f (mkWorld _ (DB w0) x))
          as (s' & f' & w' & -> & Hdb & Hs & Hf & Hsum & ->).
        exists s', f', w'. repeat split; [done|lia..]. }
  destruct (Hgen recipients 0 0 w) as (s' & f' & w' & Hloop & Hdb & Hs & Hf & Hsum & Hsame).
  exists s', f', w'. split; [done|]. split.
  - unfold TelegramService_SendBroadcast, bind, ret. by rewrite Hloop.
  - repeat split; [done|lia..|done].
Qed.
End DispatchMoreFacts.

(** ** Pagination *)

Section PaginateFacts.

(** X11.  For a positive number of items and a positive page size whose
    sum fits an [int], [Paginate] does not panic.  The number of pages is
    the number of items divided by the page size, rounded up; the page is
    the requested one brought into the range from 1 to the number of pages;
    the offset, the page size times the number of pages before that page,
    lies within the items; and the flags tell whether a page follows or
    precedes. *)
Theorem Paginate_in_range (totalItems requested pageSize : Z) :
  0 < totalItems ->
  0 < pageSize ->
  totalItems + pageSize < 2 ^ 63 ->
  ∃ p,
    Paginate totalItems requested pageSize = Some p
    ∧ total_items p = totalItems
    ∧ limit p = pageSize
    ∧ 1 ≤ total_pages p
    ∧ pageSize * (total_pages p - 1) < totalItems ≤ pageSize * total_pages p
    ∧ page p = Z.max 1 (Z.min requested (total_pages p))
    ∧ 1 ≤ page p ≤ total_pages p
    ∧ offset p = (page p - 1) * pageSize
    ∧ 0 ≤ offset p < totalItems
    ∧ (has_next p = true ↔ page p < total_pages p)
    ∧ (has_prev p = true ↔ 1 < page p).
Proof.
  intros Htotal Hsize Hfit.
  unfold Paginate.
  destruct (Z.eqb_spec pageSize 0) as [->|_]; [lia|].
  assert (Hpow : 2 ^ 63 = 9223372036854775808) by reflexivity.
  rewrite (wrap64_small (totalItems + pageSize)) by lia.
  rewrite (wrap64_small (totalItems + pageSize - 1)) by lia.
  rewrite Z.quot_div_nonneg by lia.
  set (pages := (totalItems + pageSize - 1) / pageSize).
  assert (Hpages : pageSize * (pages - 1) < totalItems ≤ pageSize * pages).
  { pose proof (Z.div_mod (totalItems + pageSize - 1) pageSize ltac:(lia)) as Hdm.
    pose proof (Z.mod_pos_bound (totalItems + pageSize - 1) pageSize Hsize) as Hmod.
    fold pages in Hdm. nia. }
  assert (Hpos : 1 ≤ pages) by nia.
  assert (Hle : pages ≤ totalItems) by nia.
  rewrite (wrap64_small pages) by lia.
  eexists. split; [reflexivity|]. simpl.
  destruct (Z.ltb_spec requested 1) as [Hlow|Hlow];
    [destruct (Z.ltb_spec pages 1) as [Hhigh|Hhigh]
    |destruct (Z.ltb_spec pages requested) as [Hhigh|Hhigh]];
    try lia.
  - rewrite (wrap64_small (1 - 1)), (wrap64_small ((1 - 1) * pageSize)) by lia.
    rewrite Z.ltb_lt, Z.ltb_lt. repeat split; try lia.
  - rewrite (wrap64_small (pages - 1)) by lia.
    rewrite (wrap64_small ((pages - 1) * pageSize)) by nia.
    rewrite Z.ltb_lt, Z.ltb_lt. repeat split; try lia; nia.
  - rewrite (wrap64_small (requested - 1)) by lia.
    rewrite (wrap64_small ((requested - 1) * pageSize)) by nia.
    rewrite Z.ltb_lt, Z.ltb_lt. repeat split; try lia; nia.
Qed.

(** X12.  The edges of [Paginate].  With no item at all it reports 0
    pages and brings every requested page to page 0, so that the offset is
    minus the page size; neither flag is set.  With a page size of 0 the
    division panics, whatever the other arguments. *)
Theorem Paginate_edges (requested pageSize : Z) :
  0 < pageSize < 2 ^ 63 ->
  Paginate 0 requested pageSize
    = Some (mkPagination 0 pageSize (- pageSize) 0 0 false false)
  ∧ ∀ totalItems requested', Paginate totalItems requested' 0 = None.
Proof.
  intros Hsize. split; [|done].
  unfold Paginate.
  destruct (Z.eqb_spec pageSize 0) as [->|_]; [lia|].
  assert (Hpow : 2 ^ 63 = 9223372036854775808) by reflexivity.
  rewrite (wrap64_small (0 + pageSize)) by lia.
  rewrite (wrap64_small (0 + pageSize - 1)) by lia.
  rewrite Z.quot_div_nonneg by lia.
  rewrite Z.div_small by lia.
  rewrite (wrap64_small 0) by lia.
  assert (Hpage : (if 0 <? (if requested <? 1 then 1 else requested)
                   then 0 else if requested <? 1 then 1 else requested) = 0).
  { destruct (Z.ltb_spec requested 1); simpl; [done|].
    destruct (Z.ltb_spec 0 requested); lia. }
  rewrite Hpage.
  rewrite (wrap64_small (0 - 1)) by lia.
  rewrite (wrap64_small ((0 - 1) * pageSize)) by lia.
  repeat f_equal; lia.
Qed.
End PaginateFacts.

(** ** The batches of BroadcastMessage *)

Section BatchPartitionFacts.
Context `{Outside}.

Lemma batches_length (fuel : nat) (recipients : list string) (i : nat) :
  (length recipients - i ≤ fuel)%nat ->
  length (batches fuel recipients i) = ((length recipients - i + 49) / 50)%nat.
Proof.
  revert i. induction fuel as [|fuel IH]; intros i Hfuel; cbn [batches].
  - replace (length recipients - i + 49)%nat with 49%nat by lia. done.
  - destruct (Nat.ltb_spec i (length recipients)) as [Hlt|Hge]; cbn [length].
    + rewrite IH by (unfold batchSize; lia). unfold batchSize.
      pose proof (Nat.div_mod_eq (length recipients - (i + 50) + 49) 50) as Hl.
      pose proof (Nat.mod_upper_bound (length recipients - (i + 50) + 49) 50
                    ltac:(lia)) as Hlb.
      pose proof (Nat.div_mod_eq (length recipients - i + 49) 50) as Hr.
      pose proof (Nat.mod_upper_bound (length recipients - i + 49) 50
                    ltac:(lia)) as Hrb.
      lia.
    + replace (length recipients - i + 49)%nat with 49%nat by lia. done.
Qed.

(** X13.  The loop of [BroadcastMessage] cuts the recipient list into
    consecutive batches: put end to end they are the list itself, each holds
    between 1 and 50 recipients, every batch before the last holds exactly
    50, and their number is the number of recipients divided by 50, rounded
    up (none for an empty list). *)
Theorem batches_partition (recipients : list string) :
  concat (batches (length recipients) recipients 0) = recipients
  ∧ Forall (λ batch, (0 < length batch ≤ 50)%nat)
      (batches (length recipients) recipients 0)
  ∧ length (batches (length recipients) recipients 0)
      = ((length recipients + 49) / 50)%nat
  ∧ ∀ j, (S j < length (batches (length recipients) recipients 0))%nat ->
      length <$> batches (length recipients) recipients 0 !! j = Some 50%nat.
Proof.
  split; [|split; [|split]].
  - rewrite batches_concat by lia. apply drop_0.
  - apply batches_sizes.
  - rewrite batches_length by lia. by rewrite Nat.sub_0_r.
  - intros j Hj. rewrite batches_length in Hj by lia.
    rewrite Nat.sub_0_r in Hj.
    assert (Hroom : (50 * (j + 1) < length recipients)%nat).
    { pose proof (Nat.div_mod_eq (length recipients + 49) 50) as Hdm.
      pose proof (Nat.mod_upper_bound (length recipients + 49) 50 ltac:(lia)) as Hmod.
      lia. }
    rewrite batches_lookup by (unfold batchSize; lia). simpl.
    rewrite length_take, length_drop. unfold batchSize. f_equal. lia.
Qed.

(** X14.  Any number of turns from the number of recipients on gives the
    loop of [BroadcastMessage] the same outcome, that of one call of
    [processBroadcastBatch] on the whole list: the bound on the turns cuts
    no run short. *)
Theorem BroadcastMessage_loop_fuel (fuel : nat) (recipients : list string)
    (broadcast : WaBroadcast.t) (w : World) :
  (length recipients ≤ fuel)%nat ->
  BroadcastMessage_loop fuel recipients 0 broadcast w
    = bind (processBroadcastBatch broadcast recipients) (λ r, ret (fst r)) w
  ∧ BroadcastMessage_loop fuel recipients 0 broadcast w
    = BroadcastMessage_loop (length recipients) recipients 0 broadcast w.
Proof.
  intros Hfuel.
  assert (Hwhole : ∀ n, (length recipients ≤ n)%nat ->
            BroadcastMessage_loop n recipients 0 broadcast w
              = bind (processBroadcastBatch broadcast recipients) (λ r, ret (fst r)) w).
  { intros n Hn. rewrite BroadcastMessage_loop_batches, process_batches_concat.
    rewrite batches_concat by lia. by rewrite drop_0. }
  split; [by apply Hwhole|]. rewrite !Hwhole by lia. done.
Qed.
End BatchPartitionFacts.

(** ** The rows written by the WhatsApp dispatcher *)

Section RowFacts.
Context `{Outside}.

(** X15.  [WhatsAppService.SendMessage] posts one request to the address,
    a text unless the type is ["image"], and ends in one of four ways.  If
    the exchange fails it returns that error; if the reply lists no message
    it panics; in both cases nothing is stored and nothing else is called.
    Otherwise it inserts the message, and either returns the error of a
    failed INSERT with every table as it was, or returns the message it has
    appended as the last row of the message table: an outgoing message with
    status ["sent"], the id of the first message of the reply, the user,
    content and message type given and the time read from the clock; it has
    then told the contact directory the time, read from the clock again, of
    the last message to that address.  The campaign, broadcast and
    recipient tables are never changed. *)
Theorem SendMessage_outcome (userID : UUID) (to content messageType : string)
    (w : World) :
  ∃ req reply x1 r w',
    req = MessageRequest.mk "whatsapp" "individual" to
            (if decide (messageType = "image") then "image" else "text")
            (if decide (messageType = "image") then None else Some content)
            (if decide (messageType = "image") then Some content else None)
    ∧ whatsapp_Client_Do req (ext w) = (reply, x1)
    ∧ SendMessage userID to content messageType w = (r, w')
    ∧ telegram_broadcasts (DB w') = telegram_broadcasts (DB w)
    ∧ broadcasts (DB w') = broadcasts (DB w)
    ∧ wa_broadcasts (DB w') = wa_broadcasts (DB w)
    ∧ broadcast_recipients (DB w') = broadcast_recipients (DB w)
    ∧ match reply with
      | inl msg => r = inl (Errorf msg) ∧ w' = mkWorld _ (DB w) x1
      | inr [] => r = inl index_out_of_range ∧ w' = mkWorld _ (DB w) x1
      | inr (messageID :: _) =>
          match r with
          | inl e => (∃ d, e = ErrStorage d) ∧ DB w' = DB w
          | inr m =>
              messages (DB w') = (messages (DB w) ++ [m])%list
              ∧ Message.MessageID m = messageID
              ∧ Message.UserID m = userID
              ∧ Message.Content m = content
              ∧ Message.MessageType m = messageType
              ∧ Message.Direction m = "outgoing"
              ∧ Message.Status m = "sent"
              ∧ ∃ x2 x3 x4 now x5,
                  time_Now x1 = (Message.Timestamp m, x2)
                  ∧ uuid_New x2 = (Message.ID m, x3)
                  ∧ db_fault x3 = (None, x4)
                  ∧ time_Now x4 = (now, x5)
                  ∧ ext w' = ContactService_UpdateLastMessageTime to now x5
          end
      end.
Proof.
  set (req := MessageRequest.mk "whatsapp" "individual" to
                (if decide (messageType = "image") then "image" else "text")
                (if decide (messageType = "image") then None else Some content)
                (if decide (messageType = "image") then Some content else None)).
  assert (Hreq :
    (if bool_decide (messageType = "text") then
       MessageRequest.mk "whatsapp" "individual" to "text" (Some content) None
     else if bool_decide (messageType = "image") then
       MessageRequest.mk "whatsapp" "individual" to "image" None (Some content)
     else MessageRequest.mk "whatsapp" "individual" to "text" (Some content) None)
    = req).
  { unfold req. repeat case_bool_decide; repeat case_decide; subst; done. }
  destruct (whatsapp_Client_Do req (ext w)) as [reply x1] eqn:Hdo.
  exists req, reply, x1.
  unfold SendMessage, whatsapp_Client_SendMessage, message_Create.
  unfold bind, ret, raise, call, db_exec. simpl. rewrite Hreq, Hdo. simpl.
  destruct reply as [msg|[|messageID ids]]; simpl.
  - eexists _, _. do 2 (split; [done|]). split; [reflexivity|]. by repeat split.
  - eexists _, _. do 2 (split; [done|]). split; [reflexivity|]. by repeat split.
  - destruct (time_Now x1) as [sent x2] eqn:Ht1. simpl.
    destruct (uuid_New x2) as [mid x3] eqn:Hu. simpl.
    destruct (db_fault x3) as [[d|] x4] eqn:Hf; simpl.
    + eexists _, _. do 2 (split; [done|]). split; [reflexivity|].
      repeat split; eauto.
    + destruct (time_Now x4) as [now x5] eqn:Ht2. simpl.
      eexists _, _. do 2 (split; [done|]). split; [reflexivity|].
      do 4 (split; [done|]). simpl.
      do 7 (split; [done|]). by exists x2, x3, x4, now, x5.
Qed.

Lemma processBroadcastRecipient_trace (broadcast : WaBroadcast.t)
    (recipient : string) (w : World) :
  ∃ r w' rows msgs,
    processBroadcastRecipient broadcast recipient w = (r, w')
    ∧ broadcast_recipients (DB w') = (broadcast_recipients (DB w) ++ rows)%list
    ∧ messages (DB w') = (messages (DB w) ++ msgs)%list
    ∧ (length rows ≤ 1)%nat
    ∧ Forall (λ row, BroadcastRecipient.BroadcastID row = WaBroadcast.ID broadcast
                     ∧ (BroadcastRecipient.Status row = "sent"
                        ∨ BroadcastRecipient.Status row = "failed")) rows
    ∧ Forall (λ m, Message.UserID m = WaBroadcast.UserID broadcast
                   ∧ Message.Content m = WaBroadcast.Content broadcast
                   ∧ Message.MessageType m = WaBroadcast.MessageType broadcast
                   ∧ Message.Direction m = "outgoing"
                   ∧ Message.Status m = "sent") msgs
    ∧ match r with
      | inl e => e = index_out_of_range ∧ rows = [] ∧ msgs = []
      | inr broadcast' =>
          broadcast' = WaBroadcast.set_TotalFailed (WaBroadcast.TotalFailed broadcast')
                         (WaBroadcast.set_TotalSent (WaBroadcast.TotalSent broadcast')
                            broadcast)
          ∧ Z.of_nat (length msgs)
              = WaBroadcast.TotalSent broadcast' - WaBroadcast.TotalSent broadcast
      end.
Proof.
  destruct broadcast as [bid buser bname bcontent btype bmedia bstatus bsched bsent bts btf].
  unfold processBroadcastRecipient, SendMessage, whatsapp_Client_SendMessage,
    message_Create, recipient_Create, index_out_of_range.
  unfold bind, ret, raise, call, attempt, db_exec. simpl.
  repeat (case_match; simplify_eq/=);
    eexists _, _;
    first
      [ solve [ exists [], []; split; [reflexivity|]; simpl; rewrite ?app_nil_r;
                repeat split; try done; try lia; repeat constructor ]
      | solve [ eexists [_], []; split; [reflexivity|]; simpl; rewrite ?app_nil_r;
                repeat split; try done; try lia;
                repeat (constructor; simpl; eauto) ]
      | solve [ eexists [], [_]; split; [reflexivity|]; simpl; rewrite ?app_nil_r;
                repeat split; try done; try lia;
                repeat (constructor; simpl; eauto) ]
      | solve [ eexists [_], [_]; split; [reflexivity|]; simpl; rewrite ?app_nil_r;
                repeat split; try done; try lia;
                repeat (constructor; simpl; eauto) ] ].
Qed.

Lemma processBroadcastBatch_trace (broadcast : WaBroadcast.t)
    (recipients : list string) (w : World) :
  ∃ r w' rows msgs,
    processBroadcastBatch broadcast recipients w = (r, w')
    ∧ broadcast_recipients (DB w') = (broadcast_recipients (DB w) ++ rows)%list
    ∧ messages (DB w') = (messages (DB w) ++ msgs)%list
    ∧ (length rows ≤ length recipients)%nat
    ∧ Forall (λ row, BroadcastRecipient.BroadcastID row = WaBroadcast.ID broadcast
                     ∧ (BroadcastRecipient.Status row = "sent"
                        ∨ BroadcastRecipient.Status row = "failed")) rows
    ∧ Forall (λ m, Message.UserID m = WaBroadcast.UserID broadcast
                   ∧ Message.Content m = WaBroadcast.Content broadcast
                   ∧ Message.MessageType m = WaBroadcast.MessageType broadcast
                   ∧ Message.Direction m = "outgoing"
                   ∧ Message.Status m = "sent") msgs
    ∧ match r with
      | inl e => e = index_out_of_range ∧ (length rows < length recipients)%nat
      | inr (broadcast', err) =>
          err = None
          ∧ broadcast' = WaBroadcast.set_TotalFailed (WaBroadcast.TotalFailed broadcast')
                           (WaBroadcast.set_TotalSent (WaBroadcast.TotalSent broadcast')
                              broadcast)
          ∧ Z.of_nat (length msgs)
              = WaBroadcast.TotalSent broadcast' - WaBroadcast.TotalSent broadcast
      end.
Proof.
  revert broadcast w.
  induction recipients as [|r rest IH]; intros b w; simpl.
  - exists (inr (b, None)), w, [], []. unfold ret. rewrite !app_nil_r.
    destruct b. simpl. repeat split; try done; try lia; constructor.
  - unfold bind.
    destruct (processBroadcastRecipient_trace b r w)
      as ([e|b1] & w1 & rows1 & msgs1 & -> & Hrows1 & Hmsgs1 & Hlen1 & Hall1
          & Hm1 & Hr1).
    { destruct Hr1 as (-> & -> & ->).
      exists (inl index_out_of_range), w1, [], [].
      repeat split; try done; simpl; lia. }
    destruct Hr1 as (Hb1 & Hcount1).
    destruct (IH b1 w1)
      as (r2 & w2 & rows2 & msgs2 & -> & Hrows2 & Hmsgs2 & Hlen2 & Hall2
          & Hm2 & Hr2).
    exists r2, w2, (rows1 ++ rows2)%list, (msgs1 ++ msgs2)%list.
    split; [done|].
    assert (Hsame : WaBroadcast.ID b1 = WaBroadcast.ID b
                    ∧ WaBroadcast.UserID b1 = WaBroadcast.UserID b
                    ∧ WaBroadcast.Content b1 = WaBroadcast.Content b
                    ∧ WaBroadcast.MessageType b1 = WaBroadcast.MessageType b)
      by (rewrite Hb1; done).
    destruct Hsame as (Hid & Huser & Hcontent & Htype).
    rewrite Hid in Hall2. rewrite Huser, Hcontent, Htype in Hm2.
    split; [by rewrite Hrows2, Hrows1, app_assoc|].
    split; [by rewrite Hmsgs2, Hmsgs1, app_assoc|].
    split; [rewrite length_app; lia|].
    split; [by apply Forall_app|].
    split; [by apply Forall_app|].
    destruct r2 as [e|[b2 err]].
    + destruct Hr2 as [-> Hshort]. split; [done|]. rewrite length_app. lia.
    + destruct Hr2 as (-> & Hb2 & Hcount2).
      split; [done|]. split; [rewrite Hb2, Hb1; done|].
      rewrite length_app. lia.
Qed.

(** A batch returns unless the API answers a request with a reply that
    lists no message. *)
Lemma processBroadcastBatch_returns (broadcast : WaBroadcast.t)
    (recipients : list string) (w : World) :
  (∀ req x, fst (whatsapp_Client_Do req x) <> inr []) ->
  ∃ broadcast' w',
    processBroadcastBatch broadcast recipients w = (inr (broadcast', None), w').
Proof.
  intros Hreply. revert broadcast w.
  induction recipients as [|r rest IH]; intros b w; simpl.
  - by exists b, w.
  - unfold bind.
    assert (∃ b1 w1, processBroadcastRecipient b r w = (inr b1, w1)) as (b1 & w1 & ->).
    { unfold processBroadcastRecipient, SendMessage, whatsapp_Client_SendMessage,
        message_Create, recipient_Create, index_out_of_range.
      unfold bind, ret, raise, call, attempt, db_exec. simpl.
      repeat (case_match; simplify_eq/=); eauto;
        match goal with
        | Hdo : whatsapp_Client_Do ?q ?x = (inr [], _) |- _ =>
            exfalso; apply (Hreply q x); by rewrite Hdo
        end. }
    apply IH.
Qed.

(** X16.  [processBroadcastBatch] returns no error: it returns [nil], or
    it panics when the API answers a request with a reply that lists no
    message, and it does return with an API that never does so.  Either
    way it only appends to the recipient table: the rows that were there
    stay in place, at most one row per recipient is added (fewer than
    recipients when it panics), and every added row belongs to this
    broadcast and is marked ["sent"] or ["failed"], never ["pending"].
    Of a [*broadcast] that is returned only the two counters have
    changed. *)
Theorem processBroadcastBatch_rows (broadcast : WaBroadcast.t)
    (recipients : list string) (w : World) :
  (∃ r w' rows,
      processBroadcastBatch broadcast recipients w = (r, w')
      ∧ broadcast_recipients (DB w') = (broadcast_recipients (DB w) ++ rows)%list
      ∧ (length rows ≤ length recipients)%nat
      ∧ Forall (λ row, BroadcastRecipient.BroadcastID row = WaBroadcast.ID broadcast
                       ∧ (BroadcastRecipient.Status row = "sent"
                          ∨ BroadcastRecipient.Status row = "failed")
                       ∧ BroadcastRecipient.Status row <> "pending") rows
      ∧ match r with
        | inl e => e = index_out_of_range ∧ (length rows < length recipients)%nat
        | inr (broadcast', err) =>
            err = None
            ∧ broadcast' =
                WaBroadcast.set_TotalFailed (WaBroadcast.TotalFailed broadcast')
                  (WaBroadcast.set_TotalSent (WaBroadcast.TotalSent broadcast')
                     broadcast)
        end)
  ∧ ((∀ req x, fst (whatsapp_Client_Do req x) <> inr []) ->
     ∃ broadcast' w',
       processBroadcastBatch broadcast recipients w = (inr (broadcast', None), w')).
Proof.
  split; [|apply processBroadcastBatch_returns].
  destruct (processBroadcastBatch_trace broadcast recipients w)
    as (r & w' & rows & msgs & Hrun & Hrows & _ & Hlen & Hall & _ & Hr).
  exists r, w', rows. do 3 (split; [done|]). split.
  - eapply Forall_impl; [exact Hall|]. simpl.
    intros row (Hid & [Hst|Hst]); rewrite Hst; auto.
  - destruct r as [e|[b' err]]; [done|]. by destruct Hr as (-> & Hb' & _).
Qed.

(** X17.  In a run of [processBroadcastBatch] that returns, [TotalSent]
    has grown by exactly the number of rows appended to the message table,
    and each of these is an outgoing message with status ["sent"] that
    carries the user, content and message type of the broadcast. *)
Theorem processBroadcastBatch_messages (broadcast broadcast' : WaBroadcast.t)
    (recipients : list string) (err : option error) (w w' : World) :
  processBroadcastBatch broadcast recipients w = (inr (broadcast', err), w') ->
  ∃ msgs,
    messages (DB w') = (messages (DB w) ++ msgs)%list
    ∧ WaBroadcast.TotalSent broadcast'
        = WaBroadcast.TotalSent broadcast + Z.of_nat (length msgs)
    ∧ (length msgs ≤ length recipients)%nat
    ∧ Forall (λ m, Message.UserID m = WaBroadcast.UserID broadcast
                   ∧ Message.Content m = WaBroadcast.Content broadcast
                   ∧ Message.MessageType m = WaBroadcast.MessageType broadcast
                   ∧ Message.Direction m = "outgoing"
                   ∧ Message.Status m = "sent") msgs.
Proof.
  intros Hrun.
  destruct (processBroadcastBatch_trace broadcast recipients w)
    as (r & w1 & rows & msgs & Hrun1 & _ & Hmsgs & _ & _ & Hm & Hr).
  rewrite Hrun in Hrun1. injection Hrun1 as <- <-.
  destruct Hr as (_ & _ & Hcount).
  destruct (processBroadcastBatch_spec broadcast recipients w)
    as (r2 & w2 & Hrun2 & _ & Hr2).
  rewrite Hrun in Hrun2. injection Hrun2 as <- <-.
  destruct Hr2 as (_ & _ & Hs & Hf & Hsum).
  exists msgs. split; [done|]. split; [lia|]. split; [|done].
  lia.
Qed.
End RowFacts.

(** ** BroadcastMessage as a whole, and the creation of a broadcast *)

Section BroadcastMessageFacts.
Context `{Outside}.

(** What a run of [BroadcastMessage] that returns [nil] went through. *)
Lemma BroadcastMessage_ok (w w' : World) (userID : UUID) (recipients : list string)
    (content messageType : string) :
  BroadcastMessage userID recipients content messageType w = (inr tt, w') ->
  ∃ name b0 w1 b' w2 sentAt,
    wa_broadcasts (DB w) !! WaBroadcast.ID b0 = None
    ∧ b0 = WaBroadcast.mk (WaBroadcast.ID b0) userID name content
             (if decide (messageType = "") then "text" else messageType) ""
             "sending" None (Some Time_zero) 0 0
    ∧ DB w1 = set_wa_broadcasts (<[WaBroadcast.ID b0 := b0]> (wa_broadcasts (DB w))) (DB w)
    ∧ processBroadcastBatch b0 recipients w1 = (inr (b', None), w2)
    ∧ WaBroadcast.ID b' = WaBroadcast.ID b0
    ∧ wa_broadcasts (DB w2) = wa_broadcasts (DB w1)
    ∧ DB w' = set_wa_broadcasts
                (<[WaBroadcast.ID b0 :=
                     WaBroadcast.set_SentAt (Some sentAt)
                       (WaBroadcast.set_Status "sent" b')]>
                   (wa_broadcasts (DB w)))
                (DB w2).
Proof.
  intros Hrun. rewrite BroadcastMessage_unbatched_eq in Hrun.
  unfold BroadcastMessage_unbatched, wa_broadcast_Create, wa_broadcast_Save in Hrun.
  unfold bind, call, db_exec in Hrun. simpl in Hrun.
  destruct (time_Now (ext w)) as [created x1]. simpl in Hrun.
  destruct (uuid_New x1) as [nid x2]. simpl in Hrun.
  destruct (db_fault x2) as [[d|] x3]; [done|].
  destruct (wa_broadcasts (DB w) !! nid) as [other|] eqn:Hfresh; [done|].
  simpl in Hrun.
  assert (Hstored :
    (if bool_decide (messageType = "") then
       WaBroadcast.set_MessageType "text"
         (WaBroadcast.set_ID nid
            (WaBroadcast.mk 0%N userID ("Broadcast_" +:+ pretty (created / Second))
               content messageType "" "sending" None (Some Time_zero) 0 0))
     else
       WaBroadcast.set_ID nid
         (WaBroadcast.mk 0%N userID ("Broadcast_" +:+ pretty (created / Second))
            content messageType "" "sending" None (Some Time_zero) 0 0))
    = WaBroadcast.mk nid userID ("Broadcast_" +:+ pretty (created / Second)) content
        (if decide (messageType = "") then "text" else messageType) ""
        "sending" None (Some Time_zero) 0 0).
  { case_bool_decide; case_decide; done. }
  rewrite Hstored in Hrun. clear Hstored.
  match type of Hrun with
  | context [processBroadcastBatch ?b0 ?l ?w0] =>
      destruct (processBroadcastBatch_spec b0 l w0)
        as ([e|[b' err]] & w2 & Hbatch & Hwa & Hr);
      rewrite Hbatch in Hrun; [done|];
      destruct Hr as (-> & Hid & _);
      exists ("Broadcast_" +:+ pretty (created / Second)), b0, w0, b', w2
  end.
  simpl in Hrun, Hid, Hwa.
  destruct (time_Now (ext w2)) as [sentAt x4]. simpl in Hrun.
  destruct (db_fault x4) as [[d|] x5]; [done|].
  exists sentAt. simpl. do 6 (split; [done|]).
  injection Hrun as <-. simpl.
  unfold set_wa_broadcasts. rewrite Hid, Hwa. simpl. by rewrite insert_insert_eq.
Qed.

(** X18.  A [BroadcastMessage] that returns [nil] has inserted exactly
    one broadcast, under an id that was free, and no other broadcast
    changes.  The stored broadcast has status ["sent"], a sending time, the
    user and content given, and the message type given or, for an empty
    one, the default ["text"] of the column; its counters are not negative
    and sum to at most the number of recipients; the recipient table has
    grown by at most one row per recipient, each for this broadcast. *)
Theorem BroadcastMessage_outcome (w w' : World) (userID : UUID)
    (recipients : list string) (content messageType : string) :
  BroadcastMessage userID recipients content messageType w = (inr tt, w') ->
  ∃ b rows,
    wa_broadcasts (DB w) !! WaBroadcast.ID b = None
    ∧ wa_broadcasts (DB w') = <[WaBroadcast.ID b := b]> (wa_broadcasts (DB w))
    ∧ WaBroadcast.Status b = "sent"
    ∧ is_Some (WaBroadcast.SentAt b)
    ∧ WaBroadcast.UserID b = userID
    ∧ WaBroadcast.Content b = content
    ∧ WaBroadcast.MessageType b
        = (if decide (messageType = "") then "text" else messageType)
    ∧ 0 ≤ WaBroadcast.TotalSent b
    ∧ 0 ≤ WaBroadcast.TotalFailed b
    ∧ WaBroadcast.TotalSent b + WaBroadcast.TotalFailed b ≤ Z.of_nat (length recipients)
    ∧ broadcast_recipients (DB w') = (broadcast_recipients (DB w) ++ rows)%list
    ∧ (length rows ≤ length recipients)%nat
    ∧ Forall (λ row, BroadcastRecipient.BroadcastID row = WaBroadcast.ID b) rows.
Proof.
  intros Hrun.
  destruct (BroadcastMessage_ok _ _ _ _ _ _ Hrun)
    as (name & b0 & w1 & b' & w2 & sentAt & Hfresh & Hb0 & Hw1 & Hbatch & Hid & _ & Hw').
  destruct (processBroadcastBatch_spec b0 recipients w1)
    as (r1 & w3 & Hbatch1 & _ & Hr1).
  destruct (processBroadcastBatch_trace b0 recipients w1)
    as (r2 & w4 & rows & msgs & Hbatch2 & Hrows & _ & Hlen & Hall & _ & Hr2).
  rewrite Hbatch in Hbatch1, Hbatch2.
  injection Hbatch1 as <- <-. injection Hbatch2 as <- <-.
  destruct Hr1 as (_ & _ & Hs & Hf & Hsum). destruct Hr2 as (_ & Hb2 & _).
  assert (Hf0 : WaBroadcast.UserID b0 = userID ∧ WaBroadcast.Content b0 = content
                ∧ WaBroadcast.MessageType b0
                    = (if decide (messageType = "") then "text" else messageType)
                ∧ WaBroadcast.TotalSent b0 = 0 ∧ WaBroadcast.TotalFailed b0 = 0)
    by (rewrite Hb0; done).
  assert (Hf' : WaBroadcast.UserID b' = WaBroadcast.UserID b0
                ∧ WaBroadcast.Content b' = WaBroadcast.Content b0
                ∧ WaBroadcast.MessageType b' = WaBroadcast.MessageType b0)
    by (rewrite Hb2; done).
  destruct Hf0 as (Hu0 & Hc0 & Ht0 & Hs0 & Hfl0), Hf' as (Hu' & Hc' & Ht').
  exists (WaBroadcast.set_SentAt (Some sentAt) (WaBroadcast.set_Status "sent" b')), rows.
  rewrite Hw'. simpl. rewrite Hid. split; [done|]. split; [done|].
  rewrite Hrows, Hw1. simpl.
  split; [done|]. split; [eauto|].
  split; [congruence|]. split; [congruence|]. split; [congruence|].
  split; [lia|]. split; [lia|]. split; [lia|]. split; [done|]. split; [done|].
  eapply Forall_impl; [exact Hall|]. simpl. tauto.
Qed.

(** X19.  When the contact directory resolves every address, a
    [BroadcastMessage] that returns [nil] has stored a broadcast whose two
    counters sum to exactly the number of recipients. *)
Theorem BroadcastMessage_counts_all_resolved (w w' : World) (userID : UUID)
    (recipients : list string) (content messageType : string) :
  (∀ address x, ∃ contact x',
      ContactService_FindOrCreateContact address x = (inr contact, x')) ->
  BroadcastMessage userID recipients content messageType w = (inr tt, w') ->
  ∃ b,
    wa_broadcasts (DB w) !! WaBroadcast.ID b = None
    ∧ wa_broadcasts (DB w') !! WaBroadcast.ID b = Some b
    ∧ WaBroadcast.Status b = "sent"
    ∧ WaBroadcast.TotalSent b + WaBroadcast.TotalFailed b = Z.of_nat (length recipients).
Proof.
  intros Hres Hrun.
  destruct (BroadcastMessage_ok _ _ _ _ _ _ Hrun)
    as (name & b0 & w1 & b' & w2 & sentAt & Hfresh & Hb0 & Hw1 & Hbatch & Hid & _ & Hw').
  pose proof (processBroadcastBatch_all_resolved _ _ _ _ _ _ Hres Hbatch) as Hsum.
  assert (Hf0 : WaBroadcast.TotalSent b0 = 0 ∧ WaBroadcast.TotalFailed b0 = 0)
    by (rewrite Hb0; done).
  exists (WaBroadcast.set_SentAt (Some sentAt) (WaBroadcast.set_Status "sent" b')).
  rewrite Hw'. simpl. rewrite Hid. split; [done|]. rewrite lookup_insert_eq.
  split; [done|]. split; [done|]. lia.
Qed.

(** X21.  [CreateBroadcast] parses the schedule before it writes: with a
    schedule that does not parse it returns the parse error and stores
    nothing.  Whenever it returns an error no table has changed.  When it
    returns [nil], the broadcast it returns has been inserted under an id
    that was free, pending, with both counters 0 and the name, message,
    recipients and owner given; its schedule is nil for an empty
    [scheduleAt] and the parsed time otherwise. *)
Theorem CreateBroadcast_outcome (name message : string) (recipients : list string)
    (scheduleAt : string) (userID : UUID) (w : World) :
  ∃ r w',
    CreateBroadcast name message recipients scheduleAt userID w = (r, w')
    ∧ (∀ err, scheduleAt <> "" -> time_Parse schedule_layout scheduleAt = inl err ->
         r = inl err)
    ∧ match r with
      | inl _ => DB w' = DB w
      | inr b =>
          broadcasts (DB w) !! Broadcast.ID b = None
          ∧ DB w' = set_broadcasts (<[Broadcast.ID b := b]> (broadcasts (DB w))) (DB w)
          ∧ Broadcast.Name b = name
          ∧ Broadcast.Message b = message
          ∧ Broadcast.Recipients b = recipients
          ∧ Broadcast.UserID b = userID
          ∧ Broadcast.Status b = "pending"
          ∧ Broadcast.SuccessCount b = 0
          ∧ Broadcast.FailureCount b = 0
          ∧ (scheduleAt = "" -> Broadcast.ScheduleAt b = None)
          ∧ (scheduleAt <> "" ->
               ∃ scheduleTime,
                 Broadcast.ScheduleAt b = Some scheduleTime
                 ∧ time_Parse schedule_layout scheduleAt = inr scheduleTime)
      end.
Proof.
  unfold CreateBroadcast, broadcast_Create.
  unfold bind, ret, raise, call, db_exec. simpl.
  destruct (uuid_New (ext w)) as [nid x1]. simpl.
  destruct (time_Now x1) as [created x2]. simpl.
  destruct (time_Now x2) as [updated x3]. simpl.
  destruct (decide (scheduleAt = "")) as [Hs|Hs].
  - rewrite (bool_decide_eq_false_2 _ (λ Hne, Hne Hs)). simpl.
    destruct (db_fault x3) as [[d|] x4]; simpl.
    { eexists _, _. split; [done|]. split; [done|]. done. }
    destruct (broadcasts (DB w) !! nid) as [other|] eqn:Hfresh.
    { eexists _, _. split; [done|]. split; [done|]. done. }
    eexists _, _. split; [done|]. split; [done|]. simpl.
    repeat split; done.
  - rewrite (bool_decide_eq_true_2 _ Hs).
    destruct (time_Parse schedule_layout scheduleAt) as [err|t] eqn:Hparse.
    { eexists _, _. split; [done|]. split; [|done]. intros ? _ ?. congruence. }
    simpl.
    destruct (db_fault x3) as [[d|] x4]; simpl.
    { eexists _, _. split; [done|]. split; [done|]. done. }
    destruct (broadcasts (DB w) !! nid) as [other|] eqn:Hfresh.
    { eexists _, _. split; [done|]. split; [done|]. done. }
    eexists _, _. split; [done|]. split; [done|]. simpl.
    repeat split; try done. intros _. by exists t.
Qed.
End BroadcastMessageFacts.

(** ** Round trips of the two campaign stores *)

Section RoundTripFacts.
Context `{Outside}.

Lemma set_broadcasts_id (d : Database) : set_broadcasts (broadcasts d) d = d.
Proof. by destruct d. Qed.

(** X22.  [SendBroadcast] calls no gateway: a run that returns [nil]
    consults the database three times and the clock twice and nothing else,
    and the statistics read right after show the campaign completed with
    every recipient counted as a success and no failure. *)
Theorem SendBroadcast_calls_no_gateway (w w1 : World) (id : UUID) (b : Broadcast.t) :
  broadcasts (DB w) !! id = Some b ->
  Broadcast.ID b = id ->
  SendBroadcast id w = (inr tt, w1) ->
  ext w1
    = snd (db_fault (snd (time_Now (snd (db_fault (snd (time_Now
        (snd (db_fault (ext w))))))))))
  ∧ ∀ s w2, GetBroadcastStats id w1 = (inr s, w2) ->
      stats_status s = "completed"
      ∧ total_recipients s = Z.of_nat (length (Broadcast.Recipients b))
      ∧ stats_success_count s = total_recipients s
      ∧ stats_failure_count s = 0%Z.
Proof.
  intros Hb Hid Hrun. split.
  - unfold SendBroadcast, broadcast_First, broadcast_Save in Hrun.
    unfold bind, call, db_exec in Hrun. simpl in Hrun.
    destruct (db_fault (ext w)) as [[d|] x1]; [done|].
    rewrite Hb in Hrun. simpl in *.
    destruct (time_Now x1) as [sentAt x2]. simpl in *.
    destruct (db_fault x2) as [[d|] x3]; [done|]. simpl in *.
    destruct (time_Now x3) as [completedAt x4]. simpl in *.
    destruct (db_fault x4) as [[d|] x5]; [done|].
    by simplify_eq/=.
  - intros s w2 Hstats.
    destruct (SendBroadcast_ok w w1 id b Hb Hid Hrun) as (sentAt & completedAt & Hdb).
    unfold GetBroadcastStats, broadcast_First, bind, ret, db_exec in Hstats.
    destruct (db_fault (ext w1)) as [[d|] x1]; [done|].
    rewrite Hdb in Hstats. simpl in Hstats. rewrite lookup_insert_eq in Hstats.
    by simplify_eq/=.
Qed.

(** X23.  Creating a Telegram campaign and deleting it again restores
    the database: after a [CreateTelegramBroadcast] and a
    [DeleteTelegramBroadcast] of the new id that both return [nil], every
    table is what it was before the creation. *)
Theorem create_then_delete_telegram (w w1 w2 : World) (name message : string)
    (recipients : list Z) (userID : UUID) (b : TelegramBroadcast.t) :
  CreateTelegramBroadcast name message recipients userID w = (inr b, w1) ->
  DeleteTelegramBroadcast (TelegramBroadcast.ID b) w1 = (inr tt, w2) ->
  telegram_broadcasts (DB w1) !! TelegramBroadcast.ID b = Some b
  ∧ DB w2 = DB w.
Proof.
  intros Hcreate Hdelete.
  unfold CreateTelegramBroadcast, telegram_Create in Hcreate.
  unfold bind, ret, call, db_exec in Hcreate. simpl in Hcreate.
  destruct (uuid_New (ext w)) as [nid x1]. simpl in Hcreate.
  destruct (time_Now x1) as [created x2]. simpl in Hcreate.
  destruct (time_Now x2) as [updated x3]. simpl in Hcreate.
  destruct (db_fault x3) as [[d|] x4]; [done|].
  destruct (telegram_broadcasts (DB w) !! nid) as [other|] eqn:Hfresh; [done|].
  simplify_eq/=.
  unfold DeleteTelegramBroadcast, telegram_Delete, db_exec in Hdelete.
  simpl in Hdelete.
  destruct (db_fault x4) as [[d|] x5]; [done|].
  simplify_eq/=. split; [apply lookup_insert_eq|].
  unfold set_telegram_broadcasts. simpl.
  rewrite delete_insert_eq, delete_id by done. by destruct (DB w).
Qed.

(** X24.  The store of [BroadcastService] round-trips: after a
    [CreateBroadcast] that returned [nil], [GetBroadcast] of the new id
    returns the created broadcast unless the database fails; a
    [DeleteBroadcast] of it that returns [nil] restores every table to what
    it was before the creation, and [GetBroadcast] then fails. *)
Theorem create_get_delete_broadcast (w w1 : World) (name message : string)
    (recipients : list string) (scheduleAt : string) (userID : UUID)
    (b : Broadcast.t) :
  CreateBroadcast name message recipients scheduleAt userID w = (inr b, w1) ->
  (∃ r w2,
      GetBroadcast (Broadcast.ID b) w1 = (r, w2)
      ∧ (r = inr b ∨ ∃ d, r = inl (ErrStorage d))
      ∧ DB w2 = DB w1)
  ∧ ∀ w2, DeleteBroadcast (Broadcast.ID b) w1 = (inr tt, w2) ->
      DB w2 = DB w
      ∧ ∃ r w3,
          GetBroadcast (Broadcast.ID b) w2 = (r, w3)
          ∧ (r = inl ErrRecordNotFound ∨ ∃ d, r = inl (ErrStorage d)).
Proof.
  intros Hcreate.
  assert (Hout : broadcasts (DB w) !! Broadcast.ID b = None
                 ∧ DB w1 = set_broadcasts (<[Broadcast.ID b := b]> (broadcasts (DB w)))
                             (DB w)).
  { unfold CreateBroadcast, broadcast_Create in Hcreate.
    unfold bind, ret, raise, call, db_exec in Hcreate. simpl in Hcreate.
    destruct (uuid_New (ext w)) as [nid x1]. simpl in Hcreate.
    destruct (time_Now x1) as [created x2]. simpl in Hcreate.
    destruct (time_Now x2) as [updated x3]. simpl in Hcreate.
    destruct (bool_decide (scheduleAt ≠ "")).
    - destruct (time_Parse schedule_layout scheduleAt) as [err|t]; [done|].
      simpl in Hcreate.
      destruct (db_fault x3) as [[d|] x4]; [done|].
      destruct (broadcasts (DB w) !! nid) as [other|] eqn:Hfresh; [done|].
      by simplify_eq/=.
    - simpl in Hcreate.
      destruct (db_fault x3) as [[d|] x4]; [done|].
      destruct (broadcasts (DB w) !! nid) as [other|] eqn:Hfresh; [done|].
      by simplify_eq/=. }
  destruct Hout as [Hfresh Hdb].
  split.
  - unfold GetBroadcast, broadcast_First, db_exec.
    destruct (db_fault (ext w1)) as [[d|] x1]; simpl.
    + eexists _, _. split; [done|]. split; [eauto|done].
    + rewrite Hdb. simpl. rewrite lookup_insert_eq.
      eexists _, _. split; [done|]. split; [eauto|done].
  - intros w2 Hdelete.
    unfold DeleteBroadcast, broadcast_Delete, db_exec in Hdelete.
    destruct (db_fault (ext w1)) as [[d|] x1]; [done|].
    injection Hdelete as <-. simpl.
    assert (Hback : set_broadcasts (delete (Broadcast.ID b) (broadcasts (DB w1))) (DB w1)
                    = DB w).
    { rewrite Hdb. unfold set_broadcasts. simpl.
      rewrite delete_insert_eq, delete_id by done. by destruct (DB w). }
    split; [done|].
    unfold GetBroadcast, broadcast_First, db_exec. simpl.
    destruct (db_fault x1) as [[d|] x2]; simpl.
    + eexists _, _. split; [done|]. eauto.
    + rewrite lookup_delete_eq. eexists _, _. split; [done|]. eauto.
Qed.
End RoundTripFacts.

(** ** The further properties on concrete runs *)

Section MoreRuns.
Local Existing Instance Sim.outside.

Lemma CreateTelegramBroadcast_then_Get_witness :
  CreateTelegramBroadcast "Launch" "Hello" [11; 12] 7%N quiet_world
    = (inr created_campaign,
       snd (CreateTelegramBroadcast "Launch" "Hello" [11; 12] 7%N quiet_world))
  ∧ telegram_broadcasts (DB quiet_world) !! TelegramBroadcast.ID created_campaign = None
  ∧ TelegramBroadcast.Status created_campaign = "pending".
Proof.
  assert (Hrun : CreateTelegramBroadcast "Launch" "Hello" [11; 12] 7%N quiet_world
                 = (inr created_campaign,
                    snd (CreateTelegramBroadcast "Launch" "Hello" [11; 12] 7%N
                           quiet_world)))
    by (vm_compute; reflexivity).
  split; [exact Hrun|].
  destruct (CreateTelegramBroadcast_then_Get _ _ _ _ _ _ _ Hrun)
    as (Hfresh & _ & _ & _ & _ & _ & Hst & _).
  auto.
Defined.

Lemma missing_campaign_is_refused_witness :
  telegram_broadcasts (DB pending_world) !! 2%N = None
  ∧ refused (SendTelegramBroadcast 2%N) pending_world
  ∧ refused (CancelTelegramBroadcast 2%N) pending_world.
Proof.
  assert (Hnone : telegram_broadcasts (DB pending_world) !! 2%N = None) by reflexivity.
  split; [exact Hnone|].
  destruct (missing_campaign_is_refused pending_world 2%N 7%N "" "" None [] 0 Hnone)
    as (_ & _ & Hsend & _ & _ & Hcancel & _).
  auto.
Defined.

Lemma stats_after_send_witness :
  telegram_broadcasts (DB pending_world) !! 1%N = Some pending_campaign
  ∧ TelegramBroadcast.ID pending_campaign = 1%N
  ∧ SendTelegramBroadcast 1%N pending_world
      = (inr tt, snd (SendTelegramBroadcast 1%N pending_world))
  ∧ GetTelegramBroadcastStats 1%N (snd (SendTelegramBroadcast 1%N pending_world))
      = (inr sent_stats,
         snd (GetTelegramBroadcastStats 1%N
                (snd (SendTelegramBroadcast 1%N pending_world))))
  ∧ stats_success_count sent_stats + stats_failure_count sent_stats
      = total_recipients sent_stats.
Proof.
  assert (Hb : telegram_broadcasts (DB pending_world) !! 1%N = Some pending_campaign)
    by reflexivity.
  assert (Hid : TelegramBroadcast.ID pending_campaign = 1%N) by reflexivity.
  assert (Hsend : SendTelegramBroadcast 1%N pending_world
                  = (inr tt, snd (SendTelegramBroadcast 1%N pending_world)))
    by (vm_compute; reflexivity).
  assert (Hstats : GetTelegramBroadcastStats 1%N
                     (snd (SendTelegramBroadcast 1%N pending_world))
                   = (inr sent_stats,
                      snd (GetTelegramBroadcastStats 1%N
                             (snd (SendTelegramBroadcast 1%N pending_world)))))
    by (vm_compute; reflexivity).
  split; [exact Hb|]. split; [exact Hid|]. split; [exact Hsend|]. split; [exact Hstats|].
  destruct (stats_after_send _ _ _ _ _ _ Hb Hid Hsend Hstats)
    as (_ & _ & _ & _ & _ & _ & Hsum & _).
  exact Hsum.
Defined.

Lemma send_with_uniform_gateway_witness :
  (∀ chatID text mode x,
      accepted (fst (@telegram_Client_SendMessage rejecting_gateway chatID text mode x))
        = false)
  ∧ telegram_broadcasts (DB rejecting_world) !! 1%N = Some pending_campaign
  ∧ TelegramBroadcast.ID pending_campaign = 1%N
  ∧ @SendTelegramBroadcast rejecting_gateway 1%N rejecting_world
      = (inr tt, snd (@SendTelegramBroadcast rejecting_gateway 1%N rejecting_world))
  ∧ ∃ b',
      telegram_broadcasts
        (DB (snd (@SendTelegramBroadcast rejecting_gateway 1%N rejecting_world))) !! 1%N
        = Some b'
      ∧ TelegramBroadcast.SuccessCount b' = 0
      ∧ TelegramBroadcast.FailureCount b' = 3.
Proof.
  assert (Huni : ∀ chatID text mode x,
             accepted (fst (@telegram_Client_SendMessage rejecting_gateway
                              chatID text mode x)) = false)
    by (intros; reflexivity).
  assert (Hb : telegram_broadcasts (DB rejecting_world) !! 1%N = Some pending_campaign)
    by reflexivity.
  assert (Hid : TelegramBroadcast.ID pending_campaign = 1%N) by reflexivity.
  assert (Hrun : @SendTelegramBroadcast rejecting_gateway 1%N rejecting_world
                 = (inr tt,
                    snd (@SendTelegramBroadcast rejecting_gateway 1%N rejecting_world)))
    by (vm_compute; reflexivity).
  split; [exact Huni|]. split; [exact Hb|]. split; [exact Hid|]. split; [exact Hrun|].
  destruct (@send_with_uniform_gateway rejecting_gateway false _ _ _ _ Huni Hb Hid Hrun)
    as (b' & Hb' & _ & Hs & Hf).
  exists b'. auto.
Defined.

Lemma SendTelegramBroadcast_frame_witness :
  telegram_broadcasts (DB pending_world) !! 1%N = Some pending_campaign
  ∧ TelegramBroadcast.ID pending_campaign = 1%N
  ∧ SendTelegramBroadcast 1%N pending_world
      = (inr tt, snd (SendTelegramBroadcast 1%N pending_world))
  ∧ messages (DB (snd (SendTelegramBroadcast 1%N pending_world)))
      = messages (DB pending_world).
Proof.
  assert (Hb : telegram_broadcasts (DB pending_world) !! 1%N = Some pending_campaign)
    by reflexivity.
  assert (Hid : TelegramBroadcast.ID pending_campaign = 1%N) by reflexivity.
  assert (Hsend : SendTelegramBroadcast 1%N pending_world
                  = (inr tt, snd (SendTelegramBroadcast 1%N pending_world)))
    by (vm_compute; reflexivity).
  split; [exact Hb|]. split; [exact Hid|]. split; [exact Hsend|].
  destruct (SendTelegramBroadcast_frame _ _ _ _ Hb Hid Hsend)
    as (b' & _ & _ & _ & _ & _ & _ & _ & _ & _ & _ & _ & _ & _ & _ & Hm).
  exact Hm.
Defined.

Lemma cancel_twice_witness :
  telegram_broadcasts (DB pending_world) !! 1%N = Some pending_campaign
  ∧ TelegramBroadcast.ID pending_campaign = 1%N
  ∧ CancelTelegramBroadcast 1%N pending_world
      = (inr tt, snd (CancelTelegramBroadcast 1%N pending_world))
  ∧ ∃ r w2,
      CancelTelegramBroadcast 1%N (snd (CancelTelegramBroadcast 1%N pending_world))
        = (r, w2)
      ∧ (r = inl (Errorf "can only cancel pending broadcasts")
         ∨ ∃ d, r = inl (ErrStorage d)).
Proof.
  assert (Hb : telegram_broadcasts (DB pending_world) !! 1%N = Some pending_campaign)
    by reflexivity.
  assert (Hid : TelegramBroadcast.ID pending_campaign = 1%N) by reflexivity.
  assert (Hrun : CancelTelegramBroadcast 1%N pending_world
                 = (inr tt, snd (CancelTelegramBroadcast 1%N pending_world)))
    by (vm_compute; reflexivity).
  split; [exact Hb|]. split; [exact Hid|]. split; [exact Hrun|].
  destruct (cancel_twice _ _ _ _ Hb Hid Hrun) as (r & w2 & Hrun2 & Hr & _).
  exists r, w2. auto.
Defined.

Lemma import_then_export_witness :
  telegram_broadcasts (DB mixed_world) !! 1%N = Some mixed_campaign
  ∧ TelegramBroadcast.ID mixed_campaign = 1%N
  ∧ ∃ r w1,
      ImportTelegramBroadcastRecipients 1%N [5; -1] mixed_world = (r, w1)
      ∧ (r = inr tt ∨ (∃ d, r = inl (ErrStorage d)) ∧ DB w1 = DB mixed_world).
Proof.
  assert (Hb : telegram_broadcasts (DB mixed_world) !! 1%N = Some mixed_campaign)
    by reflexivity.
  assert (Hid : TelegramBroadcast.ID mixed_campaign = 1%N) by reflexivity.
  split; [exact Hb|]. split; [exact Hid|].
  destruct (import_then_export mixed_world 1%N mixed_campaign [5; -1] Hb Hid)
    as (r & w1 & Hrun & Hr & _).
  exists r, w1. auto.
Defined.

Lemma Paginate_in_range_witness :
  0 < 25 ∧ 0 < 10 ∧ 25 + 10 < 2 ^ 63
  ∧ ∃ p, Paginate 25 1 10 = Some p ∧ 1 ≤ page p ≤ total_pages p.
Proof.
  assert (H1 : 0 < 25) by lia.
  assert (H2 : 0 < 10) by lia.
  assert (H3 : 25 + 10 < 2 ^ 63) by (vm_compute; reflexivity).
  split; [exact H1|]. split; [exact H2|]. split; [exact H3|].
  destruct (Paginate_in_range 25 1 10 H1 H2 H3)
    as (p & Hp & _ & _ & _ & _ & _ & Hpage & _).
  exists p. auto.
Defined.

Lemma Paginate_edges_witness :
  0 < 10 < 2 ^ 63
  ∧ Paginate 0 1 10 = Some (mkPagination 0 10 (- 10) 0 0 false false).
Proof.
  assert (H1 : 0 < 10 < 2 ^ 63) by (split; vm_compute; reflexivity).
  split; [exact H1|].
  destruct (Paginate_edges 1 10 H1) as [Hzero _]. exact Hzero.
Defined.

Lemma BroadcastMessage_loop_fuel_witness :
  (length (Sim.addresses 3) ≤ 5)%nat
  ∧ BroadcastMessage_loop 5 (Sim.addresses 3) 0 fresh_broadcast (directory_failing [])
    = BroadcastMessage_loop (length (Sim.addresses 3)) (Sim.addresses 3) 0
        fresh_broadcast (directory_failing []).
Proof.
  assert (Hfuel : (length (Sim.addresses 3) ≤ 5)%nat) by (vm_compute; lia).
  split; [exact Hfuel|].
  destruct (BroadcastMessage_loop_fuel 5 (Sim.addresses 3) fresh_broadcast
              (directory_failing []) Hfuel) as [_ Hsame].
  exact Hsame.
Defined.

Lemma BroadcastMessage_counts_all_resolved_witness :
  (∀ address x, ∃ contact x',
      @ContactService_FindOrCreateContact resolving_directory address x
        = (inr contact, x'))
  ∧ @BroadcastMessage resolving_directory 7%N (Sim.addresses 3) "hi" "text"
      resolving_world
    = (inr tt,
       snd (@BroadcastMessage resolving_directory 7%N (Sim.addresses 3) "hi" "text"
              resolving_world))
  ∧ ∃ b,
      wa_broadcasts
        (DB (snd (@BroadcastMessage resolving_directory 7%N (Sim.addresses 3) "hi"
                    "text" resolving_world))) !! WaBroadcast.ID b = Some b
      ∧ WaBroadcast.TotalSent b + WaBroadcast.TotalFailed b = 3.
Proof.
  assert (Hres : ∀ address x, ∃ contact x',
             @ContactService_FindOrCreateContact resolving_directory address x
               = (inr contact, x'))
    by (intros; eexists _, _; reflexivity).
  assert (Hrun : @BroadcastMessage resolving_directory 7%N (Sim.addresses 3) "hi" "text"
                   resolving_world
                 = (inr tt,
                    snd (@BroadcastMessage resolving_directory 7%N (Sim.addresses 3)
                           "hi" "text" resolving_world)))
    by (vm_compute; reflexivity).
  split; [exact Hres|]. split; [exact Hrun|].
  destruct (@BroadcastMessage_counts_all_resolved resolving_directory _ _ _ _ _ _
              Hres Hrun) as (b & _ & Hb & _ & Hsum).
  exists b. auto.
Defined.

Lemma BroadcastMessage_outcome_witness :
  BroadcastMessage 7%N (Sim.addresses 3) "hi" "text" (directory_failing ["+621"])
    = (inr tt,
       snd (BroadcastMessage 7%N (Sim.addresses 3) "hi" "text"
              (directory_failing ["+621"])))
  ∧ ∃ b,
      wa_broadcasts (DB (directory_failing ["+621"])) !! WaBroadcast.ID b = None
      ∧ WaBroadcast.Status b = "sent"
      ∧ WaBroadcast.TotalSent b + WaBroadcast.TotalFailed b ≤ 3.
Proof.
  assert (Hrun : BroadcastMessage 7%N (Sim.addresses 3) "hi" "text"
                   (directory_failing ["+621"])
                 = (inr tt,
                    snd (BroadcastMessage 7%N (Sim.addresses 3) "hi" "text"
                           (directory_failing ["+621"]))))
    by (vm_compute; reflexivity).
  split; [exact Hrun|].
  destruct (BroadcastMessage_outcome _ _ _ _ _ _ Hrun)
    as (b & rows & Hfresh & _ & Hst & _ & _ & _ & _ & _ & _ & Hsum & _).
  exists b. auto.
Defined.

Lemma processBroadcastBatch_rows_witness :
  (∀ req x, fst (@whatsapp_Client_Do Sim.outside req x) <> inr [])
  ∧ ∃ b' w',
      processBroadcastBatch fresh_broadcast (Sim.addresses 3) (directory_failing ["+621"])
        = (inr (b', None), w').
Proof.
  assert (Hreply : ∀ req x, fst (@whatsapp_Client_Do Sim.outside req x) <> inr []).
  { intros req x. simpl. unfold Sim.whatsapp_Client_Do.
    case_bool_decide; simpl; discriminate. }
  split; [exact Hreply|].
  destruct (processBroadcastBatch_rows fresh_broadcast (Sim.addresses 3)
              (directory_failing ["+621"])) as [_ Hreturns].
  exact (Hreturns Hreply).
Defined.

Lemma processBroadcastBatch_messages_witness :
  ∃ b' err w',
    processBroadcastBatch fresh_broadcast (Sim.addresses 3) (directory_failing ["+621"])
      = (inr (b', err), w')
    ∧ ∃ msgs,
        messages (DB w') = (messages (DB (directory_failing ["+621"])) ++ msgs)%list
        ∧ WaBroadcast.TotalSent b'
            = WaBroadcast.TotalSent fresh_broadcast + Z.of_nat (length msgs).
Proof.
  destruct (processBroadcastBatch fresh_broadcast (Sim.addresses 3)
              (directory_failing ["+621"])) as [[e|[b' err]] w'] eqn:Hrun.
  - exfalso. vm_compute in Hrun. discriminate.
  - exists b', err, w'. split; [reflexivity|].
    destruct (processBroadcastBatch_messages _ _ _ _ _ _ Hrun)
      as (msgs & Hmsgs & Hsent & _).
    exists msgs. auto.
Defined.

(** With an API that answers without a message, [SendMessage] panics, and
    so does the [BroadcastMessage] that reaches it: the broadcast stays
    stored as sending, and no recipient row is written. *)
Lemma silent_reply_panics :
  fst (@SendMessage silent_api 7%N "+620" "hi" "text" silent_world)
    = inl index_out_of_range
  ∧ fst (@BroadcastMessage silent_api 7%N ["+620"; "+621"] "hi" "text" silent_world)
      = inl index_out_of_range
  ∧ (WaBroadcast.Status
       <$> wa_broadcasts
             (DB (snd (@BroadcastMessage silent_api 7%N ["+620"; "+621"] "hi" "text"
                         silent_world))) !! 100%N) = Some "sending"
  ∧ broadcast_recipients
      (DB (snd (@BroadcastMessage silent_api 7%N ["+620"; "+621"] "hi" "text"
                  silent_world))) = [].
Proof. repeat split; vm_compute; reflexivity. Qed.

(** A broadcast sent without a message type is stored with the default
    type of the column. *)
Lemma blank_message_type_defaults :
  fst (BroadcastMessage 7%N ["+620"] "hi" "" quiet_world) = inr tt
  ∧ (WaBroadcast.MessageType
       <$> wa_broadcasts (DB (snd (BroadcastMessage 7%N ["+620"] "hi" "" quiet_world)))
             !! 100%N) = Some "text".
Proof. split; vm_compute; reflexivity. Qed.

Lemma SendBroadcast_calls_no_gateway_witness :
  broadcasts (DB promo_world) !! 1%N = Some promo_broadcast
  ∧ Broadcast.ID promo_broadcast = 1%N
  ∧ SendBroadcast 1%N promo_world = (inr tt, snd (SendBroadcast 1%N promo_world))
  ∧ Sim.whatsapp_outbox (ext (snd (SendBroadcast 1%N promo_world))) = []
  ∧ ext (snd (SendBroadcast 1%N promo_world))
      = snd (db_fault (snd (time_Now (snd (db_fault (snd (time_Now
          (snd (db_fault (ext promo_world))))))))))%Z.
Proof.
  assert (Hb : broadcasts (DB promo_world) !! 1%N = Some promo_broadcast) by reflexivity.
  assert (Hid : Broadcast.ID promo_broadcast = 1%N) by reflexivity.
  assert (Hrun : SendBroadcast 1%N promo_world
                 = (inr tt, snd (SendBroadcast 1%N promo_world)))
    by (vm_compute; reflexivity).
  split; [exact Hb|]. split; [exact Hid|]. split; [exact Hrun|].
  split; [vm_compute; reflexivity|].
  destruct (SendBroadcast_calls_no_gateway _ _ _ _ Hb Hid Hrun) as [Hext _].
  exact Hext.
Defined.

Lemma create_then_delete_telegram_witness :
  CreateTelegramBroadcast "Launch" "Hello" [11; 12] 7%N quiet_world
    = (inr created_campaign,
       snd (CreateTelegramBroadcast "Launch" "Hello" [11; 12] 7%N quiet_world))
  ∧ DeleteTelegramBroadcast (TelegramBroadcast.ID created_campaign)
      (snd (CreateTelegramBroadcast "Launch" "Hello" [11; 12] 7%N quiet_world))
    = (inr tt,
       snd (DeleteTelegramBroadcast (TelegramBroadcast.ID created_campaign)
              (snd (CreateTelegramBroadcast "Launch" "Hello" [11; 12] 7%N quiet_world))))
  ∧ DB (snd (DeleteTelegramBroadcast (TelegramBroadcast.ID created_campaign)
               (snd (CreateTelegramBroadcast "Launch" "Hello" [11; 12] 7%N quiet_world))))
    = DB quiet_world.
Proof.
  assert (Hcreate : CreateTelegramBroadcast "Launch" "Hello" [11; 12] 7%N quiet_world
                    = (inr created_campaign,
                       snd (CreateTelegramBroadcast "Launch" "Hello" [11; 12] 7%N
                              quiet_world)))
    by (vm_compute; reflexivity).
  assert (Hdelete :
            DeleteTelegramBroadcast (TelegramBroadcast.ID created_campaign)
              (snd (CreateTelegramBroadcast "Launch" "Hello" [11; 12] 7%N quiet_world))
            = (inr tt,
               snd (DeleteTelegramBroadcast (TelegramBroadcast.ID created_campaign)
                      (snd (CreateTelegramBroadcast "Launch" "Hello" [11; 12] 7%N
                              quiet_world)))))
    by (vm_compute; reflexivity).
  split; [exact Hcreate|]. split; [exact Hdelete|].
  destruct (create_then_delete_telegram _ _ _ _ _ _ _ _ Hcreate Hdelete) as [_ Hback].
  exact Hback.
Defined.

Lemma create_get_delete_broadcast_witness :
  CreateBroadcast "Promo" "Hi" ["+620"] "" 7%N quiet_world
    = (inr created_broadcast,
       snd (CreateBroadcast "Promo" "Hi" ["+620"] "" 7%N quiet_world))
  ∧ ∃ r w2,
      GetBroadcast (Broadcast.ID created_broadcast)
        (snd (CreateBroadcast "Promo" "Hi" ["+620"] "" 7%N quiet_world)) = (r, w2)
      ∧ (r = inr created_broadcast ∨ ∃ d, r = inl (ErrStorage d)).
Proof.
  assert (Hcreate : CreateBroadcast "Promo" "Hi" ["+620"] "" 7%N quiet_world
                    = (inr created_broadcast,
                       snd (CreateBroadcast "Promo" "Hi" ["+620"] "" 7%N quiet_world)))
    by (vm_compute; reflexivity).
  split; [exact Hcreate|].
  destruct (create_get_delete_broadcast _ _ _ _ _ _ _ _ Hcreate)
    as [(r & w2 & Hget & Hr & _) _].
  exists r, w2. auto.
Defined.
End MoreRuns.
